(** * Dark Knight Phantom SIEM: detection engine and PQL engine

  A shallow embedding of [backend/apps/detection/engine.py] and
  [backend/apps/query/pql_engine.py], with the properties of the
  natural-language specification stated and proved over it.

  Conventions of the embedding.
  - Python [str] values are [string]; case folding and whitespace are
    the ASCII ones.
  - A [datetime] is an integer number of microseconds on an unbounded
    time line, a [timedelta] an integer number of microseconds.  Every
    call of [timezone.now()] is an explicit argument [now].
  - The database tables are lists in primary-key order: [create] appends,
    [save] rewrites the row in place, [delete] filters.
  - A Python exception is a value of [exn] in the left summand of a sum. *)

From stdpp Require Import gmap strings list pretty.
From Stdlib Require Import ZArith Ascii String Lia.

Local Open Scope string_scope.
Local Open Scope Z_scope.

(** ** Python strings *)

Module PyStr.

Definition is_upper (c : ascii) : bool :=
  (65 <=? nat_of_ascii c)%nat && (nat_of_ascii c <=? 90)%nat.

Definition lower_char (c : ascii) : ascii :=
  if is_upper c then ascii_of_nat (nat_of_ascii c + 32) else c.

Definition is_lower (c : ascii) : bool :=
  (97 <=? nat_of_ascii c)%nat && (nat_of_ascii c <=? 122)%nat.

Definition upper_char (c : ascii) : ascii :=
  if is_lower c then ascii_of_nat (nat_of_ascii c - 32) else c.

Fixpoint map_chars (f : ascii -> ascii) (s : string) : string :=
  match s with
  | EmptyString => EmptyString
  | String c r => String (f c) (map_chars f r)
  end.

(** [s.lower()] and [s.upper()] *)
Definition lower (s : string) : string := map_chars lower_char s.
Definition upper (s : string) : string := map_chars upper_char s.

(** The characters [str.isspace] accepts below 128. *)
Definition is_space (c : ascii) : bool :=
  let n := nat_of_ascii c in
  ((9 <=? n)%nat && (n <=? 13)%nat) || ((28 <=? n)%nat && (n <=? 32)%nat).

Fixpoint lstrip (s : string) : string :=
  match s with
  | String c r => if is_space c then lstrip r else s
  | EmptyString => EmptyString
  end.

Fixpoint rstrip (s : string) : string :=
  match s with
  | EmptyString => EmptyString
  | String c r =>
      match rstrip r with
      | EmptyString => if is_space c then EmptyString else String c EmptyString
      | r' => String c r'
      end
  end.

(** [s.strip()] *)
Definition strip (s : string) : string := rstrip (lstrip s).

(** [s.startswith(p)] *)
Definition startswith (s p : string) : bool := String.prefix p s.

(** [s.endswith(p)] *)
Definition endswith (s p : string) : bool :=
  String.prefix (String.rev p) (String.rev s).

(** [p in s] for two strings *)
Fixpoint contains (p s : string) : bool :=
  String.prefix p s ||
  match s with
  | EmptyString => false
  | String _ r => contains p r
  end.

(** [x in l] for a list of strings *)
Definition mem (x : string) (l : list string) : bool :=
  existsb (String.eqb x) l.

(** [s[-1]] when [s] is not empty *)
Fixpoint last_char (s : string) : option ascii :=
  match s with
  | EmptyString => None
  | String c EmptyString => Some c
  | String _ r => last_char r
  end.

(** [s[:-1]] *)
Fixpoint drop_last (s : string) : string :=
  match s with
  | EmptyString => EmptyString
  | String _ EmptyString => EmptyString
  | String c r => String c (drop_last r)
  end.

(** [s.replace(c, by)] for a one-character pattern *)
Fixpoint replace_char (c : ascii) (by_ : string) (s : string) : string :=
  match s with
  | EmptyString => EmptyString
  | String d r =>
      if Ascii.eqb c d then by_ +:+ replace_char c by_ r
      else String d (replace_char c by_ r)
  end.

(** Truth value of an optional string: [None] and [''] are false. *)
Definition truthy (o : option string) : bool :=
  match o with
  | Some (String _ _) => true
  | _ => false
  end.

(** [a or b] on optional strings *)
Definition or_else (a b : option string) : option string :=
  if truthy a then a else b.

End PyStr.

(** ** Python values and exceptions *)

(** The exceptions the two engines can meet. *)
Inductive exn : Type :=
| FieldError
| ValueError
| AttributeError
| TypeError
| ReError
| PQLSyntaxError
| PQLExecutionError.

(** An attribute value as [getattr] returns it. *)
Inductive pyval : Type :=
| PNone
| PStr (s : string)
| PInt (n : Z).

Definition pyval_truthy (v : pyval) : bool :=
match v with
| PNone => false
| PStr s => PyStr.truthy (Some s)
| PInt n => negb (n =? 0)
end.

(** [str(v)] *)
Definition py_str (v : pyval) : string :=
match v with
| PNone => "None"
| PStr s => s
| PInt n => pretty n
end.

Definition of_opt_str (o : option string) : pyval :=
match o with
| Some s => PStr s
| None => PNone
end.

(** ** Time *)

Definition seconds (n : Z) : Z := n * 1000000.
Definition minutes (n : Z) : Z := n * 60000000.
Definition hours (n : Z) : Z := n * 3600000000.
Definition days (n : Z) : Z := n * 86400000000.
Definition weeks (n : Z) : Z := n * 604800000000.

(** ** Detection engine *)

Module Detection.

(** *** Data model *)

(** [apps.events.models.SecurityEvent], with the columns the engine reads
    by name; [pk] is the row's [id], and [other_fields] is the attribute
    view of every remaining column. *)
Record SecurityEvent : Type := {
  pk : Z;
  event_id : Z;
  timestamp : Z;
  hostname : string;
  user_name : option string;
  target_user_name : option string;
  source_ip : option string;
  process_name : option string;
  service_name : option string;
  other_fields : gmap string pyval
}.

(** [getattr(event, field, None)] *)
Definition getattr (e : SecurityEvent) (field : string) : pyval :=
  if String.eqb field "event_id" then PInt (event_id e)
  else if String.eqb field "hostname" then PStr (hostname e)
  else if String.eqb field "user_name" then of_opt_str (user_name e)
  else if String.eqb field "target_user_name" then of_opt_str (target_user_name e)
  else if String.eqb field "source_ip" then of_opt_str (source_ip e)
  else if String.eqb field "process_name" then of_opt_str (process_name e)
  else if String.eqb field "service_name" then of_opt_str (service_name e)
  else default PNone (other_fields e !! field).

(** A suppression condition or rule pattern: a JSON list or a regular
    expression source. *)
Inductive pattern : Type :=
| PList (items : list pyval)
| PRegex (re : string).

(** One step of a SEQUENCE rule, [{event_ids, event_id, count}]. *)
Record step : Type := {
  step_event_ids : option (list Z);
  step_event_id : option Z;
  step_count : option Z
}.

(** The [logic] JSON object of a rule: every key is optional. *)
Record Logic : Type := {
  event_ids : option (list Z);
  exclude_system_accounts : option bool;
  track_by : option string;
  window_minutes : option Z;
  track_unique : option (list string);
  threshold : option Z;
  unique_threshold : option (string * Z);
  sequence : option (list step);
  patterns : option (list (string * pattern));
  required_matches : option Z;
  required_events : option (list Z);
  min_counts : option (list (Z * Z))
}.

Record DetectionRule : Type := {
  rule_id : Z;
  name : string;
  severity : string;
  rule_type : string;
  logic : Logic;
  enabled : bool;
  cooldown_minutes : Z;
  min_confidence : Z;
  total_alerts : Z
}.

Definition with_total_alerts (r : DetectionRule) (n : Z) : DetectionRule :=
  {| rule_id := rule_id r; name := name r; severity := severity r;
     rule_type := rule_type r; logic := logic r; enabled := enabled r;
     cooldown_minutes := cooldown_minutes r;
     min_confidence := min_confidence r; total_alerts := n |}.

Record EntityTracker : Type := {
  entity_type : string;
  entity_value : string;
  tracker_hostname : string;
  window_start : Z;
  window_end : Z;
  event_counts : gmap Z Z;
  unique_values : gmap string (gset string);
  tracker_event_ids : list Z;
  last_event_time : option Z
}.

Record Evidence : Type := {
  ev_event_counts : gmap Z Z;
  ev_unique_values : gmap string (gset string);
  triggering_event_id : Z;
  ev_window_minutes : Z;
  matched_patterns : option Z
}.

Record DetectionAlert : Type := {
  alert_rule : Z;
  title : string;
  alert_severity : string;
  alert_hostname : string;
  alert_user_name : string;
  alert_source_ip : option string;
  target_user : string;
  matched_events : list Z;
  event_count : Z;
  evidence : Evidence;
  confidence : Z;
  first_event_time : Z;
  alert_last_event_time : Z;
  triggered_at : Z
}.

Record AlertSuppressionRule : Type := {
  suppression_name : string;
  detection_rule : Z;
  conditions : list (string * pattern);
  suppression_enabled : bool;
  expires_at : option Z
}.

(** The three tables the engine reads and writes. *)
Record DB : Type := {
  trackers : list EntityTracker;
  alerts : list DetectionAlert;
  suppressions : list AlertSuppressionRule
}.

Definition with_trackers (db : DB) (ts : list EntityTracker) : DB :=
  {| trackers := ts; alerts := alerts db; suppressions := suppressions db |}.

Definition with_alerts (db : DB) (als : list DetectionAlert) : DB :=
  {| trackers := trackers db; alerts := als; suppressions := suppressions db |}.

(** *** EntityTracker methods *)

(** Modelled from the spec: [EntityTracker.get_event_count] of
    [detection/models.py], absent from the sources; [event_counts] is the
    "mapping event-id -> occurrence count within window". *)
Definition get_event_count (t : EntityTracker) (eid : Z) : Z :=
  default 0 (event_counts t !! eid).

(** Modelled from the spec: [EntityTracker.get_total_count] of
    [detection/models.py]; with a list of event ids it "counts matching
    event ids within the window", without one it counts every event. *)
Definition get_total_count (t : EntityTracker) (ids : option (list Z)) : Z :=
  match ids with
  | Some l => foldr (fun eid acc => get_event_count t eid + acc) 0 l
  | None => map_fold (fun _ n acc => n + acc) 0 (event_counts t)
  end.

(** Modelled from the spec: [EntityTracker.get_unique_count] of
    [detection/models.py], "the distinct-value count for that field". *)
Definition get_unique_count (t : EntityTracker) (field : string) : Z :=
  Z.of_nat (size (default ∅ (unique_values t !! field))).

(** Modelled from the spec: [EntityTracker.increment_event] of
    [detection/models.py]: "increment the tracker's per-event-id counter
    and append the event id". *)
Definition increment_event (t : EntityTracker) (eid : Z) (event_pk : Z)
  : EntityTracker :=
  {| entity_type := entity_type t; entity_value := entity_value t;
     tracker_hostname := tracker_hostname t;
     window_start := window_start t; window_end := window_end t;
     event_counts := <[eid := get_event_count t eid + 1]> (event_counts t);
     unique_values := unique_values t;
     tracker_event_ids := tracker_event_ids t ++ [event_pk];
     last_event_time := last_event_time t |}.

(** Modelled from the spec: [EntityTracker.add_unique_value] of
    [detection/models.py]: "record any track_unique fields' values into
    the unique-value sets". *)
Definition add_unique_value (t : EntityTracker) (field value : string)
  : EntityTracker :=
  {| entity_type := entity_type t; entity_value := entity_value t;
     tracker_hostname := tracker_hostname t;
     window_start := window_start t; window_end := window_end t;
     event_counts := event_counts t;
     unique_values :=
       <[field := {[value]} ∪ default ∅ (unique_values t !! field)]>
         (unique_values t);
     tracker_event_ids := tracker_event_ids t;
     last_event_time := last_event_time t |}.

Definition with_window_end (t : EntityTracker) (w : Z) : EntityTracker :=
  {| entity_type := entity_type t; entity_value := entity_value t;
     tracker_hostname := tracker_hostname t;
     window_start := window_start t; window_end := w;
     event_counts := event_counts t; unique_values := unique_values t;
     tracker_event_ids := tracker_event_ids t;
     last_event_time := last_event_time t |}.

Definition with_last_event_time (t : EntityTracker) (w : Z) : EntityTracker :=
  {| entity_type := entity_type t; entity_value := entity_value t;
     tracker_hostname := tracker_hostname t;
     window_start := window_start t; window_end := window_end t;
     event_counts := event_counts t; unique_values := unique_values t;
     tracker_event_ids := tracker_event_ids t;
     last_event_time := Some w |}.

(** *** Class constants *)

Definition SYSTEM_ACCOUNTS : list string :=
  [ "system"; "local service"; "network service"; "anonymous logon";
    "nt authority\system"; "nt authority\local service";
    "nt authority\network service"; "window manager\dwm-1";
    "window manager\dwm-2"; "window manager\dwm-3";
    "font driver host\umfd-0"; "font driver host\umfd-1";
    "font driver host\umfd-2"; "font driver host\umfd-3";
    "$"; "-"; ""; "n/a"; "none";
    "defaultaccount"; "guest"; "wdagutilityaccount";
    "svc_"; "service_"; "sql"; "iis"; "scom"; "exchange"; "backup" ].

Definition NOISE_EVENT_IDS : list Z :=
  [ 4798; 4799; 5320; 5351; 5117; 4117; 5857; 7040 ].

Definition in_ids (x : Z) (l : list Z) : bool := existsb (Z.eqb x) l.

(** *** [is_system_account] *)

Definition is_system_account (user_name : option string) : bool :=
  if negb (PyStr.truthy user_name) then true
  else
    let user_lower := PyStr.strip (PyStr.lower (default "" user_name)) in
    if PyStr.mem user_lower SYSTEM_ACCOUNTS then true
    else if PyStr.endswith user_lower "$" then true
    else if PyStr.startswith user_lower "dwm-"
            || PyStr.startswith user_lower "umfd-" then true
    else if PyStr.contains "nt authority" user_lower
            || PyStr.contains "nt service" user_lower then true
    else if PyStr.contains "window manager" user_lower
            || PyStr.contains "font driver" user_lower then true
    else if PyStr.startswith user_lower "svc_"
            || PyStr.startswith user_lower "svc-" then true
    else if PyStr.startswith user_lower "service_"
            || PyStr.startswith user_lower "service-" then true
    else false.


(** *** The engine *)

Section Engine.

(** [re.match(p, s, re.IGNORECASE)] and [re.search(p, s, re.IGNORECASE)]:
    the answer of Python's [re] module, [None] when [p] does not compile. *)
Variable re_match : string -> string -> option bool.
Variable re_search : string -> string -> option bool.

(** [queryset.first()] over a table kept in primary-key order, with the
    position of the row found. *)
Fixpoint first_row (p : EntityTracker -> bool) (l : list EntityTracker)
  : option (nat * EntityTracker) :=
  match l with
  | [] => None
  | t :: r =>
      if p t then Some (0%nat, t)
      else match first_row p r with
           | Some (i, t') => Some (S i, t')
           | None => None
           end
  end.

Definition tracker_overlaps (etype evalue host : string) (window_start : Z)
    (t : EntityTracker) : bool :=
  String.eqb (entity_type t) etype
  && String.eqb (entity_value t) evalue
  && String.eqb (tracker_hostname t) host
  && (window_start <=? window_end t).

(** [get_or_create_tracker]: the tracker, its position in the table, and
    the table after the clean-up and the write. *)
Definition get_or_create_tracker (now : Z) (etype evalue host : string)
    (window : Z) (event_time : option Z) (table : list EntityTracker)
  : nat * EntityTracker * list EntityTracker :=
  let reference_time := default now event_time in
  let window_start := reference_time - minutes window in
  let cleanup_threshold := now - hours 1 in
  let table :=
    List.filter (fun t => negb (window_end t <? cleanup_threshold)) table in
  match first_row (tracker_overlaps etype evalue host window_start) table with
  | Some (i, tracker) =>
      if window_end tracker <? reference_time then
        let tracker :=
          with_window_end tracker (reference_time + minutes window) in
        (i, tracker, <[i := tracker]> table)
      else (i, tracker, table)
  | None =>
      let tracker :=
        {| entity_type := etype; entity_value := evalue;
           tracker_hostname := host;
           window_start := reference_time;
           window_end := reference_time + minutes window;
           event_counts := ∅; unique_values := ∅;
           tracker_event_ids := []; last_event_time := None |} in
      (List.length table, tracker, (table ++ [tracker])%list)
  end.

(** [[p.lower() for p in pattern]] *)
Fixpoint lower_all (items : list pyval) : exn + list string :=
  match items with
  | [] => inr []
  | PStr s :: r =>
      match lower_all r with
      | inr l => inr (PyStr.lower s :: l)
      | inl e => inl e
      end
  | _ :: _ => inl AttributeError
  end.

(** The inner loop of [check_suppression] over [conditions.items()]. *)
Fixpoint conditions_match (conds : list (string * pattern)) (e : SecurityEvent)
  : exn + bool :=
  match conds with
  | [] => inr true
  | (field, pat) :: rest =>
      let event_value := getattr e field in
      if pyval_truthy event_value then
        match pat with
        | PList items =>
            match lower_all items with
            | inl ex => inl ex
            | inr lowered =>
                if PyStr.mem (PyStr.lower (py_str event_value)) lowered
                then conditions_match rest e
                else inr false
            end
        | PRegex re =>
            match re_match re (py_str event_value) with
            | None => inl ReError
            | Some true => conditions_match rest e
            | Some false => inr false
            end
        end
      else conditions_match rest e
  end.

(** The filter of [check_suppression]: enabled, for this rule, and without
    expiry or expiring in the future. *)
Definition suppression_selected (now : Z) (rule : DetectionRule)
    (s : AlertSuppressionRule) : bool :=
  suppression_enabled s
  && (detection_rule s =? rule_id rule)
  && match expires_at s with
     | None => true
     | Some t => now <? t
     end.

Fixpoint any_suppression (l : list AlertSuppressionRule) (e : SecurityEvent)
  : exn + bool :=
  match l with
  | [] => inr false
  | s :: r =>
      match conditions_match (conditions s) e with
      | inl ex => inl ex
      | inr true => inr true
      | inr false => any_suppression r e
      end
  end.

Definition check_suppression (now : Z) (rule : DetectionRule)
    (e : SecurityEvent) (db : DB) : exn + bool :=
  any_suppression (List.filter (suppression_selected now rule) (suppressions db)) e.

(** The entity filter of [check_cooldown], by entity type. *)
Definition alert_matches_entity (entity_type entity_key : string)
    (a : DetectionAlert) : bool :=
  if PyStr.mem entity_type ["USER_NAME"; "TARGET_USER"] then
    String.eqb (alert_user_name a) entity_key
    || String.eqb (target_user a) entity_key
  else if String.eqb entity_type "SOURCE_IP" then
    match alert_source_ip a with
    | Some ip => String.eqb ip entity_key
    | None => false
    end
  else if String.eqb entity_type "HOSTNAME" then
    String.eqb (alert_hostname a) entity_key
  else
    String.eqb (alert_user_name a) entity_key
    || String.eqb (alert_hostname a) entity_key.

Definition check_cooldown (now : Z) (rule : DetectionRule)
    (entity_key entity_type : string) (db : DB) : bool :=
  if cooldown_minutes rule <=? 0 then false
  else
    let cooldown_start := now - minutes (cooldown_minutes rule) in
    let base_query :=
      List.filter
        (fun a => (alert_rule a =? rule_id rule)
                  && (cooldown_start <=? triggered_at a))
        (alerts db) in
    existsb (alert_matches_entity entity_type entity_key) base_query.

(** [l[-50:]] *)
Definition last_50 (l : list Z) : list Z := skipn (List.length l - 50)%nat l.

(** The row of [DetectionAlert.objects.create(...)] in [create_alert]; the
    free-text [description] is not kept.  The row gets [triggered_at] from
    the clock when it is created. *)
Definition new_alert (now : Z) (rule : DetectionRule) (e : SecurityEvent)
    (tracker : EntityTracker) (title : string) (confidence : Z)
    (extra_evidence : option Z) : DetectionAlert :=
  {| alert_rule := rule_id rule;
     title := title;
     alert_severity := severity rule;
     alert_hostname := hostname e;
     alert_user_name :=
       default "" (PyStr.or_else (user_name e) (target_user_name e));
     alert_source_ip := source_ip e;
     target_user := default "" (target_user_name e);
     matched_events := last_50 (tracker_event_ids tracker);
     event_count := get_total_count tracker None;
     evidence :=
       {| ev_event_counts := event_counts tracker;
          ev_unique_values := unique_values tracker;
          triggering_event_id := event_id e;
          ev_window_minutes :=
            (((window_end tracker - window_start tracker) / 1000000)
               mod 86400) / 60;
          matched_patterns := extra_evidence |};
     confidence := confidence;
     first_event_time := window_start tracker;
     alert_last_event_time := timestamp e;
     triggered_at := now |}.

Definition create_alert (now : Z) (rule : DetectionRule) (e : SecurityEvent)
    (tracker : EntityTracker) (title : string) (confidence : Z)
    (extra_evidence : option Z) (db : DB)
  : option DetectionAlert * DetectionRule * DB :=
  let entity_key := entity_value tracker in
  if check_cooldown now rule entity_key (entity_type tracker) db then
    (None, rule, db)
  else if confidence <? min_confidence rule then
    (None, rule, db)
  else
    let alert :=
      new_alert now rule e tracker title confidence extra_evidence in
    (Some alert,
     with_total_alerts rule (total_alerts rule + 1),
     with_alerts db ((alerts db ++ [alert])%list)).

(** [_get_entity_value]; an attribute that is not a string is tracked under
    its string form. *)
Definition _get_entity_value (e : SecurityEvent) (track_by : string)
  : option string :=
  if String.eqb track_by "user_name" then
    PyStr.or_else (user_name e) (target_user_name e)
  else if String.eqb track_by "source_ip" then
    if PyStr.truthy (source_ip e) then source_ip e else None
  else if String.eqb track_by "hostname" then Some (hostname e)
  else if String.eqb track_by "target_user" then target_user_name e
  else if String.eqb track_by "process" then process_name e
  else if String.eqb track_by "service" then service_name e
  else
    match getattr e track_by with
    | PNone => None
    | PStr s => Some s
    | PInt n => if n =? 0 then None else Some (pretty n)
    end.

Definition rule_title (rule : DetectionRule) (s : string) : string :=
  name rule +:+ ": " +:+ s.

(** [logic.get('threshold', 5)] *)
Definition threshold_of (rule : DetectionRule) : Z :=
  default 5 (threshold (logic rule)).

(** [tracker.get_total_count(logic.get('event_ids', [event.event_id]))] *)
Definition threshold_count (rule : DetectionRule) (e : SecurityEvent)
    (tracker : EntityTracker) : Z :=
  get_total_count tracker
    (Some (default [event_id e] (event_ids (logic rule)))).

(** The [unique_threshold] condition; true when the rule has none. *)
Definition unique_threshold_met (rule : DetectionRule)
    (tracker : EntityTracker) : bool :=
  match unique_threshold (logic rule) with
  | Some (unique_field, unique_min) =>
      negb (get_unique_count tracker unique_field <? unique_min)
  | None => true
  end.

(** [min(100, 50 + (count - threshold) * 10)] *)
Definition threshold_confidence (count thr : Z) : Z :=
  Z.min 100 (50 + (count - thr) * 10).

Definition _evaluate_threshold (now : Z) (rule : DetectionRule)
    (e : SecurityEvent) (tracker : EntityTracker) (db : DB)
  : option DetectionAlert * DetectionRule * DB :=
  let thr := threshold_of rule in
  let count := threshold_count rule e tracker in
  if thr <=? count then
    if negb (unique_threshold_met rule tracker) then (None, rule, db)
    else
      let confidence := threshold_confidence count thr in
      create_alert now rule e tracker
        (rule_title rule (entity_value tracker)) confidence None db
  else (None, rule, db).

(** [step.get('event_ids', [step.get('event_id')])] *)
Definition step_ids (s : step) : list (option Z) :=
  match step_event_ids s with
  | Some l => map Some l
  | None => [step_event_id s]
  end.

(** [sum(tracker.get_event_count(eid) for eid in step_event_ids if eid)] *)
Definition step_actual_count (tracker : EntityTracker) (s : step) : Z :=
  foldr (fun eid acc =>
           match eid with
           | Some n => if n =? 0 then acc else get_event_count tracker n + acc
           | None => acc
           end) 0 (step_ids s).

Definition step_met (tracker : EntityTracker) (s : step) : bool :=
  negb (step_actual_count tracker s <? default 1 (step_count s)).

(** [event.event_id in final_event_ids] *)
Definition in_step (e : SecurityEvent) (s : step) : bool :=
  existsb (fun eid =>
             match eid with
             | Some n => n =? event_id e
             | None => false
             end) (step_ids s).

Definition _evaluate_sequence (now : Z) (rule : DetectionRule)
    (e : SecurityEvent) (tracker : EntityTracker) (db : DB)
  : option DetectionAlert * DetectionRule * DB :=
  let lg := logic rule in
  let seq := default [] (sequence lg) in
  if (List.length seq <? 2)%nat then (None, rule, db)
  else
    let all_conditions_met := forallb (step_met tracker) seq in
    if all_conditions_met then
      match last seq with
      | None => (None, rule, db)
      | Some final_step =>
          if negb (in_step e final_step) then (None, rule, db)
          else
            let confidence := 85 in
            create_alert now rule e tracker
              (rule_title rule (entity_value tracker)) confidence None db
      end
    else (None, rule, db).


(** [any(p.lower() in str(event_value).lower() for p in pattern)] *)
Fixpoint any_contains (items : list pyval) (lowered_value : string)
  : exn + bool :=
  match items with
  | [] => inr false
  | PStr p :: r =>
      if PyStr.contains (PyStr.lower p) lowered_value then inr true
      else any_contains r lowered_value
  | _ :: _ => inl AttributeError
  end.

(** The counting loop of [_evaluate_pattern]. *)
Fixpoint count_matches (pats : list (string * pattern)) (e : SecurityEvent)
    (matches : Z) : exn + Z :=
  match pats with
  | [] => inr matches
  | (field, pat) :: rest =>
      let event_value := getattr e field in
      if pyval_truthy event_value then
        match pat with
        | PList items =>
            match any_contains items (PyStr.lower (py_str event_value)) with
            | inl ex => inl ex
            | inr true => count_matches rest e (matches + 1)
            | inr false => count_matches rest e matches
            end
        | PRegex re =>
            match re_search re (py_str event_value) with
            | None => inl ReError
            | Some true => count_matches rest e (matches + 1)
            | Some false => count_matches rest e matches
            end
        end
      else count_matches rest e matches
  end.

(** What a rule evaluation hands back to [process_event]. *)
Inductive outcome : Type :=
| Returned (a : option DetectionAlert)
| Raised (ex : exn).

Definition returned (r : option DetectionAlert * DetectionRule * DB)
  : outcome * DetectionRule * DB :=
  let '(a, rule, db) := r in (Returned a, rule, db).

Definition _evaluate_pattern (now : Z) (rule : DetectionRule)
    (e : SecurityEvent) (tracker : EntityTracker) (db : DB)
  : outcome * DetectionRule * DB :=
  let lg := logic rule in
  let pats := default [] (patterns lg) in
  match count_matches pats e 0 with
  | inl ex => (Raised ex, rule, db)
  | inr matches =>
      let required :=
        default (Z.of_nat (List.length pats)) (required_matches lg) in
      if required <=? matches then
        let confidence := Z.min 100 (70 + matches * 10) in
        returned (create_alert now rule e tracker
                    (rule_title rule (hostname e)) confidence (Some matches) db)
      else (Returned None, rule, db)
  end.

Definition _evaluate_correlation (now : Z) (rule : DetectionRule)
    (e : SecurityEvent) (tracker : EntityTracker) (db : DB)
  : option DetectionAlert * DetectionRule * DB :=
  let lg := logic rule in
  let required_events := default [] (required_events lg) in
  if forallb (fun eid => bool_decide (is_Some (event_counts tracker !! eid)))
       required_events
  then
    let all_counts_met :=
      forallb (fun '(eid, min_count) =>
                 negb (get_event_count tracker eid <? min_count))
        (default [] (min_counts lg)) in
    if all_counts_met then
      let confidence := 90 in
      create_alert now rule e tracker
        (rule_title rule (entity_value tracker)) confidence None db
    else (None, rule, db)
  else (None, rule, db).

(** The [track_unique] loop of [evaluate_rule]. *)
Definition record_unique (e : SecurityEvent) (fields : list string)
    (tracker : EntityTracker) : EntityTracker :=
  fold_left
    (fun t field =>
       let value := getattr e field in
       if pyval_truthy value then add_unique_value t field (py_str value)
       else t)
    fields tracker.

(** The tracker update of [evaluate_rule]: count the event, note its time,
    record the [track_unique] values. *)
Definition update_tracker (rule : DetectionRule) (e : SecurityEvent)
    (tracker : EntityTracker) : EntityTracker :=
  let tracker := increment_event tracker (event_id e) (pk e) in
  let tracker := with_last_event_time tracker (timestamp e) in
  record_unique e (default [] (track_unique (logic rule))) tracker.

(** The system-account gate of [evaluate_rule]. *)
Definition skips_system_account (lg : Logic)
    (is_system_account is_target_system_account : bool) : bool :=
  if default true (exclude_system_accounts lg) then
    if is_system_account && is_target_system_account then true
    else
      let tb := default "user_name" (track_by lg) in
      if String.eqb tb "target_user" && is_target_system_account then true
      else if String.eqb tb "user_name" && is_system_account then true
      else false
  else false.

Definition evaluate_rule (now : Z) (rule : DetectionRule) (e : SecurityEvent)
    (is_system_account is_target_system_account : bool) (db : DB)
  : outcome * DetectionRule * DB :=
  let lg := logic rule in
  let ids := default [] (event_ids lg) in
  if negb (bool_decide (ids = [])) && negb (in_ids (event_id e) ids) then
    (Returned None, rule, db)
  else if skips_system_account lg is_system_account is_target_system_account
  then (Returned None, rule, db)
  else
    let tb := default "user_name" (track_by lg) in
    let window := default 10 (window_minutes lg) in
    let entity := _get_entity_value e tb in
    if negb (PyStr.truthy entity) then (Returned None, rule, db)
    else
      let '(i, tracker, table) :=
        get_or_create_tracker now (PyStr.upper tb) (default "" entity)
          (hostname e) window (Some (timestamp e)) (trackers db) in
      let tracker := update_tracker rule e tracker in
      let db := with_trackers db (<[i := tracker]> table) in
      if String.eqb (rule_type rule) "THRESHOLD" then
        returned (_evaluate_threshold now rule e tracker db)
      else if String.eqb (rule_type rule) "SEQUENCE" then
        returned (_evaluate_sequence now rule e tracker db)
      else if String.eqb (rule_type rule) "PATTERN" then
        _evaluate_pattern now rule e tracker db
      else if String.eqb (rule_type rule) "CORRELATION" then
        returned (_evaluate_correlation now rule e tracker db)
      else (Returned None, rule, db).

(** The path condition under which [evaluate_rule] reaches the tracker:
    the entity value the event is tracked under, when there is one. *)
Definition tracked_entity (rule : DetectionRule) (e : SecurityEvent)
    (is_system_account is_target_system_account : bool) : option string :=
  let lg := logic rule in
  let ids := default [] (event_ids lg) in
  if negb (bool_decide (ids = [])) && negb (in_ids (event_id e) ids) then None
  else if skips_system_account lg is_system_account is_target_system_account
  then None
  else
    let entity := _get_entity_value e (default "user_name" (track_by lg)) in
    if PyStr.truthy entity then entity else None.

(** The loop of [process_event] over the cached rules: an exception of one
    rule is logged and the loop goes on. *)
Fixpoint evaluate_rules (now : Z) (rules : list DetectionRule)
    (e : SecurityEvent) (is_system is_target_system : bool) (db : DB)
  : list DetectionAlert * list DetectionRule * DB :=
  match rules with
  | [] => ([], [], db)
  | rule :: rest =>
      let '(out, rule', db') :=
        evaluate_rule now rule e is_system is_target_system db in
      let '(found, rest', db'') :=
        evaluate_rules now rest e is_system is_target_system db' in
      (match out with
       | Returned (Some alert) => alert :: found
       | _ => found
       end, rule' :: rest', db'')
  end.

(** [process_event]: the alerts, the rule cache and the tables after it. *)
Definition process_event (now : Z) (rules : list DetectionRule)
    (e : SecurityEvent) (db : DB)
  : list DetectionAlert * list DetectionRule * DB :=
  if in_ids (event_id e) NOISE_EVENT_IDS then ([], rules, db)
  else
    let is_system := is_system_account (user_name e) in
    let is_target_system := is_system_account (target_user_name e) in
    evaluate_rules now rules e is_system is_target_system db.

(** The detection loop of the ingestion view, [for event in created_events:
    alerts = process_event_detection(event)]; every event comes with the
    clock value at which it is processed, and the alerts are kept per
    event. *)
Fixpoint process_events (rules : list DetectionRule)
    (batch : list (Z * SecurityEvent)) (db : DB)
  : list (list DetectionAlert) * list DetectionRule * DB :=
  match batch with
  | [] => ([], rules, db)
  | (now, e) :: rest =>
      let '(found, rules', db') := process_event now rules e db in
      let '(more, rules'', db'') := process_events rules' rest db' in
      (found :: more, rules'', db'')
  end.

End Engine.

End Detection.

(** ** PQL engine *)

Module PQL.

(** *** Time expressions *)

Definition is_digit (c : ascii) : bool :=
  (48 <=? nat_of_ascii c)%nat && (nat_of_ascii c <=? 57)%nat.

Definition digit_value (c : ascii) : Z := Z.of_nat (nat_of_ascii c - 48).

(** The digits of a decimal literal, most significant first; a single
    underscore may separate two digits. *)
Fixpoint digits_value (s : string) (acc : Z) (after_digit : bool) : option Z :=
  match s with
  | EmptyString => if after_digit then Some acc else None
  | String c r =>
      if is_digit c then digits_value r (acc * 10 + digit_value c) true
      else if Ascii.eqb c "_" then
        if after_digit then digits_value r acc false else None
      else None
  end.

(** [int(s)] for a string: [None] stands for [ValueError]. *)
Definition py_int (s : string) : option Z :=
  match PyStr.strip s with
  | String "-" r => option_map Z.opp (digits_value r 0 false)
  | String "+" r => digits_value r 0 false
  | t => digits_value t 0 false
  end.

(** [parse_time_value], with [now] the value of [timezone.now()]. *)
Definition parse_time_value (now : Z) (value : string) : Z :=
  if (String.length value <? 2)%nat then now
  else
    let unit := PyStr.lower_char (default "000"%char (PyStr.last_char value)) in
    match py_int (PyStr.drop_last value) with
    | None => now
    | Some amount =>
        if Ascii.eqb unit "s" then now - seconds amount
        else if Ascii.eqb unit "m" then now - minutes amount
        else if Ascii.eqb unit "h" then now - hours amount
        else if Ascii.eqb unit "d" then now - days amount
        else if Ascii.eqb unit "w" then now - weeks amount
        else now
    end.

(** *** Lexer *)

Inductive token_kind : Type :=
| KEYWORD | IDENTIFIER | STRING | NUMBER | OPERATOR | COMPARISON
| LOGICAL | PIPE | COMMA | LPAREN | RPAREN | EOF.

Definition kind_eqb (a b : token_kind) : bool :=
  match a, b with
  | KEYWORD, KEYWORD | IDENTIFIER, IDENTIFIER | STRING, STRING
  | NUMBER, NUMBER | OPERATOR, OPERATOR | COMPARISON, COMPARISON
  | LOGICAL, LOGICAL | PIPE, PIPE | COMMA, COMMA | LPAREN, LPAREN
  | RPAREN, RPAREN | EOF, EOF => true
  | _, _ => false
  end.

(** A token [(kind, text)]; the text of [EOF] is [None]. *)
Definition token : Type := token_kind * option string.

Definition KEYWORDS : list string :=
  [ "SEARCH"; "HUNT"; "AGGREGATE"; "TIMELINE"; "CORRELATE";
    "WHERE"; "AND"; "OR"; "NOT"; "IN"; "CONTAINS"; "LIKE";
    "ORDER"; "BY"; "ASC"; "DESC"; "LIMIT"; "OFFSET";
    "GROUP"; "HAVING"; "COUNT"; "SUM"; "AVG"; "MIN"; "MAX";
    "DISTINCT"; "TOP"; "WITHIN"; "FROM"; "TO"; "AS";
    "NOW"; "TRUE"; "FALSE"; "NULL" ].

Definition is_alpha (c : ascii) : bool :=
  PyStr.is_upper c || PyStr.is_lower c.

Definition is_alnum (c : ascii) : bool := is_alpha c || is_digit c.

(** [c in chars] for a character *)
Definition char_in (c : ascii) (chars : string) : bool :=
  existsb (Ascii.eqb c) (list_ascii_of_string chars).

(** The longest prefix of characters that satisfy [p], and the rest. *)
Fixpoint span (p : ascii -> bool) (s : string) : string * string :=
  match s with
  | String c r =>
      if p c then let '(taken, rest) := span p r in (String c taken, rest)
      else (EmptyString, s)
  | EmptyString => (EmptyString, EmptyString)
  end.

Definition double_quote : ascii := ascii_of_nat 34.

(** [_read_string] after the opening quote: the value and the rest of the
    query after the closing quote.  A backslash takes the next character
    with it. *)
Fixpoint read_string_body (quote_char : ascii) (s : string) : string * string :=
  match s with
  | EmptyString => (EmptyString, EmptyString)
  | String c r =>
      if Ascii.eqb c quote_char then (EmptyString, r)
      else if Ascii.eqb c "\" then
        match r with
        | EmptyString => (String c EmptyString, EmptyString)
        | String d r' =>
            let '(value, rest) := read_string_body quote_char r' in
            (String c (String d value), rest)
        end
      else
        let '(value, rest) := read_string_body quote_char r in
        (String c value, rest)
  end.

(** [_read_number]: an optional minus sign, digits and dots, an optional
    time unit. *)
Definition _read_number (s : string) : string * string :=
  let '(sign, s1) :=
    match s with
    | String "-" r => ("-", r)
    | _ => (EmptyString, s)
    end in
  let '(body, s2) := span (fun c => is_digit c || Ascii.eqb c ".") s1 in
  match s2 with
  | String u r =>
      if char_in u "hmsdw"
      then (sign +:+ body +:+ String u EmptyString, r)
      else (sign +:+ body, s2)
  | EmptyString => (sign +:+ body, s2)
  end.

(** [_read_identifier] *)
Definition _read_identifier (s : string) : token * string :=
  let '(value, rest) := span (fun c => is_alnum c || Ascii.eqb c "_") s in
  let upper_value := PyStr.upper value in
  if PyStr.mem upper_value KEYWORDS then
    if PyStr.mem upper_value ["AND"; "OR"; "NOT"]
    then ((LOGICAL, Some upper_value), rest)
    else ((KEYWORD, Some upper_value), rest)
  else ((IDENTIFIER, Some value), rest).

(** [_read_comparison] *)
Definition _read_comparison (s : string) : token * string :=
  let '(op, rest) := span (fun c => char_in c "=!<>") s in
  ((COMPARISON, Some op), rest).

(** The loop of [tokenize]; a turn takes at least one character, and
    [fuel] counts the turns left. *)
Fixpoint tokenize_loop (fuel : nat) (s : string) : list token :=
  match fuel with
  | O => [(EOF, None)]
  | S fuel =>
      match PyStr.lstrip s with
      | EmptyString => [(EOF, None)]
      | String c r =>
          if Ascii.eqb c double_quote || Ascii.eqb c "'" then
            let '(value, rest) := read_string_body c r in
            (STRING, Some value) :: tokenize_loop fuel rest
          else if is_digit c
                  || (Ascii.eqb c "-"
                      && match r with
                         | String d _ => is_digit d
                         | EmptyString => false
                         end) then
            let '(text, rest) := _read_number (String c r) in
            (NUMBER, Some text) :: tokenize_loop fuel rest
          else if is_alpha c || Ascii.eqb c "_" then
            let '(tok, rest) := _read_identifier (String c r) in
            tok :: tokenize_loop fuel rest
          else if char_in c "=!<>" then
            let '(tok, rest) := _read_comparison (String c r) in
            tok :: tokenize_loop fuel rest
          else if Ascii.eqb c "|" then (PIPE, Some "|") :: tokenize_loop fuel r
          else if Ascii.eqb c "," then (COMMA, Some ",") :: tokenize_loop fuel r
          else if Ascii.eqb c "(" then (LPAREN, Some "(") :: tokenize_loop fuel r
          else if Ascii.eqb c ")" then (RPAREN, Some ")") :: tokenize_loop fuel r
          else tokenize_loop fuel r
      end
  end.

(** [PQLLexer(query).tokenize()] *)
Definition tokenize (query : string) : list token :=
  tokenize_loop (String.length query) query.

(** *** Abstract syntax *)

(** A value as [_parse_value] builds it; [VFloat] keeps the literal. *)
#[warnings="-register-all"]
Inductive value : Type :=
| VStr (s : string)
| VInt (n : Z)
| VFloat (literal : string)
| VTime (t : Z)
| VBool (b : bool)
| VNull
| VList (l : list value).

(** An entry of the [conditions] list: [{'logical': op}] or
    [{'field', 'operator', 'value'}]. *)
Inductive item : Type :=
| Logical (op : string)
| Condition (field operator : string) (v : value).

Record search_ast : Type := {
  search_source : string;
  search_conditions : list item;
  search_order_by : option string;
  search_order_dir : string;
  search_limit : Z;
  search_offset : Z
}.

Record hunt_ast : Type := {
  hunt_target : string;
  hunt_conditions : list item;
  hunt_group_by : option string;
  hunt_limit : Z
}.

(** The AGGREGATE dictionary has no ['limit'] key when the parser returns
    it; [execute_pql] may add one. *)
Record aggregate_ast : Type := {
  aggregate_source : string;
  aggregate_group_by : option string;
  aggregations : list string;
  aggregate_conditions : list item;
  within : value;
  aggregate_limit : option Z
}.

Inductive ast : Type :=
| SEARCH (a : search_ast)
| HUNT (a : hunt_ast)
| AGGREGATE (a : aggregate_ast)
| OTHER (command : string).

(** [ast.get('conditions', [])] *)
Definition conditions_of (a : ast) : list item :=
  match a with
  | SEARCH s => search_conditions s
  | HUNT h => hunt_conditions h
  | AGGREGATE g => aggregate_conditions g
  | OTHER _ => []
  end.

(** The ['limit'] entry of the dictionary, when it has one. *)
Definition limit_of (a : ast) : option Z :=
  match a with
  | SEARCH s => Some (search_limit s)
  | HUNT h => Some (hunt_limit h)
  | AGGREGATE g => aggregate_limit g
  | OTHER _ => None
  end.

(** [ast['limit'] = limit] *)
Definition set_limit (a : ast) (limit : Z) : ast :=
  match a with
  | SEARCH s =>
      SEARCH {| search_source := search_source s;
                search_conditions := search_conditions s;
                search_order_by := search_order_by s;
                search_order_dir := search_order_dir s;
                search_limit := limit;
                search_offset := search_offset s |}
  | HUNT h =>
      HUNT {| hunt_target := hunt_target h;
              hunt_conditions := hunt_conditions h;
              hunt_group_by := hunt_group_by h;
              hunt_limit := limit |}
  | AGGREGATE g =>
      AGGREGATE {| aggregate_source := aggregate_source g;
                   aggregate_group_by := aggregate_group_by g;
                   aggregations := aggregations g;
                   aggregate_conditions := aggregate_conditions g;
                   within := within g;
                   aggregate_limit := Some limit |}
  | OTHER c => OTHER c
  end.

(** The limit override of [execute_pql]; the caller's [limit] is [None]
    when it is not an integer. *)
Definition override_limit (a : ast) (limit : option Z) : ast :=
  match limit with
  | Some l =>
      if (1 <=? l) && (l <=? 5000) then
        match limit_of a with
        | None => set_limit a l
        | Some parsed => if l <? parsed then set_limit a l else a
        end
      else a
  | None => a
  end.

(** The shape of the dictionaries the parser returns: one of the three
    commands, SEARCH with ['offset': 0] and AGGREGATE without a ['limit']
    key. *)
Definition parser_shaped (a : ast) : Prop :=
  match a with
  | SEARCH s => search_offset s = 0
  | HUNT _ => True
  | AGGREGATE g => aggregate_limit g = None
  | OTHER _ => False
  end.

(** *** Parser *)

(** [float(s)] accepts [s]: a decimal literal with an optional sign and an
    optional point, the only floats the lexer can write. *)
Definition py_float_ok (s : string) : bool :=
  let t := PyStr.strip s in
  let t := match t with
           | String "-" r => r
           | String "+" r => r
           | _ => t
           end in
  let '(whole, rest) := span is_digit t in
  match rest with
  | EmptyString => negb (String.eqb whole EmptyString)
  | String "." r =>
      let '(frac, rest') := span is_digit r in
      String.eqb rest' EmptyString
      && negb (String.eqb whole EmptyString && String.eqb frac EmptyString)
  | _ => false
  end.

(** [current_token] *)
Definition current_token (tokens : list token) : token :=
  match tokens with
  | t :: _ => t
  | [] => (EOF, None)
  end.

(** [consume(expected_type, expected_value)]: the token and the tokens
    after it. *)
Definition consume (expected_type : option token_kind)
    (expected_value : option string) (tokens : list token)
  : exn + (token * list token) :=
  let t := current_token tokens in
  if match expected_type with
     | Some k => negb (kind_eqb (fst t) k)
     | None => false
     end
  then inl PQLSyntaxError
  else if match expected_value with
          | Some (String c v) =>
              negb (bool_decide (snd t = Some (String c v)))
          | _ => false
          end
  then inl PQLSyntaxError
  else inr (t, tl tokens).

(** [token[1] == word] *)
Definition text_is (t : token) (word : string) : bool :=
  bool_decide (snd t = Some word).

Definition text_of (t : token) : string := default EmptyString (snd t).

(** [_parse_value] at clock value [now]. *)
Definition _parse_value (now : Z) (tokens : list token)
  : exn + (value * list token) :=
  let t := current_token tokens in
  if kind_eqb (fst t) STRING then inr (VStr (text_of t), tl tokens)
  else if kind_eqb (fst t) NUMBER then
    let text := text_of t in
    match PyStr.last_char text with
    | Some c =>
        if char_in (PyStr.lower_char c) "hmsdw"
        then inr (VTime (parse_time_value now text), tl tokens)
        else if negb (PyStr.contains "." text) then
          match py_int text with
          | Some n => inr (VInt n, tl tokens)
          | None => inl PQLSyntaxError
          end
        else if py_float_ok text then inr (VFloat text, tl tokens)
        else inl PQLSyntaxError
    | None => inl PQLSyntaxError
    end
  else if kind_eqb (fst t) IDENTIFIER then inr (VStr (text_of t), tl tokens)
  else if text_is t "NOW" then
    match consume (Some KEYWORD) (Some "NOW") tokens with
    | inl ex => inl ex
    | inr (_, rest) => inr (VTime now, rest)
    end
  else if text_is t "TRUE" || text_is t "FALSE" then
    match consume (Some KEYWORD) None tokens with
    | inl ex => inl ex
    | inr (tok, rest) => inr (VBool (text_is tok "TRUE"), rest)
    end
  else if text_is t "NULL" then
    match consume (Some KEYWORD) None tokens with
    | inl ex => inl ex
    | inr (_, rest) => inr (VNull, rest)
    end
  else inl PQLSyntaxError.

(** The loop of [parse_condition] over the values of an [IN] list, up to
    the closing parenthesis. *)
Fixpoint parse_in_values (fuel : nat) (now : Z) (tokens : list token)
  : exn + (list value * list token) :=
  match fuel with
  | O => inl PQLSyntaxError
  | S fuel =>
      if kind_eqb (fst (current_token tokens)) RPAREN then inr ([], tokens)
      else
        match _parse_value now tokens with
        | inl ex => inl ex
        | inr (v, rest) =>
            let rest :=
              if kind_eqb (fst (current_token rest)) COMMA then tl rest
              else rest in
            match parse_in_values fuel now rest with
            | inl ex => inl ex
            | inr (vs, rest') => inr (v :: vs, rest')
            end
        end
  end.

(** [parse_condition] *)
Definition parse_condition (now : Z) (tokens : list token)
  : exn + (item * list token) :=
  match consume (Some IDENTIFIER) None tokens with
  | inl ex => inl ex
  | inr (field_token, rest) =>
      let field := text_of field_token in
      let t := current_token rest in
      if kind_eqb (fst t) COMPARISON then
        match _parse_value now (tl rest) with
        | inl ex => inl ex
        | inr (v, rest') => inr (Condition field (text_of t) v, rest')
        end
      else if text_is t "CONTAINS" then
        match consume (Some KEYWORD) (Some "CONTAINS") rest with
        | inl ex => inl ex
        | inr (_, rest1) =>
            match _parse_value now rest1 with
            | inl ex => inl ex
            | inr (v, rest') => inr (Condition field "CONTAINS" v, rest')
            end
        end
      else if text_is t "LIKE" then
        match consume (Some KEYWORD) (Some "LIKE") rest with
        | inl ex => inl ex
        | inr (_, rest1) =>
            match _parse_value now rest1 with
            | inl ex => inl ex
            | inr (v, rest') => inr (Condition field "LIKE" v, rest')
            end
        end
      else if text_is t "IN" then
        match consume (Some KEYWORD) (Some "IN") rest with
        | inl ex => inl ex
        | inr (_, rest1) =>
            match consume (Some LPAREN) None rest1 with
            | inl ex => inl ex
            | inr (_, rest2) =>
                match parse_in_values (S (List.length rest2)) now rest2 with
                | inl ex => inl ex
                | inr (vs, rest3) =>
                    match consume (Some RPAREN) None rest3 with
                    | inl ex => inl ex
                    | inr (_, rest') => inr (Condition field "IN" (VList vs), rest')
                    end
                end
            end
        end
      else inl PQLSyntaxError
  end.

(** The loop of [parse_conditions]. *)
Fixpoint parse_conditions_loop (fuel : nat) (now : Z) (tokens : list token)
  : exn + (list item * list token) :=
  match fuel with
  | O => inl PQLSyntaxError
  | S fuel =>
      match parse_condition now tokens with
      | inl ex => inl ex
      | inr (condition, rest) =>
          let t := current_token rest in
          if kind_eqb (fst t) LOGICAL then
            match parse_conditions_loop fuel now (tl rest) with
            | inl ex => inl ex
            | inr (more, rest') =>
                inr (condition :: Logical (text_of t) :: more, rest')
            end
          else inr ([condition], rest)
      end
  end.

Definition parse_conditions (now : Z) (tokens : list token)
  : exn + (list item * list token) :=
  parse_conditions_loop (S (List.length tokens)) now tokens.

(** An optional [WHERE] clause. *)
Definition parse_where (now : Z) (tokens : list token)
  : exn + (list item * list token) :=
  if text_is (current_token tokens) "WHERE" then
    match consume (Some KEYWORD) (Some "WHERE") tokens with
    | inl ex => inl ex
    | inr (_, rest) => parse_conditions now rest
    end
  else inr ([], tokens).

(** An optional identifier after the command word, ["events"] without. *)
Definition parse_source (tokens : list token) : string * list token :=
  if kind_eqb (fst (current_token tokens)) IDENTIFIER
  then (text_of (current_token tokens), tl tokens)
  else ("events", tokens).

(** An optional [LIMIT n]; [int] of the number's text may raise
    [ValueError]. *)
Definition parse_limit (dflt : Z) (tokens : list token)
  : exn + (Z * list token) :=
  if text_is (current_token tokens) "LIMIT" then
    match consume (Some KEYWORD) (Some "LIMIT") tokens with
    | inl ex => inl ex
    | inr (_, rest) =>
        match consume (Some NUMBER) None rest with
        | inl ex => inl ex
        | inr (number, rest') =>
            match py_int (text_of number) with
            | Some n => inr (n, rest')
            | None => inl ValueError
            end
        end
    end
  else inr (dflt, tokens).

(** [keyword BY identifier], for [ORDER BY] and [GROUP BY]. *)
Definition parse_by (keyword : string) (tokens : list token)
  : exn + (option string * list token) :=
  if text_is (current_token tokens) keyword then
    match consume (Some KEYWORD) (Some keyword) tokens with
    | inl ex => inl ex
    | inr (_, rest) =>
        match consume (Some KEYWORD) (Some "BY") rest with
        | inl ex => inl ex
        | inr (_, rest1) =>
            match consume (Some IDENTIFIER) None rest1 with
            | inl ex => inl ex
            | inr (name, rest') => inr (Some (text_of name), rest')
            end
        end
    end
  else inr (None, tokens).

Definition parse_search (now : Z) (tokens : list token) : exn + ast :=
  match consume (Some KEYWORD) (Some "SEARCH") tokens with
  | inl ex => inl ex
  | inr (_, rest) =>
      let '(source, rest) := parse_source rest in
      match parse_where now rest with
      | inl ex => inl ex
      | inr (conditions, rest) =>
          match parse_by "ORDER" rest with
          | inl ex => inl ex
          | inr (order_by, rest) =>
              match
                (match order_by with
                 | Some _ =>
                     let t := current_token rest in
                     if text_is t "ASC" || text_is t "DESC" then
                       match consume (Some KEYWORD) None rest with
                       | inl ex => inl ex
                       | inr (dir, rest') => inr (text_of dir, rest')
                       end
                     else inr ("DESC", rest)
                 | None => inr ("DESC", rest)
                 end) with
              | inl ex => inl ex
              | inr (order_dir, rest) =>
                  match parse_limit 100 rest with
                  | inl ex => inl ex
                  | inr (limit, _) =>
                      inr (SEARCH {| search_source := source;
                                     search_conditions := conditions;
                                     search_order_by := order_by;
                                     search_order_dir := order_dir;
                                     search_limit := limit;
                                     search_offset := 0 |})
                  end
              end
          end
      end
  end.

Definition parse_hunt (now : Z) (tokens : list token) : exn + ast :=
  match consume (Some KEYWORD) (Some "HUNT") tokens with
  | inl ex => inl ex
  | inr (_, rest) =>
      let '(target, rest) := parse_source rest in
      match parse_where now rest with
      | inl ex => inl ex
      | inr (conditions, rest) =>
          match parse_by "GROUP" rest with
          | inl ex => inl ex
          | inr (group_by, rest) =>
              match parse_limit 500 rest with
              | inl ex => inl ex
              | inr (limit, _) =>
                  inr (HUNT {| hunt_target := target;
                               hunt_conditions := conditions;
                               hunt_group_by := group_by;
                               hunt_limit := limit |})
              end
          end
      end
  end.

Definition parse_aggregate (now : Z) (tokens : list token) : exn + ast :=
  match consume (Some KEYWORD) (Some "AGGREGATE") tokens with
  | inl ex => inl ex
  | inr (_, rest) =>
      let '(source, rest) := parse_source rest in
      match
        (if text_is (current_token rest) "BY" then
           match consume (Some KEYWORD) (Some "BY") rest with
           | inl ex => inl ex
           | inr (_, rest1) =>
               match consume (Some IDENTIFIER) None rest1 with
               | inl ex => inl ex
               | inr (name, rest') => inr (Some (text_of name), rest')
               end
           end
         else inr (None, rest)) with
      | inl ex => inl ex
      | inr (group_by, rest) =>
          match
            (let t := current_token rest in
             if PyStr.mem (text_of t) ["COUNT"; "SUM"; "AVG"; "MIN"; "MAX"]
             then
               match consume (Some KEYWORD) None rest with
               | inl ex => inl ex
               | inr (func, rest') => inr ([text_of func], rest')
               end
             else inr ([], rest)) with
          | inl ex => inl ex
          | inr (funcs, rest) =>
              match parse_where now rest with
              | inl ex => inl ex
              | inr (conditions, rest) =>
                  match
                    (if text_is (current_token rest) "WITHIN" then
                       match consume (Some KEYWORD) (Some "WITHIN") rest with
                       | inl ex => inl ex
                       | inr (_, rest1) =>
                           match _parse_value now rest1 with
                           | inl ex => inl ex
                           | inr (v, rest') => inr (v, rest')
                           end
                       end
                     else inr (VNull, rest)) with
                  | inl ex => inl ex
                  | inr (within_value, _) =>
                      inr (AGGREGATE {| aggregate_source := source;
                                        aggregate_group_by := group_by;
                                        aggregations := funcs;
                                        aggregate_conditions := conditions;
                                        within := within_value;
                                        aggregate_limit := None |})
                  end
              end
          end
      end
  end.

(** [PQLParser(tokens).parse()] *)
Definition parse (now : Z) (tokens : list token) : exn + ast :=
  let t := current_token tokens in
  if kind_eqb (fst t) KEYWORD then
    if text_is t "SEARCH" then parse_search now tokens
    else if text_is t "HUNT" then parse_hunt now tokens
    else if text_is t "AGGREGATE" then parse_aggregate now tokens
    else inl PQLSyntaxError
  else inl PQLSyntaxError.

(** Lexing and parsing, as [execute_pql] starts: an empty or blank query
    is a [PQLSyntaxError]. *)
Definition parse_query (now : Z) (query_string : string) : exn + ast :=
  if String.eqb (PyStr.strip query_string) EmptyString then inl PQLSyntaxError
  else parse now (tokenize query_string).

(** *** Query objects *)

Inductive lookup : Type :=
| Exact | Gt | Gte | Lt | Lte | IContains | Regex | In.

(** A Django [Q] object as [_build_q_objects] composes it. *)
Inductive Q : Type :=
| Leaf (field : string) (l : lookup) (v : value)
| Not (q : Q)
| And (a b : Q)
| Or (a b : Q).

(** The field names a [Q] object filters on. *)
Fixpoint q_fields (q : Q) : list string :=
  match q with
  | Leaf field _ _ => [field]
  | Not q => q_fields q
  | And a b | Or a b => (q_fields a ++ q_fields b)%list
  end.

Definition FIELD_MAP : list (string * string) :=
  [ ("event_id", "event_id"); ("timestamp", "timestamp");
    ("hostname", "hostname"); ("channel", "channel");
    ("severity", "severity"); ("user_name", "user_name");
    ("user", "user_name"); ("source_ip", "source_ip");
    ("dest_ip", "destination_ip"); ("destination_ip", "destination_ip");
    ("process_name", "process_name"); ("process", "process_name");
    ("process_path", "process_path"); ("command_line", "command_line");
    ("cmd", "command_line"); ("service_name", "service_name");
    ("service", "service_name"); ("message", "message");
    ("msg", "message"); ("agent_id", "agent_id");
    ("logon_type", "logon_type"); ("raw_xml", "raw_xml");
    ("xml", "raw_xml"); ("event_data", "event_data");
    ("data", "event_data"); ("full_text", "full_text");
    ("text", "full_text") ].

(** [FIELD_MAP.get(field, field)] *)
Fixpoint map_get (m : list (string * string)) (field : string) : string :=
  match m with
  | [] => field
  | (k, v) :: r => if String.eqb k field then v else map_get r field
  end.

(** The field names of [SecurityEvent._meta.get_fields()], from
    [events/models.py]. *)
Definition SECURITY_EVENT_FIELDS : list string :=
  [ "id"; "event_id"; "event_record_id"; "correlation_id"; "timestamp";
    "received_at"; "source"; "channel"; "provider_name"; "provider_guid";
    "hostname"; "domain"; "ip_address"; "agent_id"; "category"; "severity";
    "level"; "level_name"; "task"; "task_name"; "opcode"; "opcode_name";
    "keywords"; "message"; "raw_xml"; "event_data"; "user_data";
    "system_data"; "user_name"; "user_domain"; "user_sid";
    "target_user_name"; "target_user_domain"; "target_user_sid";
    "process_id"; "process_name"; "process_path"; "command_line";
    "parent_process_id"; "parent_process_name"; "parent_command_line";
    "source_ip"; "source_port"; "destination_ip"; "destination_port";
    "protocol"; "logon_type"; "logon_type_name"; "logon_id";
    "authentication_package"; "workstation_name"; "object_name";
    "object_type"; "access_mask"; "service_name"; "service_type";
    "service_start_type"; "service_account"; "object_dn"; "object_guid";
    "object_class"; "attribute_name"; "attribute_value";
    "ticket_encryption_type"; "ticket_options"; "service_name_kerberos";
    "file_hash_md5"; "file_hash_sha1"; "file_hash_sha256"; "status";
    "status_code"; "failure_reason"; "full_text"; "tags"; "is_processed";
    "is_alerted" ].

(** *** The executor over an event store *)

Section Executor.

(** The event store.  A queryset is the list of rows it denotes; the
    store's evaluation of a [Q] object, its ordering and its grouping are
    parameters.  [q_filter] may raise, as [queryset.filter] does. *)
Variable Row : Type.
Variable all_rows : list Row.
Variable q_filter : Q -> list Row -> exn + list Row.
Variable filter_since : Z -> list Row -> list Row.
Variable order_rows : string -> list Row -> list Row.
Variable row_values : Row -> Row.
Variable hunt_groups : string -> list Row -> list Row.
Variable aggregate_groups : string -> list string -> list Row -> list Row.

(** The names of [SecurityEvent._meta.get_fields()]. *)
Variable model_fields : list string.

(** [django.utils.dateparse.parse_datetime], [None] when it finds no
    datetime or raises. *)
Variable parse_datetime : string -> option Z.

(** [_is_valid_field] *)
Definition _is_valid_field (field_name : string) : bool :=
  PyStr.mem field_name model_fields
  || PyStr.mem field_name (map snd FIELD_MAP).


(** The value of a condition on [timestamp], made an aware datetime. *)
Definition normalize_timestamp (now : Z) (v : value) : value :=
  match v with
  | VStr s =>
      match PyStr.last_char s with
      | Some c =>
          if PyStr.contains (String (PyStr.lower_char c) EmptyString) "hmsdw"
          then VTime (parse_time_value now s)
          else match parse_datetime s with
               | Some t => VTime t
               | None => v
               end
      | None =>
          match parse_datetime s with
          | Some t => VTime t
          | None => v
          end
      end
  | _ => v
  end.

(** The local variables of the loop of [_build_q_objects]. *)
Record loop_state : Type := {
  q_result : option Q;
  current_logical : string;
  has_valid_conditions : bool
}.

(** The [Q] object of one condition on a valid field; [None] when the
    operator is none of the known ones. *)
Definition condition_q (field operator : string) (v : value)
  : exn + option Q :=
  if String.eqb operator "=" then inr (Some (Leaf field Exact v))
  else if String.eqb operator "!=" then inr (Some (Not (Leaf field Exact v)))
  else if String.eqb operator ">" then inr (Some (Leaf field Gt v))
  else if String.eqb operator ">=" then inr (Some (Leaf field Gte v))
  else if String.eqb operator "<" then inr (Some (Leaf field Lt v))
  else if String.eqb operator "<=" then inr (Some (Leaf field Lte v))
  else if String.eqb operator "CONTAINS" then
    if PyStr.mem field ["message"; "msg"] then
      inr (Some (Or (Or (Or (Leaf "message" IContains v)
                            (Leaf "raw_xml" IContains v))
                        (Leaf "event_data" IContains v))
                    (Leaf "full_text" IContains v)))
    else inr (Some (Leaf field IContains v))
  else if String.eqb operator "LIKE" then
    match v with
    | VStr s =>
        let pattern :=
          PyStr.replace_char "_" "." (PyStr.replace_char "%" ".*" s) in
        inr (Some (Leaf field Regex (VStr pattern)))
    | VTime _ => inl TypeError
    | _ => inl AttributeError
    end
  else if String.eqb operator "IN" then inr (Some (Leaf field In v))
  else inr None.

(** One turn of the loop of [_build_q_objects]. *)
Definition build_step (now : Z) (st : loop_state) (it : item)
  : exn + loop_state :=
  match it with
  | Logical op =>
      inr {| q_result := q_result st; current_logical := op;
             has_valid_conditions := has_valid_conditions st |}
  | Condition field operator v =>
      let field := map_get FIELD_MAP field in
      if negb (_is_valid_field field) then inr st
      else
        let v := if String.eqb field "timestamp"
                 then normalize_timestamp now v else v in
        match condition_q field operator v with
        | inl ex => inl ex
        | inr None =>
            inr {| q_result := q_result st;
                   current_logical := current_logical st;
                   has_valid_conditions := true |}
        | inr (Some q) =>
            let combined :=
              match q_result st with
              | None => Some q
              | Some acc =>
                  if String.eqb (current_logical st) "AND" then Some (And acc q)
                  else if String.eqb (current_logical st) "OR" then Some (Or acc q)
                  else Some acc
              end in
            inr {| q_result := combined;
                   current_logical := current_logical st;
                   has_valid_conditions := true |}
        end
  end.

Fixpoint build_loop (now : Z) (st : loop_state) (conditions : list item)
  : exn + loop_state :=
  match conditions with
  | [] => inr st
  | it :: rest =>
      match build_step now st it with
      | inl ex => inl ex
      | inr st' => build_loop now st' rest
      end
  end.

(** [_build_q_objects]: the pair [(q_object, has_valid_conditions)]. *)
Definition _build_q_objects (now : Z) (conditions : list item)
  : exn + (option Q * bool) :=
  match conditions with
  | [] => inr (None, true)
  | _ =>
      match build_loop now {| q_result := None; current_logical := "AND";
                              has_valid_conditions := false |} conditions with
      | inl ex => inl ex
      | inr st => inr (q_result st, has_valid_conditions st)
      end
  end.

(** What [queryset.filter] is handed: a [Q] object, or, in
    [_execute_aggregate], the whole pair that [_build_q_objects] returns. *)
Inductive filter_arg : Type :=
| FQ (q : Q)
| FPair (q : option Q) (has_valid : bool).

(** [queryset.filter(arg)].  Django reads a positional pair as
    [(lookup name, value)]: with [None] as the name it raises [FieldError],
    and a [Q] object in the place of the name has no [split], which is an
    [AttributeError]. *)
Definition qs_filter (arg : filter_arg) (rows : list Row) : exn + list Row :=
  match arg with
  | FQ q => q_filter q rows
  | FPair None _ => inl FieldError
  | FPair (Some _) _ => inl AttributeError
  end.

(** [queryset[start:stop]]; Django refuses a negative bound. *)
Definition qs_slice (start stop : Z) (rows : list Row) : exn + list Row :=
  if (start <? 0) || (stop <? 0) then inl ValueError
  else inr (firstn (Z.to_nat (stop - start)) (skipn (Z.to_nat start) rows)).

(** [queryset.filter(q)] inside [try: ... except FieldError: none()]. *)
Definition filter_or_none (arg : filter_arg) (rows : list Row)
  : exn + list Row :=
  match qs_filter arg rows with
  | inl FieldError => inr []
  | r => r
  end.

Definition _execute_search (now : Z) (a : search_ast) : exn + list Row :=
  let queryset := all_rows in
  match _build_q_objects now (search_conditions a) with
  | inl ex => inl ex
  | inr (q_objects, has_valid) =>
      match (if negb has_valid then inr []
             else match q_objects with
                  | Some q => filter_or_none (FQ q) queryset
                  | None => inr queryset
                  end) with
      | inl ex => inl ex
      | inr queryset =>
          let order_by := default "timestamp" (search_order_by a) in
          let order_by := if String.eqb order_by "" then "timestamp" else order_by in
          let order_by := map_get FIELD_MAP order_by in
          let order_by := if String.eqb order_by "" then "timestamp" else order_by in
          let order_by := if String.eqb (search_order_dir a) "DESC"
                          then "-" +:+ order_by else order_by in
          let queryset := order_rows order_by queryset in
          let limit := search_limit a in
          let offset := search_offset a in
          match qs_slice offset (offset + limit) queryset with
          | inl ex => inl ex
          | inr queryset => inr (map row_values queryset)
          end
      end
  end.

Definition _execute_hunt (now : Z) (a : hunt_ast) : exn + list Row :=
  let queryset := all_rows in
  match _build_q_objects now (hunt_conditions a) with
  | inl ex => inl ex
  | inr (q_objects, has_valid) =>
      match (if negb has_valid then inr []
             else match q_objects with
                  | Some q => filter_or_none (FQ q) queryset
                  | None => inr queryset
                  end) with
      | inl ex => inl ex
      | inr queryset =>
          let queryset :=
            match hunt_group_by a with
            | Some (String c g) =>
                hunt_groups (map_get FIELD_MAP (String c g)) queryset
            | _ => queryset
            end in
          qs_slice 0 (hunt_limit a) queryset
      end
  end.

Definition _execute_aggregate (now : Z) (a : aggregate_ast) : exn + list Row :=
  let queryset := all_rows in
  let queryset :=
    match within a with
    | VStr (String c r) =>
        filter_since (parse_time_value now (String c r)) queryset
    | VTime t => filter_since t queryset
    | _ => queryset
    end in
  match _build_q_objects now (aggregate_conditions a) with
  | inl ex => inl ex
  | inr (q, has_valid) =>
      (* the pair itself is bound to q_objects: it is never falsy *)
      match filter_or_none (FPair q has_valid) queryset with
      | inl ex => inl ex
      | inr queryset =>
          let queryset :=
            match aggregate_group_by a with
            | Some (String c g) =>
                aggregate_groups (map_get FIELD_MAP (String c g))
                  (aggregations a) queryset
            | _ => queryset
            end in
          qs_slice 0 100 queryset
      end
  end.

(** [PQLExecutor.execute]; an unknown command is a [PQLExecutionError]. *)
Definition execute (now : Z) (a : ast) : exn + list Row :=
  match a with
  | SEARCH s => _execute_search now s
  | HUNT h => _execute_hunt now h
  | AGGREGATE g => _execute_aggregate now g
  | OTHER _ => inl PQLExecutionError
  end.

(** The part of [execute_pql] after parsing: limit override, execution. *)
Definition execute_parsed (now : Z) (a : ast) (limit : option Z)
  : exn + list Row :=
  execute now (override_limit a limit).

(** [execute_pql(query_string, limit)], with one clock value for the
    whole call. *)
Definition execute_pql (now : Z) (query_string : string) (limit : option Z)
  : exn + list Row :=
  match parse_query now query_string with
  | inl ex => inl ex
  | inr a => execute_parsed now a limit
  end.

End Executor.

End PQL.

(** ** Event ingestion *)

Module Ingest.

Import Detection.

(** The three lists of [EventIngestView._determine_severity]. *)
Definition critical_events : list Z :=
  [ 4697; 4698; 4719; 4720; 4728; 4732; 4756; 7045; 4688; 1102; 4662 ].

Definition high_events : list Z :=
  [ 4625; 4648; 4672; 4724; 4740; 4768; 4769; 4771; 5140; 5145 ].

Definition medium_events : list Z := [ 4624; 4634; 4688; 4689; 5156 ].

(** [_determine_severity(event_data)]; the two arguments are the entries
    ['event_id'] and ['level'] of [event_data], [None] for a missing
    key. *)
Definition _determine_severity (event_id level : option Z) : string :=
  let event_id := default 0 event_id in
  if in_ids event_id critical_events then "CRITICAL"
  else if in_ids event_id high_events then "HIGH"
  else if in_ids event_id medium_events then "MEDIUM"
  else if 3 <=? default 0 level then "MEDIUM"
  else "INFO".

End Ingest.

(** ** Rules of [builtin_rules.py] and sample data *)

Module Scenario.

Import Detection.

Definition no_logic : Logic :=
  {| event_ids := None; exclude_system_accounts := None; track_by := None;
     window_minutes := None; track_unique := None; threshold := None;
     unique_threshold := None; sequence := None; patterns := None;
     required_matches := None; required_events := None; min_counts := None |}.

(** "Brute Force Attack - Failed Logons then Success" *)
Definition brute_force : DetectionRule :=
  {| rule_id := 1;
     name := "Brute Force Attack - Failed Logons then Success";
     severity := "HIGH"; rule_type := "SEQUENCE";
     logic :=
       {| event_ids := None; exclude_system_accounts := Some true;
          track_by := Some "target_user"; window_minutes := Some 10;
          track_unique := Some ["source_ip"]; threshold := None;
          unique_threshold := None;
          sequence :=
            Some [ {| step_event_ids := None; step_event_id := Some 4625;
                      step_count := Some 5 |};
                   {| step_event_ids := None; step_event_id := Some 4624;
                      step_count := Some 1 |} ];
          patterns := None; required_matches := None;
          required_events := None; min_counts := None |};
     enabled := true; cooldown_minutes := 30; min_confidence := 75;
     total_alerts := 0 |}.

(** "Mass Account Lockouts" *)
Definition mass_account_lockouts : DetectionRule :=
  {| rule_id := 3;
     name := "Mass Account Lockouts";
     severity := "HIGH"; rule_type := "THRESHOLD";
     logic :=
       {| event_ids := Some [4740]; exclude_system_accounts := None;
          track_by := Some "hostname"; window_minutes := Some 10;
          track_unique := Some ["target_user_name"]; threshold := Some 5;
          unique_threshold := None; sequence := None; patterns := None;
          required_matches := None; required_events := None;
          min_counts := None |};
     enabled := true; cooldown_minutes := 30; min_confidence := 70;
     total_alerts := 0 |}.

(** "Security Log Cleared" *)
Definition security_log_cleared : DetectionRule :=
  {| rule_id := 12;
     name := "Security Log Cleared";
     severity := "CRITICAL"; rule_type := "THRESHOLD";
     logic :=
       {| event_ids := Some [1102; 104]; exclude_system_accounts := Some false;
          track_by := Some "hostname"; window_minutes := Some 5;
          track_unique := None; threshold := Some 1;
          unique_threshold := None; sequence := None; patterns := None;
          required_matches := None; required_events := None;
          min_counts := None |};
     enabled := true; cooldown_minutes := 60; min_confidence := 50;
     total_alerts := 0 |}.

(** A rule of an administrator: five account lockouts on a host, every
    firing kept. *)
Definition lockouts_any_confidence : DetectionRule :=
  {| rule_id := 40; name := "Account lockouts";
     severity := "MEDIUM"; rule_type := "THRESHOLD";
     logic := logic mass_account_lockouts;
     enabled := true; cooldown_minutes := 30; min_confidence := 50;
     total_alerts := 0 |}.

(** A rule of an administrator that tracks a process name. *)
Definition shell_spawned : DetectionRule :=
  {| rule_id := 41; name := "Command shell started";
     severity := "LOW"; rule_type := "THRESHOLD";
     logic :=
       {| event_ids := Some [4688]; exclude_system_accounts := None;
          track_by := Some "process"; window_minutes := Some 10;
          track_unique := None; threshold := Some 1;
          unique_threshold := None; sequence := None; patterns := None;
          required_matches := None; required_events := None;
          min_counts := None |};
     enabled := true; cooldown_minutes := 60; min_confidence := 50;
     total_alerts := 0 |}.

(** 2024-01-01T00:00:00Z, in microseconds since the epoch. *)
Definition t0 : Z := 1704067200000000.

Definition event_on (key eid at_ : Z) (host : string)
    (user target process : option string) : SecurityEvent :=
  {| pk := key; event_id := eid; timestamp := at_; hostname := host;
     user_name := user; target_user_name := target; source_ip := None;
     process_name := process; service_name := None; other_fields := ∅ |}.

Definition log_cleared : SecurityEvent :=
  event_on 1 1102 t0 "dc01" (Some "alice") None None.

(** The [k]-th lockout of an account on host [dc01], [k] minutes after
    [t0]. *)
Definition lockout (k : Z) : SecurityEvent :=
  event_on k 4740 (t0 + minutes k) "dc01" None (Some "bob") None.

(** A batch in which every event is processed at the moment it occurred. *)
Definition live (events : list SecurityEvent) : list (Z * SecurityEvent) :=
  map (fun e => (timestamp e, e)) events.

Definition five_lockouts : list (Z * SecurityEvent) :=
  live [lockout 1; lockout 2; lockout 3; lockout 4; lockout 5].


(** Python's [re] on the patterns of these samples, which have no
    metacharacter: [re.search] is a substring test and [re.match] a prefix
    test, both without regard to case. *)
Definition literal_search (p s : string) : option bool :=
  Some (PyStr.contains (PyStr.lower p) (PyStr.lower s)).

Definition literal_match (p s : string) : option bool :=
  Some (PyStr.startswith (PyStr.lower s) (PyStr.lower p)).

(** Local group membership enumerated: an event of the noise set. *)
Definition group_enumerated : SecurityEvent :=
  event_on 90 4798 t0 "dc01" (Some "alice") None None.

(** A lockout that names neither a user nor a target user. *)
Definition anonymous_lockout : SecurityEvent :=
  event_on 91 4740 t0 "dc01" None (Some "") None.

Definition failed_logon (k : Z) : SecurityEvent :=
  event_on k 4625 (t0 + minutes k) "dc01" None (Some "bob") None.

Definition successful_logon (k : Z) : SecurityEvent :=
  event_on k 4624 (t0 + minutes k) "dc01" None (Some "bob") None.

(** The tracker of host [dc01] after [n] lockouts. *)
Definition counted_lockouts (n : Z) : EntityTracker :=
  {| entity_type := "HOSTNAME"; entity_value := "dc01";
     tracker_hostname := "dc01";
     window_start := t0 + minutes 1; window_end := t0 + minutes 11;
     event_counts := {[ 4740 := n ]}; unique_values := ∅;
     tracker_event_ids := [1; 2; 3; 4; 5];
     last_event_time := Some (t0 + minutes 5) |}.




Definition empty_db : DB :=
  {| trackers := []; alerts := []; suppressions := [] |}.

(** A suppression of "Security Log Cleared" on host [dc01], enabled and
    without expiry. *)
Definition maintenance_window : AlertSuppressionRule :=
  {| suppression_name := "dc01 maintenance";
     detection_rule := rule_id security_log_cleared;
     conditions := [("hostname", PList [PStr "DC01"])];
     suppression_enabled := true; expires_at := None |}.

Definition suppressed_db : DB :=
  {| trackers := []; alerts := []; suppressions := [maintenance_window] |}.

(** "Lateral Movement via RDP"; the key ['logon_type'] of its [logic] is
    read by no code. *)
Definition lateral_movement_rdp : Detection.DetectionRule :=
  {| Detection.rule_id := 5;
     Detection.name := "Lateral Movement via RDP";
     Detection.severity := "HIGH"; Detection.rule_type := "THRESHOLD";
     Detection.logic :=
       {| Detection.event_ids := Some [4624];
          Detection.exclude_system_accounts := Some true;
          Detection.track_by := Some "user_name";
          Detection.window_minutes := Some 30;
          Detection.track_unique := Some ["hostname"; "source_ip"];
          Detection.threshold := Some 3;
          Detection.unique_threshold := Some ("hostname", 3);
          Detection.sequence := None; Detection.patterns := None;
          Detection.required_matches := None;
          Detection.required_events := None;
          Detection.min_counts := None |};
     Detection.enabled := true; Detection.cooldown_minutes := 30;
     Detection.min_confidence := 75; Detection.total_alerts := 0 |}.

(** "Pass-the-Hash Detection" *)
Definition pass_the_hash : Detection.DetectionRule :=
  {| Detection.rule_id := 6;
     Detection.name := "Pass-the-Hash Detection";
     Detection.severity := "HIGH"; Detection.rule_type := "PATTERN";
     Detection.logic :=
       {| Detection.event_ids := Some [4624];
          Detection.exclude_system_accounts := Some true;
          Detection.track_by := Some "user_name";
          Detection.window_minutes := Some 5;
          Detection.track_unique := None; Detection.threshold := None;
          Detection.unique_threshold := None; Detection.sequence := None;
          Detection.patterns :=
            Some [ ("logon_type", Detection.PList [PInt 9]);
                   ("authentication_package",
                    Detection.PList [PStr "NTLM"]) ];
          Detection.required_matches := Some 2;
          Detection.required_events := None;
          Detection.min_counts := None |};
     Detection.enabled := true; Detection.cooldown_minutes := 15;
     Detection.min_confidence := 70; Detection.total_alerts := 0 |}.

(** An NTLM logon of [carol] on [ws07] with the NewCredentials logon
    type, [k] minutes after [t0]. *)
Definition ntlm_logon (k : Z) : Detection.SecurityEvent :=
  {| Detection.pk := k; Detection.event_id := 4624;
     Detection.timestamp := t0 + minutes k;
     Detection.hostname := "ws07";
     Detection.user_name := Some "carol";
     Detection.target_user_name := None; Detection.source_ip := None;
     Detection.process_name := None; Detection.service_name := None;
     Detection.other_fields :=
       {[ "logon_type" := PInt 9;
          "authentication_package" := PStr "NTLM" ]} |}.

(** A tracker of host [ws07] whose window ended two hours before [t0]. *)
Definition stale_ws07 : Detection.EntityTracker :=
  {| Detection.entity_type := "HOSTNAME"; Detection.entity_value := "ws07";
     Detection.tracker_hostname := "ws07";
     Detection.window_start := t0 - hours 3;
     Detection.window_end := t0 - hours 2;
     Detection.event_counts := {[ 4740 := 1 ]};
     Detection.unique_values := ∅;
     Detection.tracker_event_ids := [77];
     Detection.last_event_time := None |}.

(** A logon of [carol] on [ws07], one minute after [t0]. *)
Definition carol_logon : Detection.SecurityEvent :=
  event_on 7 4624 (t0 + minutes 1) "ws07" (Some "carol") None
    None.

(** The tables after four lockouts on [dc01]. *)
Definition four_lockouts_db : Detection.DB :=
  {| Detection.trackers := [counted_lockouts 4];
     Detection.alerts := []; Detection.suppressions := [] |}.

End Scenario.

(** ** A small event store *)

Module SampleStore.

Import PQL.

(** A row of the sample store: an event with the three columns the samples
    use, or a group with its key and count. *)
Inductive row : Type :=
| event_row (key : Z) (row_severity : string) (row_timestamp : Z)
| group_row (group_key : string) (count : Z).

Definition column (field : string) (r : row) : option value :=
  match r with
  | event_row key sev ts =>
      if String.eqb field "id" then Some (VInt key)
      else if String.eqb field "severity" then Some (VStr sev)
      else if String.eqb field "timestamp" then Some (VTime ts)
      else None
  | group_row _ _ => None
  end.

Definition value_eqb (a b : value) : bool :=
  match a, b with
  | VStr x, VStr y => String.eqb x y
  | VInt x, VInt y => x =? y
  | VTime x, VTime y => x =? y
  | _, _ => false
  end.

Definition value_ltb (a b : value) : bool :=
  match a, b with
  | VInt x, VInt y => x <? y
  | VTime x, VTime y => x <? y
  | _, _ => false
  end.

(** Whether a row satisfies a [Q] object; [None] is a [FieldError], for a
    column or a lookup the sample store does not have. *)
Fixpoint holds (q : Q) (r : row) : option bool :=
  match q with
  | Leaf field l v =>
      match column field r with
      | None => None
      | Some x =>
          match l with
          | Exact => Some (value_eqb x v)
          | Gt => Some (value_ltb v x)
          | Gte => Some (value_ltb v x || value_eqb x v)
          | Lt => Some (value_ltb x v)
          | Lte => Some (value_ltb x v || value_eqb x v)
          | _ => None
          end
      end
  | Not a => option_map negb (holds a r)
  | And a b =>
      match holds a r, holds b r with
      | Some x, Some y => Some (x && y)
      | _, _ => None
      end
  | Or a b =>
      match holds a r, holds b r with
      | Some x, Some y => Some (x || y)
      | _, _ => None
      end
  end.

Fixpoint sample_filter (q : Q) (rows : list row) : exn + list row :=
  match rows with
  | [] => inr []
  | r :: rest =>
      match holds q r, sample_filter q rest with
      | Some true, inr kept => inr (r :: kept)
      | Some false, inr kept => inr kept
      | None, _ => inl FieldError
      | _, inl ex => inl ex
      end
  end.

Definition timestamp_of (r : row) : Z :=
  match r with
  | event_row _ _ ts => ts
  | group_row _ _ => 0
  end.

Definition count_of (r : row) : Z :=
  match r with
  | event_row _ _ _ => 1
  | group_row _ n => n
  end.

(** Insertion of a row into a list sorted by decreasing [rank]. *)
Fixpoint insert_desc (rank : row -> Z) (r : row) (sorted : list row)
  : list row :=
  match sorted with
  | [] => [r]
  | x :: rest =>
      if rank x <? rank r then r :: x :: rest
      else x :: insert_desc rank r rest
  end.

Definition sort_desc (rank : row -> Z) (rows : list row) : list row :=
  foldr (insert_desc rank) [] rows.

(** [order_by]: the sample store orders by timestamp. *)
Definition sample_order (key : string) (rows : list row) : list row :=
  if String.eqb key "-timestamp" then sort_desc timestamp_of rows
  else if String.eqb key "timestamp" then rev (sort_desc timestamp_of rows)
  else rows.

Definition sample_since (since : Z) (rows : list row) : list row :=
  List.filter (fun r => since <=? timestamp_of r) rows.

(** One more row counted in the group of its severity. *)
Fixpoint count_in (sev : string) (groups : list row) : list row :=
  match groups with
  | [] => [group_row sev 1]
  | group_row g n :: rest =>
      if String.eqb g sev then group_row g (n + 1) :: rest
      else group_row g n :: count_in sev rest
  | r :: rest => r :: count_in sev rest
  end.

(** [values(group_by).annotate(count=Count('id')).order_by('-count')]; the
    sample store groups by severity. *)
Definition sample_groups (group_by : string) (rows : list row) : list row :=
  sort_desc count_of
    (foldr (fun r groups =>
              match r with
              | event_row _ sev _ => count_in sev groups
              | group_row _ _ => groups
              end) [] rows).

Definition sample_aggregate (group_by : string) (aggs : list string)
    (rows : list row) : list row :=
  sample_groups group_by rows.

(** Fifteen CRITICAL events and five others, one per minute. *)
Definition sample_rows : list row :=
  map (fun k => event_row k (if k <=? 15 then "CRITICAL" else "LOW")
                  (Scenario.t0 + minutes k))
    [1; 2; 3; 4; 5; 6; 7; 8; 9; 10; 11; 12; 13; 14; 15; 16; 17; 18; 19; 20].

(** [parse_datetime] on the sample values, none of which is a datetime. *)
Definition no_datetime (s : string) : option Z := None.


(** [execute_pql] over the sample store. *)
Definition sample_pql (now : Z) (query_string : string) (limit : option Z)
  : exn + list row :=
  execute_pql row sample_rows sample_filter sample_since sample_order
    (fun r => r) sample_groups sample_aggregate SECURITY_EVENT_FIELDS
    no_datetime now query_string limit.

(** [SEARCH WHERE severity = CRITICAL LIMIT 10] *)
Definition critical_search : ast :=
  SEARCH {| search_source := "events";
            search_conditions := [Condition "severity" "=" (VStr "CRITICAL")];
            search_order_by := None; search_order_dir := "DESC";
            search_limit := 10; search_offset := 0 |}.

(** [SEARCH WHERE bogus_field = 1] *)
Definition bogus_search : ast :=
  SEARCH {| search_source := "events";
            search_conditions := [Condition "bogus_field" "=" (VInt 1)];
            search_order_by := None; search_order_dir := "DESC";
            search_limit := 100; search_offset := 0 |}.



End SampleStore.

(** * Properties of the detection engine *)

Section DetectionProperties.

Import Detection.

Variable re_match : string -> string -> option bool.
Variable re_search : string -> string -> option bool.

Lemma in_ids_In (x : Z) (l : list Z) : in_ids x l = true <-> In x l.
Proof.
  unfold in_ids. rewrite existsb_exists. split.
  - intros (y & Hy & Heq). apply Z.eqb_eq in Heq. now subst.
  - intros H. exists x. split; [assumption | apply Z.eqb_refl].
Qed.

(** C9.  An event whose [event_id] is in the noise set makes [process_event]
    return no alert and leave the rule cache and every table, so every
    tracker, as they were. *)
Theorem noise_event_leaves_state (now : Z) (rules : list DetectionRule)
    (e : SecurityEvent) (db : DB) :
  In (event_id e) NOISE_EVENT_IDS ->
  process_event re_search now rules e db = ([], rules, db).
Proof.
  intros Hnoise. unfold process_event.
  apply in_ids_In in Hnoise. now rewrite Hnoise.
Qed.


Lemma evaluate_rules_all_skipped (now : Z) (rules : list DetectionRule)
    (e : SecurityEvent) (sys tsys : bool) (db : DB) :
  Forall (fun rule =>
            evaluate_rule re_search now rule e sys tsys db
            = (Returned None, rule, db)) rules ->
  evaluate_rules re_search now rules e sys tsys db = ([], rules, db).
Proof.
  induction 1 as [|rule rest Hrule _ IH]; simpl; [reflexivity|].
  now rewrite Hrule, IH.
Qed.

Lemma falsy_is_system_account (u : option string) :
  PyStr.truthy u = false -> is_system_account u = true.
Proof. intros H. unfold is_system_account. now rewrite H. Qed.

(** C10.  [is_system_account] answers true for a missing and for an empty
    user name; so when an event has neither a user name nor a target user
    name, a rule whose [exclude_system_accounts] is left at (or set to) true
    returns no alert and leaves every table as it was, and a cache made of
    such rules makes [process_event] return no alert and change nothing. *)
Theorem empty_user_names_skip_rules (now : Z) (rules : list DetectionRule)
    (e : SecurityEvent) (db : DB) :
  PyStr.truthy (user_name e) = false ->
  PyStr.truthy (target_user_name e) = false ->
  is_system_account None = true
  /\ is_system_account (Some "") = true
  /\ (forall rule,
        default true (exclude_system_accounts (logic rule)) = true ->
        evaluate_rule re_search now rule e
          (is_system_account (user_name e))
          (is_system_account (target_user_name e)) db
        = (Returned None, rule, db))
  /\ (Forall (fun rule =>
                default true (exclude_system_accounts (logic rule)) = true)
        rules ->
      process_event re_search now rules e db = ([], rules, db)).
Proof.
  intros Hu Ht.
  assert (Hrule : forall rule,
             default true (exclude_system_accounts (logic rule)) = true ->
             evaluate_rule re_search now rule e
               (is_system_account (user_name e))
               (is_system_account (target_user_name e)) db
             = (Returned None, rule, db)).
  { intros rule Hex. unfold evaluate_rule.
    destruct (negb _ && negb _); [reflexivity|].
    unfold skips_system_account.
    rewrite Hex, (falsy_is_system_account _ Hu), (falsy_is_system_account _ Ht).
    reflexivity. }
  repeat split; try reflexivity; [exact Hrule|].
  intros Hall. unfold process_event.
  destruct (in_ids _ _); [reflexivity|].
  apply evaluate_rules_all_skipped.
  eapply Forall_impl; [exact Hall|]. intros rule Hex. now apply Hrule.
Qed.


(** C1, at the failing input.  Host [dc01] is under an enabled suppression
    without expiry whose only condition matches the event, so
    [check_suppression] answers true; yet [process_event] creates the alert,
    stores it, and raises [total_alerts] of the rule from 0 to 1:
    [create_alert] never consults [check_suppression]. *)
Theorem suppressed_alert_is_created :
  check_suppression re_match Scenario.t0 Scenario.security_log_cleared
    Scenario.log_cleared Scenario.suppressed_db = inr true
  /\ exists alert rule' db',
      process_event re_search Scenario.t0 [Scenario.security_log_cleared]
        Scenario.log_cleared Scenario.suppressed_db
      = ([alert], [rule'], db')
      /\ alerts db' = [alert]
      /\ total_alerts rule' = 1
      /\ alert_rule alert = rule_id Scenario.security_log_cleared.
Proof.
  split; [vm_compute; reflexivity|].
  eexists _, _, _. split; [vm_compute; reflexivity|].
  repeat split.
Qed.


(** *** Alert creation *)


Lemma create_alert_low_confidence (now : Z) (rule : DetectionRule)
    (e : SecurityEvent) (t : EntityTracker) (ttl : string) (c : Z)
    (x : option Z) (db : DB) :
  c < min_confidence rule ->
  create_alert now rule e t ttl c x db = (None, rule, db).
Proof.
  intros H. unfold create_alert.
  destruct (check_cooldown _ _ _ _ _); [reflexivity|].
  apply Z.ltb_lt in H. now rewrite H.
Qed.

Lemma create_alert_passes (now : Z) (rule : DetectionRule)
    (e : SecurityEvent) (t : EntityTracker) (ttl : string) (c : Z)
    (x : option Z) (db : DB) :
  check_cooldown now rule (entity_value t) (entity_type t) db = false ->
  min_confidence rule <= c ->
  create_alert now rule e t ttl c x db
  = (Some (new_alert now rule e t ttl c x),
     with_total_alerts rule (total_alerts rule + 1),
     with_alerts db (alerts db ++ [new_alert now rule e t ttl c x])).
Proof.
  intros Hcd Hc. unfold create_alert. rewrite Hcd.
  apply Z.ltb_ge in Hc. now rewrite Hc.
Qed.

Lemma create_alert_some (now : Z) (rule : DetectionRule)
    (e : SecurityEvent) (t : EntityTracker) (ttl : string) (c : Z)
    (x : option Z) (db : DB) (a : DetectionAlert) (rule' : DetectionRule)
    (db' : DB) :
  create_alert now rule e t ttl c x db = (Some a, rule', db') <->
  check_cooldown now rule (entity_value t) (entity_type t) db = false
  /\ min_confidence rule <= c
  /\ a = new_alert now rule e t ttl c x
  /\ rule' = with_total_alerts rule (total_alerts rule + 1)
  /\ db' = with_alerts db (alerts db ++ [a]).
Proof.
  split.
  - unfold create_alert.
    destruct (check_cooldown _ _ _ _ _); [discriminate|].
    destruct (c <? min_confidence rule) eqn:Hc; [discriminate|].
    apply Z.ltb_ge in Hc. intros [= <- <- <-]. repeat split; assumption.
  - intros (Hcd & Hc & -> & -> & ->). now apply create_alert_passes.
Qed.

Lemma create_alert_keeps_trackers (now : Z) (rule : DetectionRule)
    (e : SecurityEvent) (t : EntityTracker) (ttl : string) (c : Z)
    (x : option Z) (db : DB) :
  trackers (create_alert now rule e t ttl c x db).2 = trackers db.
Proof.
  unfold create_alert.
  destruct (check_cooldown _ _ _ _ _); [reflexivity|].
  destruct (c <? min_confidence rule); reflexivity.
Qed.

(** *** THRESHOLD rules *)



(** *** SEQUENCE rules *)




(** *** Cooldown *)





(** *** Trackers *)

Lemma first_row_Some (p : EntityTracker -> bool) (l : list EntityTracker)
    (i : nat) (x : EntityTracker) :
  first_row p l = Some (i, x) ->
  exists l1 l2,
    l = (l1 ++ x :: l2)%list /\ List.length l1 = i
    /\ Forall (fun y => p y = false) l1 /\ p x = true.
Proof.
  revert i. induction l as [|y l IH]; intros i; simpl; [discriminate|].
  destruct (p y) eqn:Hy.
  - intros [= <- <-]. exists [], l. repeat split; [constructor|assumption].
  - destruct (first_row p l) as [[j z]|]; [|discriminate].
    intros [= <- <-]. destruct (IH j eq_refl) as (l1 & l2 & -> & <- & Hall & Hx).
    exists (y :: l1), l2. repeat split; [now constructor|assumption].
Qed.

Lemma first_row_None (p : EntityTracker -> bool) (l : list EntityTracker) :
  first_row p l = None -> Forall (fun y => p y = false) l.
Proof.
  induction l as [|y l IH]; simpl; [constructor|].
  destruct (p y) eqn:Hy; [discriminate|].
  destruct (first_row p l) as [[j z]|]; [discriminate|].
  intros _. constructor; [assumption|now apply IH].
Qed.

Lemma first_row_middle (p : EntityTracker -> bool) (l1 l2 : list EntityTracker)
    (x : EntityTracker) :
  Forall (fun y => p y = false) l1 -> p x = true ->
  first_row p ((l1 ++ x :: l2)%list) = Some (List.length l1, x).
Proof.
  induction 1 as [|y l1 Hy _ IH]; intros Hx; simpl.
  - now rewrite Hx.
  - now rewrite Hy, IH.
Qed.

Lemma insert_middle (l1 l2 : list EntityTracker) (x y : EntityTracker) :
  <[List.length l1 := y]> ((l1 ++ x :: l2)%list) = (l1 ++ y :: l2)%list.
Proof. induction l1 as [|z l1 IH]; simpl; [reflexivity|now rewrite IH]. Qed.

Lemma lookup_middle (l1 l2 : list EntityTracker) (x : EntityTracker) :
  ((l1 ++ x :: l2)%list) !! List.length l1 = Some x.
Proof. induction l1 as [|z l1 IH]; simpl; [reflexivity|exact IH]. Qed.


(** What [record_unique] leaves alone. *)
Lemma record_unique_frame (e : SecurityEvent) (fields : list string)
    (t : EntityTracker) :
  entity_type (record_unique e fields t) = entity_type t
  /\ entity_value (record_unique e fields t) = entity_value t
  /\ tracker_hostname (record_unique e fields t) = tracker_hostname t
  /\ window_end (record_unique e fields t) = window_end t
  /\ event_counts (record_unique e fields t) = event_counts t
  /\ tracker_event_ids (record_unique e fields t) = tracker_event_ids t.
Proof.
  unfold record_unique. revert t.
  induction fields as [|f fields IH]; intros t; simpl; [tauto|].
  destruct (pyval_truthy (getattr e f)); [|apply IH].
  destruct (IH (add_unique_value t f (py_str (getattr e f))))
    as (-> & -> & -> & -> & -> & ->).
  repeat split.
Qed.


Lemma update_tracker_overlaps (rule : DetectionRule) (e : SecurityEvent)
    (t : EntityTracker) (etype evalue host : string) (ws : Z) :
  tracker_overlaps etype evalue host ws (update_tracker rule e t)
  = tracker_overlaps etype evalue host ws t.
Proof.
  unfold tracker_overlaps, update_tracker.
  destruct (record_unique_frame e (default [] (track_unique (logic rule)))
              (with_last_event_time
                 (increment_event t (event_id e) (pk e)) (timestamp e)))
    as (-> & -> & -> & -> & _ & _).
  reflexivity.
Qed.

Lemma update_tracker_window_end (rule : DetectionRule) (e : SecurityEvent)
    (t : EntityTracker) :
  window_end (update_tracker rule e t) = window_end t.
Proof.
  unfold update_tracker.
  destruct (record_unique_frame e (default [] (track_unique (logic rule)))
              (with_last_event_time
                 (increment_event t (event_id e) (pk e)) (timestamp e)))
    as (_ & _ & _ & -> & _ & _).
  reflexivity.
Qed.

(** The tracker [get_or_create_tracker] hands out sits at the position it
    reports, is the first row of its key that reaches the window, and its
    window does not end before the event. *)
Lemma get_or_create_tracker_row (now : Z) (etype evalue host : string)
    (w ts : Z) (table table' : list EntityTracker) (i : nat)
    (t : EntityTracker) :
  0 <= w ->
  get_or_create_tracker now etype evalue host w (Some ts) table
  = (i, t, table') ->
  exists l1 l2,
    table' = (l1 ++ t :: l2)%list /\ List.length l1 = i
    /\ Forall (fun y =>
                 tracker_overlaps etype evalue host (ts - minutes w) y = false)
         l1
    /\ tracker_overlaps etype evalue host (ts - minutes w) t = true
    /\ ts <= window_end t.
Proof.
  intros Hw. unfold get_or_create_tracker. simpl.
  set (kept := List.filter _ table).
  destruct (first_row _ kept) as [[j x]|] eqn:Hfind.
  - apply first_row_Some in Hfind as (l1 & l2 & Hk & Hlen & Hall & Hx).
    destruct (window_end x <? ts) eqn:Hext.
    + intros [= <- <- <-]. exists l1, l2. rewrite Hk, <- Hlen.
      split; [apply insert_middle|]. split; [reflexivity|].
      split; [assumption|]. unfold tracker_overlaps in *. simpl.
      apply andb_true_iff in Hx as [Hx _]. rewrite Hx. simpl.
      unfold minutes. split; [apply Z.leb_le|]; lia.
    + intros [= <- <- <-]. exists l1, l2. apply Z.ltb_ge in Hext.
      repeat split; assumption.
  - apply first_row_None in Hfind.
    intros [= <- <- <-]. exists kept, []. repeat split; [assumption| |].
    + unfold tracker_overlaps. simpl. rewrite !String.eqb_refl. simpl.
      unfold minutes. apply Z.leb_le. lia.
    + simpl. unfold minutes. lia.
Qed.

Lemma returned_db (r : option DetectionAlert * DetectionRule * DB) :
  (returned r).2 = r.2.
Proof. destruct r as [[a rule] db]. reflexivity. Qed.

Lemma returned_rule (r : option DetectionAlert * DetectionRule * DB) :
  (returned r).1.2 = r.1.2.
Proof. destruct r as [[a rule] db]. reflexivity. Qed.

Lemma create_alert_keeps_logic (now : Z) (rule : DetectionRule)
    (e : SecurityEvent) (t : EntityTracker) (ttl : string) (c : Z)
    (x : option Z) (db : DB) :
  logic (create_alert now rule e t ttl c x db).1.2 = logic rule.
Proof.
  unfold create_alert.
  destruct (check_cooldown _ _ _ _ _); [reflexivity|].
  destruct (c <? min_confidence rule); reflexivity.
Qed.

(** The dispatch on [rule_type] writes no tracker and keeps [logic]. *)
Lemma dispatch_frame (now : Z) (rule : DetectionRule) (e : SecurityEvent)
    (t : EntityTracker) (db : DB) :
  let r :=
    if String.eqb (rule_type rule) "THRESHOLD" then
      returned (_evaluate_threshold now rule e t db)
    else if String.eqb (rule_type rule) "SEQUENCE" then
      returned (_evaluate_sequence now rule e t db)
    else if String.eqb (rule_type rule) "PATTERN" then
      _evaluate_pattern re_search now rule e t db
    else if String.eqb (rule_type rule) "CORRELATION" then
      returned (_evaluate_correlation now rule e t db)
    else (Returned None, rule, db) in
  trackers r.2 = trackers db /\ logic r.1.2 = logic rule.
Proof.
  simpl.
  destruct (String.eqb (rule_type rule) "THRESHOLD").
  { rewrite returned_db, returned_rule. unfold _evaluate_threshold.
    destruct (_ <=? _); [|now split].
    destruct (negb _); [now split|].
    split; [apply create_alert_keeps_trackers|apply create_alert_keeps_logic]. }
  destruct (String.eqb (rule_type rule) "SEQUENCE").
  { rewrite returned_db, returned_rule. unfold _evaluate_sequence.
    destruct (_ <? _)%nat; [now split|].
    destruct (forallb _ _); [|now split].
    destruct (last _); [|now split].
    destruct (negb _); [now split|].
    split; [apply create_alert_keeps_trackers|apply create_alert_keeps_logic]. }
  destruct (String.eqb (rule_type rule) "PATTERN").
  { unfold _evaluate_pattern.
    destruct (count_matches _ _ _ _); [now split|].
    destruct (_ <=? _); [|now split].
    rewrite returned_db, returned_rule.
    split; [apply create_alert_keeps_trackers|apply create_alert_keeps_logic]. }
  destruct (String.eqb (rule_type rule) "CORRELATION"); [|now split].
  rewrite returned_db, returned_rule. unfold _evaluate_correlation.
  destruct (forallb _ _); [|now split].
  destruct (forallb _ _); [|now split].
  split; [apply create_alert_keeps_trackers|apply create_alert_keeps_logic].
Qed.


Lemma evaluate_rule_untracked (now : Z) (rule : DetectionRule)
    (e : SecurityEvent) (sys tsys : bool) (db : DB) :
  tracked_entity rule e sys tsys = None ->
  evaluate_rule re_search now rule e sys tsys db = (Returned None, rule, db).
Proof.
  unfold tracked_entity, evaluate_rule.
  destruct (negb _ && negb _); [reflexivity|].
  destruct (skips_system_account _ _ _); [reflexivity|].
  destruct (PyStr.truthy _) eqn:Htr; [|reflexivity].
  intros Hnone. rewrite Hnone in Htr. discriminate.
Qed.

Lemma evaluate_rule_tracked (now : Z) (rule : DetectionRule)
    (e : SecurityEvent) (sys tsys : bool) (db : DB) (v : string) (i : nat)
    (t : EntityTracker) (table : list EntityTracker) :
  tracked_entity rule e sys tsys = Some v ->
  get_or_create_tracker now
    (PyStr.upper (default "user_name" (track_by (logic rule)))) v (hostname e)
    (default 10 (window_minutes (logic rule))) (Some (timestamp e))
    (trackers db) = (i, t, table) ->
  trackers (evaluate_rule re_search now rule e sys tsys db).2
  = <[i := update_tracker rule e t]> table
  /\ logic (evaluate_rule re_search now rule e sys tsys db).1.2 = logic rule.
Proof.
  unfold tracked_entity, evaluate_rule.
  destruct (negb _ && negb _); [discriminate|].
  destruct (skips_system_account _ _ _); [discriminate|].
  destruct (PyStr.truthy _); [|discriminate].
  intros -> Hget. change (default "" (Some v)) with v.
  simpl negb. cbv iota. rewrite Hget.
  apply (dispatch_frame now rule e (update_tracker rule e t)
           (with_trackers db (<[i := update_tracker rule e t]> table))).
Qed.



End DetectionProperties.

(** * Properties of the PQL engine *)

Section TimeValues.

Import PQL.










End TimeValues.

Section ExecutorProperties.

Import PQL.

Variable Row : Type.
Variable all_rows : list Row.
Variable q_filter : Q -> list Row -> exn + list Row.
Variable filter_since : Z -> list Row -> list Row.
Variable order_rows : string -> list Row -> list Row.
Variable row_values : Row -> Row.
Variable hunt_groups : string -> list Row -> list Row.
Variable aggregate_groups : string -> list string -> list Row -> list Row.
Variable model_fields : list string.
Variable parse_datetime : string -> option Z.

(** Ordering and grouping an empty queryset leave it empty. *)
Hypothesis order_rows_nil : forall key, order_rows key [] = [].
Hypothesis hunt_groups_nil : forall g, hunt_groups g [] = [].
Hypothesis aggregate_groups_nil : forall g aggs, aggregate_groups g aggs [] = [].

Abbreviation run_search :=
  (_execute_search Row all_rows q_filter order_rows row_values model_fields
     parse_datetime).
Abbreviation run_hunt :=
  (_execute_hunt Row all_rows q_filter hunt_groups model_fields parse_datetime).
Abbreviation run_aggregate :=
  (_execute_aggregate Row all_rows q_filter filter_since aggregate_groups
     model_fields parse_datetime).
Abbreviation run :=
  (execute Row all_rows q_filter filter_since order_rows row_values
     hunt_groups aggregate_groups model_fields parse_datetime).
Abbreviation run_parsed :=
  (execute_parsed Row all_rows q_filter filter_since order_rows row_values
     hunt_groups aggregate_groups model_fields parse_datetime).
Abbreviation valid := (_is_valid_field model_fields).
Abbreviation step_of := (build_step model_fields parse_datetime).
Abbreviation loop_of := (build_loop model_fields parse_datetime).
Abbreviation build := (_build_q_objects model_fields parse_datetime).

(** *** Slices *)

Lemma qs_slice_length (start stop : Z) (rows out : list Row) :
  qs_slice Row start stop rows = inr out ->
  0 <= start /\ 0 <= stop
  /\ Z.of_nat (List.length out) <= Z.max 0 (stop - start).
Proof.
  unfold qs_slice.
  destruct (start <? 0) eqn:Hs; [discriminate|].
  destruct (stop <? 0) eqn:Ht; [discriminate|].
  simpl. intros [= <-]. apply Z.ltb_ge in Hs. apply Z.ltb_ge in Ht.
  split; [assumption|]. split; [assumption|].
  rewrite length_take. lia.
Qed.


(** An AGGREGATE query hands [filter] the pair, so it keeps no row. *)
Lemma aggregate_rows (now : Z) (g : aggregate_ast) (rows : list Row) :
  run_aggregate now g = inr rows -> rows = [].
Proof.
  unfold _execute_aggregate.
  destruct (build now (aggregate_conditions g)) as [ex|[q hv]]; [discriminate|].
  unfold filter_or_none, qs_filter.
  destruct q as [q|]; [discriminate|].
  destruct (aggregate_group_by g) as [[|c gb]|].
  - unfold qs_slice. simpl. now intros [= <-].
  - rewrite aggregate_groups_nil. unfold qs_slice. simpl. now intros [= <-].
  - unfold qs_slice. simpl. now intros [= <-].
Qed.


(** *** The limit *)

Lemma execute_within_limit (now : Z) (a : ast) (rows : list Row) (bound : Z) :
  match a with
  | SEARCH s => search_offset s = 0
  | AGGREGATE g => forall b, aggregate_limit g = Some b -> 0 <= b
  | _ => True
  end ->
  run now a = inr rows ->
  limit_of a = Some bound ->
  Z.of_nat (List.length rows) <= bound.
Proof.
  destruct a as [s|h|g|c]; simpl; intros Hshape Hrun Hlim.
  - injection Hlim as <-. unfold _execute_search in Hrun.
    destruct (build now (search_conditions s)) as [ex|[q hv]]; [discriminate|].
    destruct (if negb hv then _ else _) as [ex|qs]; [discriminate|].
    rewrite Hshape in Hrun.
    destruct (qs_slice Row 0 (0 + search_limit s) _) as [ex|out] eqn:Hslice;
      [discriminate|].
    injection Hrun as <-. apply qs_slice_length in Hslice.
    rewrite length_map. lia.
  - injection Hlim as <-. unfold _execute_hunt in Hrun.
    destruct (build now (hunt_conditions h)) as [ex|[q hv]]; [discriminate|].
    destruct (if negb hv then _ else _) as [ex|qs]; [discriminate|].
    apply qs_slice_length in Hrun. lia.
  - apply aggregate_rows in Hrun. subst rows. simpl. now apply Hshape.
  - discriminate.
Qed.

Ltac split_match :=
  repeat match goal with
         | |- context [match ?x with _ => _ end] =>
             destruct x eqn:?; try discriminate
         | |- (let '(_, _) := ?x in _) = _ -> _ =>
             destruct x eqn:?; try discriminate
         end.

(** What the parser returns has ['offset': 0] when it is a SEARCH and no
    ['limit'] when it is an AGGREGATE. *)
Lemma parse_parser_shaped (now : Z) (tokens : list token) (a : ast) :
  parse now tokens = inr a -> parser_shaped a.
Proof.
  unfold parse.
  destruct (kind_eqb _ KEYWORD); [|discriminate].
  destruct (text_is _ "SEARCH").
  { unfold parse_search. split_match. now intros [= <-]. }
  destruct (text_is _ "HUNT").
  { unfold parse_hunt. split_match. now intros [= <-]. }
  destruct (text_is _ "AGGREGATE"); [|discriminate].
  unfold parse_aggregate. split_match. now intros [= <-].
Qed.

(** C2.  For a query the parser accepts, the limit the AST carries when it
    is executed is the parsed one, or the caller's when the caller's is
    between 1 and 5000 and the AST has none or a larger one; and whenever
    the executor returns rows for it, SEARCH, HUNT or AGGREGATE, they are
    no more than that limit. *)
Theorem result_rows_within_limit (now : Z) (tokens : list token) (a : ast)
    (limit : option Z) :
  parse now tokens = inr a ->
  (forall parsed,
      limit_of a = Some parsed ->
      limit_of (override_limit a limit)
      = Some (match limit with
              | Some l =>
                  if (1 <=? l) && (l <=? 5000) && (l <? parsed) then l
                  else parsed
              | None => parsed
              end))
  /\ (limit_of a = None ->
      limit_of (override_limit a limit)
      = match limit with
        | Some l => if (1 <=? l) && (l <=? 5000) then Some l else None
        | None => None
        end)
  /\ (forall run_at rows bound,
        run_parsed run_at a limit = inr rows ->
        limit_of (override_limit a limit) = Some bound ->
        Z.of_nat (List.length rows) <= bound).
Proof.
  intros Hparse. pose proof (parse_parser_shaped _ _ _ Hparse) as Hshape.
  split; [|split].
  - intros parsed Hlim. unfold override_limit. rewrite Hlim.
    destruct limit as [l|]; [|assumption].
    destruct ((1 <=? l) && (l <=? 5000)); simpl; [|assumption].
    destruct (l <? parsed); [|assumption].
    destruct a; simpl in *; congruence.
  - intros Hnone. unfold override_limit. rewrite Hnone.
    destruct limit as [l|]; [|assumption].
    destruct ((1 <=? l) && (l <=? 5000)); [|assumption].
    destruct a; simpl in *; try contradiction; congruence.
  - intros run_at rows bound. unfold execute_parsed.
    apply execute_within_limit.
    unfold override_limit.
    destruct limit as [l|];
      [|destruct a; simpl in *; try exact I; congruence].
    destruct ((1 <=? l) && (l <=? 5000)) eqn:Hl;
      [|destruct a; simpl in *; try exact I; congruence].
    apply andb_true_iff in Hl as [Hl _]. apply Z.leb_le in Hl.
    destruct a as [s|h|g|c]; simpl in *.
    + destruct (l <? search_limit s); simpl; assumption.
    + destruct (l <? hunt_limit h); simpl; exact I.
    + rewrite Hshape. simpl. intros b [= <-]. lia.
    + exact I.
Qed.

(** *** Unknown fields *)






End ExecutorProperties.

(** * Runs on the samples *)

Section Runs.

Import Detection Scenario.

(** Witness of C9: event 4798 on [dc01]. *)
Lemma noise_event_leaves_state_witness :
  In (event_id group_enumerated) NOISE_EVENT_IDS
  /\ process_event literal_search t0 [mass_account_lockouts] group_enumerated
       empty_db
     = ([], [mass_account_lockouts], empty_db).
Proof.
  split; [now left|].
  apply (noise_event_leaves_state literal_search t0 [mass_account_lockouts]
           group_enumerated empty_db).
  now left.
Defined.

(** Witness of C10: a lockout without user names, against two built-in
    rules. *)
Lemma empty_user_names_skip_rules_witness :
  PyStr.truthy (user_name anonymous_lockout) = false
  /\ PyStr.truthy (target_user_name anonymous_lockout) = false
  /\ process_event literal_search t0 [mass_account_lockouts; brute_force]
       anonymous_lockout empty_db
     = ([], [mass_account_lockouts; brute_force], empty_db).
Proof.
  split; [reflexivity|]. split; [reflexivity|].
  destruct (empty_user_names_skip_rules literal_search t0
              [mass_account_lockouts; brute_force] anonymous_lockout empty_db
              eq_refl eq_refl) as (_ & _ & _ & Hall).
  apply Hall. repeat constructor.
Defined.









End Runs.

Section SampleQueries.

Import PQL SampleStore.



(** Witness of C2: [SEARCH WHERE severity = CRITICAL LIMIT 10] with the
    caller's limit 3, over fifteen CRITICAL events. *)
Lemma result_rows_within_limit_witness :
  parse Scenario.t0 (tokenize "SEARCH WHERE severity = CRITICAL LIMIT 10")
  = inr critical_search
  /\ limit_of (override_limit critical_search (Some 3)) = Some 3
  /\ exists rows,
      sample_pql Scenario.t0 "SEARCH WHERE severity = CRITICAL LIMIT 10"
        (Some 3) = inr rows
      /\ Z.of_nat (List.length rows) <= 3.
Proof.
  split; [reflexivity|]. split; [reflexivity|].
  eexists. split; [vm_compute; reflexivity|].
  destruct (result_rows_within_limit row sample_rows sample_filter
              sample_since sample_order (fun r => r) sample_groups
              sample_aggregate SECURITY_EVENT_FIELDS no_datetime
              (fun _ _ => eq_refl) Scenario.t0
              (tokenize "SEARCH WHERE severity = CRITICAL LIMIT 10")
              critical_search (Some 3) eq_refl) as (_ & _ & Hbound).
  apply (Hbound Scenario.t0).
  - vm_compute. reflexivity.
  - reflexivity.
Defined.



End SampleQueries.

(** * The loops of the lexer and the parser end *)

Section Fuel.

Import PQL.

Lemma lstrip_length (s : string) :
  (String.length (PyStr.lstrip s) <= String.length s)%nat.
Proof.
  induction s as [|c s IH]; simpl; [lia|].
  destruct (PyStr.is_space c); simpl; lia.
Qed.

Lemma span_length (p : ascii -> bool) (s taken rest : string) :
  span p s = (taken, rest) ->
  (String.length rest <= String.length s)%nat.
Proof.
  revert taken rest. induction s as [|c s IH]; intros taken rest; simpl.
  - intros [= <- <-]. simpl. lia.
  - destruct (p c).
    + destruct (span p s) as [t r] eqn:E. intros [= <- <-].
      specialize (IH _ _ eq_refl). lia.
    + intros [= <- <-]. simpl. lia.
Qed.

Lemma span_first (p : ascii -> bool) (c : ascii) (s taken rest : string) :
  p c = true -> span p (String c s) = (taken, rest) ->
  (String.length rest <= String.length s)%nat.
Proof.
  intros Hc. simpl. rewrite Hc.
  destruct (span p s) as [t r] eqn:E. intros [= <- <-].
  now apply span_length in E.
Qed.

Lemma read_string_body_length (q : ascii) (n : nat) (s value rest : string) :
  (String.length s <= n)%nat ->
  read_string_body q s = (value, rest) ->
  (String.length rest <= String.length s)%nat.
Proof.
  revert s value rest.
  induction n as [|n IH]; intros s value rest Hn.
  - destruct s; simpl in *; [|lia]. intros [= <- <-]. simpl. lia.
  - destruct s as [|c r]; simpl in *; [intros [= <- <-]; simpl; lia|].
    destruct (Ascii.eqb c q); [intros [= <- <-]; lia|].
    destruct (Ascii.eqb c "\").
    + destruct r as [|d r']; [intros [= <- <-]; simpl; lia|].
      destruct (read_string_body q r') as [v t] eqn:E. intros [= <- <-].
      apply IH in E; simpl in *; lia.
    + destruct (read_string_body q r) as [v t] eqn:E. intros [= <- <-].
      apply IH in E; lia.
Qed.

Lemma read_number_length (c : ascii) (r text rest : string) :
  is_digit c
  || (Ascii.eqb c "-"
      && match r with
         | String d _ => is_digit d
         | EmptyString => false
         end) = true ->
  _read_number (String c r) = (text, rest) ->
  (String.length rest <= String.length r)%nat.
Proof.
  intros Hstart. unfold _read_number.
  assert (Hbody : forall s1 body s2,
             (String.length s1 <= S (String.length r))%nat ->
             span (fun c => is_digit c || Ascii.eqb c ".") s1 = (body, s2) ->
             (String.length s2 <= String.length r)%nat ->
             forall sign,
               match s2 with
               | String u r0 =>
                   if char_in u "hmsdw"
                   then (sign +:+ body +:+ String u EmptyString, r0)
                   else (sign +:+ body, s2)
               | EmptyString => (sign +:+ body, s2)
               end = (text, rest) ->
               (String.length rest <= String.length r)%nat).
  { intros s1 body s2 _ _ Hs2 sign.
    destruct s2 as [|u r0]; [intros [= <- <-]; exact Hs2|].
    destruct (char_in u "hmsdw"); intros [= <- <-]; simpl in *; lia. }
  destruct (Ascii.eqb_spec c "-") as [->|Hc].
  - destruct (span _ r) as [body s2] eqn:E.
    apply (Hbody r body s2); [lia|exact E|now apply span_length in E].
  - assert (Hd : is_digit c = true).
    { apply orb_true_iff in Hstart as [H|H]; [exact H|].
      apply andb_true_iff in H as [H _]. discriminate H. }
    assert (Hsign : match String c r with
                    | String "-" r0 => ("-", r0)
                    | _ => (EmptyString, String c r)
                    end = (EmptyString, String c r)).
    { destruct c as [[] [] [] [] [] [] [] []]; try reflexivity.
      contradiction Hc. reflexivity. }
    rewrite Hsign.
    destruct (span _ (String c r)) as [body s2] eqn:E.
    apply (Hbody (String c r) body s2); [simpl; lia|exact E|].
    eapply span_first; [|exact E]. simpl. now rewrite Hd.
Qed.

(** Any fuel that covers the length of the query gives the same tokens. *)
Lemma tokenize_loop_fuel (f1 f2 : nat) (s : string) :
  (String.length s <= f1)%nat -> (String.length s <= f2)%nat ->
  tokenize_loop f1 s = tokenize_loop f2 s.
Proof.
  revert f2 s. induction f1 as [|f1 IH]; intros f2 s H1 H2.
  - destruct s; simpl in H1; [|lia].
    destruct f2; reflexivity.
  - destruct f2 as [|f2].
    { destruct s; simpl in H2; [reflexivity|lia]. }
    cbn [tokenize_loop].
    pose proof (lstrip_length s) as Hl.
    destruct (PyStr.lstrip s) as [|c r]; [reflexivity|].
    simpl in Hl.
    assert (Hr : forall rest,
               (String.length rest <= String.length r)%nat ->
               tokenize_loop f1 rest = tokenize_loop f2 rest).
    { intros rest Hrest. apply IH; lia. }
    destruct (Ascii.eqb c double_quote || Ascii.eqb c "'").
    { destruct (read_string_body c r) as [v rest] eqn:E.
      rewrite Hr; [reflexivity|].
      eapply read_string_body_length; [|exact E]. reflexivity. }
    destruct (is_digit c || _) eqn:Hnum.
    { destruct (_read_number (String c r)) as [text rest] eqn:E.
      rewrite Hr; [reflexivity|].
      eapply read_number_length; [exact Hnum|exact E]. }
    destruct (is_alpha c || Ascii.eqb c "_") eqn:Hid.
    { unfold _read_identifier.
      destruct (span _ (String c r)) as [value rest] eqn:E.
      assert (Hrest : (String.length rest <= String.length r)%nat).
      { eapply span_first; [|exact E]. simpl.
        unfold is_alnum. apply orb_true_iff in Hid as [->| ->];
          [reflexivity|apply orb_true_r]. }
      destruct (PyStr.mem _ KEYWORDS);
        [destruct (PyStr.mem _ _)|]; now rewrite Hr. }
    destruct (char_in c "=!<>") eqn:Hcmp.
    { unfold _read_comparison.
      destruct (span _ (String c r)) as [op rest] eqn:E.
      rewrite Hr; [reflexivity|].
      eapply span_first; [|exact E]. exact Hcmp. }
    destruct (Ascii.eqb c "|"); [now rewrite Hr|].
    destruct (Ascii.eqb c ","); [now rewrite Hr|].
    destruct (Ascii.eqb c "("); [now rewrite Hr|].
    destruct (Ascii.eqb c ")"); [now rewrite Hr|].
    now apply Hr.
Qed.

Lemma consume_rest (k : option token_kind) (v : option string)
    (tokens rest : list token) (t : token) :
  consume k v tokens = inr (t, rest) -> rest = tl tokens.
Proof.
  unfold consume.
  destruct (match k with Some _ => _ | None => _ end); [discriminate|].
  destruct (match v with Some _ => _ | None => _ end); [discriminate|].
  now intros [= _ <-].
Qed.

Lemma tl_length (tokens : list token) :
  (List.length (tl tokens) <= List.length tokens)%nat.
Proof. destruct tokens; simpl; lia. Qed.

(** A value takes one token. *)
Lemma parse_value_rest (now : Z) (tokens rest : list token) (v : value) :
  _parse_value now tokens = inr (v, rest) ->
  tokens <> [] /\ rest = tl tokens.
Proof.
  destruct tokens as [|t tokens]; [discriminate|].
  intros H. split; [discriminate|]. revert H.
  unfold _parse_value. cbn [current_token tl].
  destruct (kind_eqb (fst t) STRING); [now intros [= _ <-]|].
  destruct (kind_eqb (fst t) NUMBER).
  { destruct (PyStr.last_char _); [|discriminate].
    destruct (char_in _ _); [now intros [= _ <-]|].
    destruct (negb _).
    - destruct (py_int _); [now intros [= _ <-]|discriminate].
    - destruct (py_float_ok _); [now intros [= _ <-]|discriminate]. }
  destruct (kind_eqb (fst t) IDENTIFIER); [now intros [= _ <-]|].
  destruct (text_is t "NOW").
  { destruct (consume _ _ _) as [|[tok r]] eqn:E; [discriminate|].
    apply consume_rest in E. now intros [= _ <-]. }
  destruct (text_is t "TRUE" || text_is t "FALSE").
  { destruct (consume _ _ _) as [|[tok r]] eqn:E; [discriminate|].
    apply consume_rest in E. now intros [= _ <-]. }
  destruct (text_is t "NULL"); [|discriminate].
  destruct (consume _ _ _) as [|[tok r]] eqn:E; [discriminate|].
  apply consume_rest in E. now intros [= _ <-].
Qed.

Lemma parse_in_values_fuel (now : Z) (f1 f2 : nat) (tokens : list token) :
  (List.length tokens < f1)%nat -> (List.length tokens < f2)%nat ->
  parse_in_values f1 now tokens = parse_in_values f2 now tokens.
Proof.
  revert f2 tokens. induction f1 as [|f1 IH]; intros f2 tokens H1 H2; [lia|].
  destruct f2 as [|f2]; [lia|]. cbn [parse_in_values].
  destruct (kind_eqb _ RPAREN); [reflexivity|].
  destruct (_parse_value now tokens) as [|[v rest]] eqn:E; [reflexivity|].
  apply parse_value_rest in E as [Hne ->].
  assert (Hlen : (List.length (tl tokens) < List.length tokens)%nat).
  { destruct tokens; [congruence|simpl; lia]. }
  rewrite (IH f2).
  - reflexivity.
  - destruct (kind_eqb _ COMMA); [pose proof (tl_length (tl tokens))|]; lia.
  - destruct (kind_eqb _ COMMA); [pose proof (tl_length (tl tokens))|]; lia.
Qed.

Lemma parse_in_values_rest (now : Z) (fuel : nat) (tokens rest : list token)
    (vs : list value) :
  parse_in_values fuel now tokens = inr (vs, rest) ->
  (List.length rest <= List.length tokens)%nat.
Proof.
  revert tokens rest vs. induction fuel as [|fuel IH]; intros tokens rest vs;
    cbn [parse_in_values]; [discriminate|].
  destruct (kind_eqb _ RPAREN); [intros [= _ <-]; lia|].
  destruct (_parse_value now tokens) as [|[v r]] eqn:E; [discriminate|].
  apply parse_value_rest in E as [Hne ->].
  destruct (parse_in_values fuel now _) as [|[vs' r']] eqn:E'; [discriminate|].
  intros [= _ <-]. apply IH in E'.
  pose proof (tl_length tokens). pose proof (tl_length (tl tokens)).
  destruct (kind_eqb _ COMMA); lia.
Qed.

(** A condition takes at least one token. *)
Lemma parse_condition_rest (now : Z) (tokens rest : list token) (it : item) :
  parse_condition now tokens = inr (it, rest) ->
  (List.length rest < List.length tokens)%nat.
Proof.
  unfold parse_condition.
  destruct (consume (Some IDENTIFIER) None tokens) as [|[ft r0]] eqn:E0;
    [discriminate|].
  assert (Hne : tokens <> []).
  { intros ->. discriminate. }
  apply consume_rest in E0. subst r0.
  assert (H0 : (List.length (tl tokens) < List.length tokens)%nat).
  { destruct tokens; [congruence|simpl; lia]. }
  destruct (kind_eqb _ COMPARISON).
  { destruct (_parse_value now _) as [|[v r]] eqn:E; [discriminate|].
    apply parse_value_rest in E as [_ ->]. intros [= _ <-].
    pose proof (tl_length (tl (tl tokens))). pose proof (tl_length (tl tokens)).
    lia. }
  destruct (text_is _ "CONTAINS").
  { destruct (consume _ _ _) as [|[t1 r1]] eqn:E1; [discriminate|].
    apply consume_rest in E1. subst r1.
    destruct (_parse_value now _) as [|[v r]] eqn:E; [discriminate|].
    apply parse_value_rest in E as [_ ->]. intros [= _ <-].
    pose proof (tl_length (tl (tl tokens))). pose proof (tl_length (tl tokens)).
    lia. }
  destruct (text_is _ "LIKE").
  { destruct (consume _ _ _) as [|[t1 r1]] eqn:E1; [discriminate|].
    apply consume_rest in E1. subst r1.
    destruct (_parse_value now _) as [|[v r]] eqn:E; [discriminate|].
    apply parse_value_rest in E as [_ ->]. intros [= _ <-].
    pose proof (tl_length (tl (tl tokens))). pose proof (tl_length (tl tokens)).
    lia. }
  destruct (text_is _ "IN"); [|discriminate].
  destruct (consume _ _ (tl tokens)) as [|[t1 r1]] eqn:E1; [discriminate|].
  apply consume_rest in E1. subst r1.
  destruct (consume _ _ (tl (tl tokens))) as [|[t2 r2]] eqn:E2; [discriminate|].
  apply consume_rest in E2. subst r2.
  destruct (parse_in_values _ now _) as [|[vs r3]] eqn:E3; [discriminate|].
  apply parse_in_values_rest in E3.
  destruct (consume _ _ r3) as [|[t4 r4]] eqn:E4; [discriminate|].
  apply consume_rest in E4. subst r4. intros [= _ <-].
  pose proof (tl_length r3). pose proof (tl_length (tl (tl tokens))).
  pose proof (tl_length (tl tokens)). lia.
Qed.

(** Any fuel above the number of tokens gives the same conditions. *)
Lemma parse_conditions_loop_fuel (now : Z) (f1 f2 : nat)
    (tokens : list token) :
  (List.length tokens < f1)%nat -> (List.length tokens < f2)%nat ->
  parse_conditions_loop f1 now tokens = parse_conditions_loop f2 now tokens.
Proof.
  revert f2 tokens. induction f1 as [|f1 IH]; intros f2 tokens H1 H2; [lia|].
  destruct f2 as [|f2]; [lia|]. cbn [parse_conditions_loop].
  destruct (parse_condition now tokens) as [|[c rest]] eqn:E; [reflexivity|].
  apply parse_condition_rest in E.
  destruct (kind_eqb _ LOGICAL); [|reflexivity].
  pose proof (tl_length rest).
  rewrite (IH f2); [reflexivity|lia|lia].
Qed.

End Fuel.

(** * The scenarios of the specification, run on the samples *)

Section SpecScenarios.

Import Detection Scenario.

Example system_accounts :
  map is_system_account
    [Some "WS01$"; Some "NT AUTHORITY\SYSTEM"; Some " svc_backup";
     Some "alice"; Some "-"; None]
  = [true; true; true; false; true; true].
Proof. reflexivity. Qed.

(** Five failed logons then a successful one for the same target user fire
    "Brute Force Attack"; a further failed logon does not fire it again. *)
Example brute_force_sequence :
  map (map confidence)
    (process_events literal_search [brute_force]
       (live [failed_logon 1; failed_logon 2; failed_logon 3; failed_logon 4;
              failed_logon 5; successful_logon 6; failed_logon 7])
       empty_db).1.1
  = [[]; []; []; []; []; [85]; []].
Proof. vm_compute. reflexivity. Qed.

(** A successful logon before the failed ones does not fire it. *)
Example success_before_failures :
  (process_events literal_search [brute_force]
     (live [successful_logon 1; failed_logon 2; failed_logon 3;
            failed_logon 4; failed_logon 5; failed_logon 6])
     empty_db).1.1
  = [[]; []; []; []; []; []].
Proof. vm_compute. reflexivity. Qed.

(** Under a rule that keeps every firing, the fifth lockout alerts with
    confidence 50 and the sixth, a minute later, is in cooldown. *)
Example lockouts_and_cooldown :
  map (map confidence)
    (process_events literal_search [lockouts_any_confidence]
       (live [lockout 1; lockout 2; lockout 3; lockout 4; lockout 5;
              lockout 6])
       empty_db).1.1
  = [[]; []; []; []; [50]; []].
Proof. vm_compute. reflexivity. Qed.

(** "Mass Account Lockouts" itself alerts at the seventh lockout, when the
    confidence reaches its [min_confidence] of 70. *)
Example mass_lockouts_seventh :
  map (map confidence)
    (process_events literal_search [mass_account_lockouts]
       (live [lockout 1; lockout 2; lockout 3; lockout 4; lockout 5;
              lockout 6; lockout 7])
       empty_db).1.1
  = [[]; []; []; []; []; []; [70]].
Proof. vm_compute. reflexivity. Qed.

End SpecScenarios.

Section QueryScenarios.

Import PQL SampleStore.

Example tokens_of_time_value :
  tokenize "WITHIN 24h"
  = [(KEYWORD, Some "WITHIN"); (NUMBER, Some "24h"); (EOF, None)].
Proof. reflexivity. Qed.

(** [SEARCH WHERE severity = CRITICAL LIMIT 10] over fifteen CRITICAL and
    five other events: ten CRITICAL rows, the latest first. *)
Example critical_search_round_trip :
  sample_pql Scenario.t0 "SEARCH WHERE severity = CRITICAL LIMIT 10" None
  = inr (map (fun k => event_row k "CRITICAL" (Scenario.t0 + minutes k))
           [15; 14; 13; 12; 11; 10; 9; 8; 7; 6]).
Proof. vm_compute. reflexivity. Qed.

Example bogus_field_search :
  sample_pql Scenario.t0 "SEARCH WHERE bogus_field = 1" (Some 100) = inr [].
Proof. vm_compute. reflexivity. Qed.

(** An AGGREGATE query hands [filter] the pair of [_build_q_objects]: it
    returns no row without a valid condition and fails with one. *)
Example aggregate_without_condition :
  sample_pql Scenario.t0 "AGGREGATE BY severity COUNT" (Some 10) = inr [].
Proof. vm_compute. reflexivity. Qed.

Example aggregate_with_condition :
  sample_pql Scenario.t0 "AGGREGATE BY severity COUNT WHERE severity = LOW"
    (Some 10)
  = inl AttributeError.
Proof. vm_compute. reflexivity. Qed.

Example negative_limit_refused :
  sample_pql Scenario.t0 "SEARCH LIMIT -5" None = inl ValueError.
Proof. vm_compute. reflexivity. Qed.

End QueryScenarios.

(** * Further properties of the detection engine *)

(** ** System accounts *)

Section AccountNames.

Import Detection.

Lemma append_cons (c : ascii) (s x : string) :
  String c s ++ x = String c (s ++ x).
Proof. reflexivity. Qed.

Lemma append_empty_r (s : string) : s ++ "" = s.
Proof.
  induction s as [|c s IH]; [reflexivity|]. now rewrite append_cons, IH.
Qed.

Lemma lower_upper_char (c : ascii) :
  PyStr.lower_char (PyStr.upper_char c) = PyStr.lower_char c.
Proof. destruct c as [[] [] [] [] [] [] [] []]; reflexivity. Qed.

Lemma lower_upper (s : string) : PyStr.lower (PyStr.upper s) = PyStr.lower s.
Proof.
  unfold PyStr.lower, PyStr.upper.
  induction s as [|c s IH]; simpl; [reflexivity|].
  now rewrite lower_upper_char, IH.
Qed.

Lemma map_chars_app (f : ascii -> ascii) (a b : string) :
  PyStr.map_chars f (a ++ b) = PyStr.map_chars f a ++ PyStr.map_chars f b.
Proof.
  induction a as [|c a IH]; [reflexivity|].
  rewrite append_cons. simpl. now rewrite IH.
Qed.

Lemma lower_space_char (c : ascii) :
  PyStr.is_space c = true -> PyStr.lower_char c = c.
Proof. destruct c as [[] [] [] [] [] [] [] []]; (reflexivity || discriminate). Qed.

Lemma lower_blank (ws : string) :
  forallb PyStr.is_space (list_ascii_of_string ws) = true ->
  PyStr.lower ws = ws.
Proof.
  unfold PyStr.lower. induction ws as [|c ws IH]; simpl; [reflexivity|].
  intros H. apply andb_true_iff in H as [Hc Hws].
  now rewrite (lower_space_char _ Hc), IH.
Qed.

Lemma lstrip_blank_app (ws x : string) :
  forallb PyStr.is_space (list_ascii_of_string ws) = true ->
  PyStr.lstrip (ws ++ x) = PyStr.lstrip x.
Proof.
  induction ws as [|c ws IH]; [reflexivity|].
  intros H. simpl in H. apply andb_true_iff in H as [Hc Hws].
  rewrite append_cons. simpl. rewrite Hc. now apply IH.
Qed.

Lemma rstrip_blank (ws : string) :
  forallb PyStr.is_space (list_ascii_of_string ws) = true ->
  PyStr.rstrip ws = "".
Proof.
  induction ws as [|c ws IH]; simpl; [reflexivity|].
  intros H. apply andb_true_iff in H as [Hc Hws]. now rewrite IH, Hc.
Qed.

Lemma rstrip_app_blank (x ws : string) :
  forallb PyStr.is_space (list_ascii_of_string ws) = true ->
  PyStr.rstrip (x ++ ws) = PyStr.rstrip x.
Proof.
  intros H. induction x as [|c x IH].
  - now apply rstrip_blank.
  - rewrite append_cons. simpl. now rewrite IH.
Qed.

Lemma strip_app_blank (x ws : string) :
  forallb PyStr.is_space (list_ascii_of_string ws) = true ->
  PyStr.strip (x ++ ws) = PyStr.strip x.
Proof.
  intros H. unfold PyStr.strip. induction x as [|c x IH].
  - change ("" ++ ws) with ws. rewrite <- (append_empty_r ws).
    now rewrite lstrip_blank_app.
  - rewrite append_cons. simpl.
    destruct (PyStr.is_space c); [exact IH|].
    rewrite <- append_cons. now apply rstrip_app_blank.
Qed.

Lemma strip_padded (lead x trail : string) :
  forallb PyStr.is_space (list_ascii_of_string lead) = true ->
  forallb PyStr.is_space (list_ascii_of_string trail) = true ->
  PyStr.strip (lead ++ x ++ trail) = PyStr.strip x.
Proof.
  intros Hl Ht. unfold PyStr.strip at 1. rewrite lstrip_blank_app by assumption.
  now apply strip_app_blank.
Qed.

(** [is_system_account] looks at a name through [lower()] and [strip()]
    only: two names with the same case folding get the same answer, and
    white space around a name does not change it. *)
Theorem system_account_check_normalises (s1 s2 lead trail : string) :
  PyStr.lower s1 = PyStr.lower s2 ->
  forallb PyStr.is_space (list_ascii_of_string lead) = true ->
  forallb PyStr.is_space (list_ascii_of_string trail) = true ->
  is_system_account (Some (lead ++ s1 ++ trail)) = is_system_account (Some s2).
Proof.
  intros Hlow Hl Ht.
  assert (Hnorm : PyStr.strip (PyStr.lower (lead ++ s1 ++ trail))
                  = PyStr.strip (PyStr.lower s2)).
  { unfold PyStr.lower. rewrite !map_chars_app. fold (PyStr.lower lead).
    fold (PyStr.lower s1). fold (PyStr.lower trail). fold (PyStr.lower s2).
    rewrite (lower_blank lead Hl), (lower_blank trail Ht), Hlow.
    now apply strip_padded. }
  unfold is_system_account. simpl default. rewrite Hnorm.
  destruct s2 as [|c2 s2].
  - destruct s1 as [|c1 s1]; [|discriminate]. simpl.
    destruct (lead ++ "" ++ trail); reflexivity.
  - destruct s1 as [|c1 s1]; [discriminate|].
    assert (Htr : PyStr.truthy (Some (lead ++ String c1 s1 ++ trail)) = true).
    { destruct lead; reflexivity. }
    rewrite Htr. reflexivity.
Qed.

End AccountNames.

(** ** The tracker table *)

Section TrackerTable.

Import Detection.

Lemma filter_recent_In (now : Z) (table : list EntityTracker)
    (x : EntityTracker) :
  In x (List.filter (fun t => negb (window_end t <? now - hours 1)) table) ->
  In x table /\ now - hours 1 <= window_end x.
Proof.
  intros H. apply List.filter_In in H as [Hin Hk]. split; [assumption|].
  apply negb_true_iff, Z.ltb_ge in Hk. exact Hk.
Qed.

Lemma lookup_other_middle (l1 l2 : list EntityTracker) (t x : EntityTracker)
    (j : nat) :
  j <> List.length l1 ->
  ((l1 ++ t :: l2)%list) !! j = Some x -> In x ((l1 ++ l2)%list).
Proof.
  revert j. induction l1 as [|y l1 IH]; intros j Hj; simpl in *.
  - destruct j as [|j]; [congruence|]. simpl. intros H.
    apply list_elem_of_In. eapply list_elem_of_lookup_2. exact H.
  - destruct j as [|j]; simpl.
    + intros [= ->]. now left.
    + intros H. right. apply (IH j); [lia|assumption].
Qed.

(** [get_or_create_tracker] hands out a row of the requested key whose
    window reaches the event time, stored at the position it reports. *)
Theorem tracker_lookup_covers_event (now : Z) (etype evalue host : string)
    (w ts : Z) (table table' : list EntityTracker) (i : nat)
    (t : EntityTracker) :
  0 <= w ->
  get_or_create_tracker now etype evalue host w (Some ts) table
  = (i, t, table') ->
  table' !! i = Some t
  /\ entity_type t = etype
  /\ entity_value t = evalue
  /\ tracker_hostname t = host
  /\ ts <= window_end t.
Proof.
  intros Hw Hget.
  destruct (get_or_create_tracker_row _ _ _ _ _ _ _ _ _ _ Hw Hget)
    as (l1 & l2 & -> & <- & _ & Hover & Hend).
  split; [apply lookup_middle|].
  unfold tracker_overlaps in Hover.
  apply andb_true_iff in Hover as [Hover _].
  apply andb_true_iff in Hover as [Hover Hh].
  apply andb_true_iff in Hover as [Ht Hv].
  apply String.eqb_eq in Ht, Hv, Hh. repeat split; assumption.
Qed.

(** The clean-up of [get_or_create_tracker] deletes every row whose window
    ended more than an hour before the clock, whatever its key; the rows
    it keeps, the one it hands out apart, are rows of the table as they
    were, and at most one row is added. *)
Theorem tracker_lookup_sweeps_table (now : Z) (etype evalue host : string)
    (w : Z) (event_time : option Z) (table table' : list EntityTracker)
    (i : nat) (t : EntityTracker) :
  get_or_create_tracker now etype evalue host w event_time table
  = (i, t, table') ->
  (forall j x, j <> i -> table' !! j = Some x ->
     In x table /\ now - hours 1 <= window_end x)
  /\ (List.length table' <= S (List.length table))%nat.
Proof.
  unfold get_or_create_tracker.
  set (kept := List.filter _ table).
  assert (Hlen : (List.length kept <= List.length table)%nat)
    by apply List.filter_length_le.
  destruct (first_row _ kept) as [[k x]|] eqn:Hfind.
  - apply first_row_Some in Hfind as (l1 & l2 & Hk & Hl1 & _ & _).
    set (out := if window_end x <? default now event_time then _ else _).
    assert (Hout : exists t', out = (k, t', (l1 ++ t' :: l2)%list)).
    { unfold out. destruct (_ <? _).
      - eexists. rewrite Hk, <- Hl1, insert_middle. reflexivity.
      - exists x. now rewrite Hk. }
    destruct Hout as [t' ->]. intros [= <- <- <-]. split.
    + intros j y Hj Hy. rewrite <- Hl1 in Hj.
      apply lookup_other_middle in Hy; [|assumption].
      apply (filter_recent_In now). fold kept. rewrite Hk.
      apply in_app_iff. apply in_app_iff in Hy as [Hy|Hy]; [now left|].
      right. now right.
    + rewrite Hk in Hlen. rewrite !length_app in *. simpl in *. lia.
  - intros [= <- <- <-]. split.
    + intros j y Hj Hy.
      apply (lookup_other_middle kept [] _ _ _ Hj) in Hy.
      rewrite app_nil_r in Hy. now apply (filter_recent_In now).
    + rewrite length_app. simpl. lia.
Qed.


End TrackerTable.

(** ** Alerts and their bookkeeping *)

Section AlertBookkeeping.

Import Detection.

Variable re_search : string -> string -> option bool.

(** What an evaluation that ends in [create_alert] can do to the rule and
    the tables: nothing, or one alert of the rule stored and counted. *)
Abbreviation alert_step now rule e t db r :=
  (r = (None, rule, db)
   \/ exists ttl c x,
        min_confidence rule <= c /\ 50 <= c <= 100
        /\ r = (Some (new_alert now rule e t ttl c x),
                with_total_alerts rule (total_alerts rule + 1),
                with_alerts db (alerts db ++ [new_alert now rule e t ttl c x]))).

Lemma create_alert_step (now : Z) (rule : DetectionRule) (e : SecurityEvent)
    (t : EntityTracker) (ttl : string) (c : Z) (x : option Z) (db : DB) :
  50 <= c <= 100 ->
  alert_step now rule e t db (create_alert now rule e t ttl c x db).
Proof.
  intros Hrange. unfold create_alert.
  destruct (check_cooldown _ _ _ _ _); [now left|].
  destruct (c <? min_confidence rule) eqn:Hc; [now left|].
  right. exists ttl, c, x. apply Z.ltb_ge in Hc. repeat split; assumption || lia.
Qed.

Lemma count_matches_bounds (pats : list (string * pattern))
    (e : SecurityEvent) (m0 m : Z) :
  count_matches re_search pats e m0 = inr m ->
  m0 <= m <= m0 + Z.of_nat (List.length pats).
Proof.
  revert m0. induction pats as [|[field pat] pats IH]; intros m0; simpl.
  - intros [= <-]. lia.
  - destruct (pyval_truthy _).
    + destruct pat as [items|re].
      * destruct (any_contains _ _) as [ex|[]]; [discriminate| |];
          intros H; apply IH in H; lia.
      * destruct (re_search _ _) as [[]|]; [| |discriminate];
          intros H; apply IH in H; lia.
    + intros H. apply IH in H. lia.
Qed.

Lemma threshold_step (now : Z) (rule : DetectionRule) (e : SecurityEvent)
    (t : EntityTracker) (db : DB) :
  alert_step now rule e t db (_evaluate_threshold now rule e t db).
Proof.
  unfold _evaluate_threshold.
  destruct (_ <=? _) eqn:Hthr; [|now left].
  destruct (negb _); [now left|].
  apply create_alert_step. apply Z.leb_le in Hthr.
  unfold threshold_confidence. lia.
Qed.

Lemma sequence_step (now : Z) (rule : DetectionRule) (e : SecurityEvent)
    (t : EntityTracker) (db : DB) :
  alert_step now rule e t db (_evaluate_sequence now rule e t db).
Proof.
  unfold _evaluate_sequence.
  destruct (_ <? _)%nat; [now left|].
  destruct (forallb _ _); [|now left].
  destruct (last _); [|now left].
  destruct (negb _); [now left|].
  apply create_alert_step. lia.
Qed.

Lemma correlation_step (now : Z) (rule : DetectionRule) (e : SecurityEvent)
    (t : EntityTracker) (db : DB) :
  alert_step now rule e t db (_evaluate_correlation now rule e t db).
Proof.
  unfold _evaluate_correlation.
  destruct (forallb _ _); [|now left].
  destruct (forallb _ _); [|now left].
  apply create_alert_step. lia.
Qed.

Lemma pattern_step (now : Z) (rule : DetectionRule) (e : SecurityEvent)
    (t : EntityTracker) (db : DB) :
  (exists ex, _evaluate_pattern re_search now rule e t db = (Raised ex, rule, db))
  \/ exists r, _evaluate_pattern re_search now rule e t db = returned r
               /\ alert_step now rule e t db r.
Proof.
  unfold _evaluate_pattern.
  destruct (count_matches _ _ _ _) as [ex|m] eqn:Hm; [left; now exists ex|].
  right. apply count_matches_bounds in Hm.
  destruct (_ <=? _).
  - eexists. split; [reflexivity|]. apply create_alert_step. lia.
  - exists (None, rule, db). split; [reflexivity|now left].
Qed.

Lemma last_50_suffix (l : list Z) :
  (List.length (last_50 l) <= 50)%nat
  /\ exists older, l = (older ++ last_50 l)%list.
Proof.
  unfold last_50. split.
  - rewrite length_skipn. lia.
  - exists (firstn (List.length l - 50) l). symmetry. apply firstn_skipn.
Qed.

(** One rule on one event: the suppressions are left alone; either no alert
    comes back and the rule and the alerts are as before, or one alert does,
    which is then the row added to the alerts and counted in the rule. *)
Lemma evaluate_rule_step (now : Z) (rule rule' : DetectionRule)
    (e : SecurityEvent) (sys tsys : bool) (db db' : DB) (out : outcome) :
  evaluate_rule re_search now rule e sys tsys db = (out, rule', db') ->
  suppressions db' = suppressions db
  /\ match out with
     | Returned (Some a) =>
         rule' = with_total_alerts rule (total_alerts rule + 1)
         /\ alerts db' = (alerts db ++ [a])%list
         /\ alert_rule a = rule_id rule
         /\ alert_severity a = severity rule
         /\ alert_hostname a = hostname e
         /\ min_confidence rule <= confidence a
         /\ 50 <= confidence a <= 100
         /\ (List.length (matched_events a) <= 50)%nat
     | _ => rule' = rule /\ alerts db' = alerts db
     end.
Proof.
  unfold evaluate_rule.
  destruct (negb _ && negb _); [intros [= <- <- <-]; now split|].
  destruct (skips_system_account _ _ _); [intros [= <- <- <-]; now split|].
  destruct (negb _); [intros [= <- <- <-]; now split|].
  destruct (get_or_create_tracker _ _ _ _ _ _ _) as [[i t] table].
  set (t' := update_tracker rule e t).
  set (db1 := with_trackers db (<[i:=t']> table)).
  assert (Hstep : forall r,
             alert_step now rule e t' db1 r ->
             returned r = (out, rule', db') ->
             suppressions db' = suppressions db
             /\ match out with
                | Returned (Some a) =>
                    rule' = with_total_alerts rule (total_alerts rule + 1)
                    /\ alerts db' = (alerts db ++ [a])%list
                    /\ alert_rule a = rule_id rule
                    /\ alert_severity a = severity rule
                    /\ alert_hostname a = hostname e
                    /\ min_confidence rule <= confidence a
                    /\ 50 <= confidence a <= 100
                    /\ (List.length (matched_events a) <= 50)%nat
                | _ => rule' = rule /\ alerts db' = alerts db
                end).
  { intros r [->|(ttl & c & x & Hc & Hrange & ->)]; simpl; intros [= <- <- <-].
    - now split.
    - simpl. repeat split; try assumption; try lia.
      apply last_50_suffix. }
  destruct (String.eqb (rule_type rule) "THRESHOLD");
    [apply Hstep, threshold_step|].
  destruct (String.eqb (rule_type rule) "SEQUENCE");
    [apply Hstep, sequence_step|].
  destruct (String.eqb (rule_type rule) "PATTERN").
  { destruct (pattern_step now rule e t' db1) as [[ex ->]|(r & -> & Hr)].
    - intros [= <- <- <-]. now split.
    - now apply Hstep. }
  destruct (String.eqb (rule_type rule) "CORRELATION");
    [apply Hstep, correlation_step|].
  intros [= <- <- <-]. now split.
Qed.

Lemma evaluate_rules_books_alerts (now : Z) (rules rules' : list DetectionRule)
    (e : SecurityEvent) (sys tsys : bool) (db db' : DB)
    (found : list DetectionAlert) :
  evaluate_rules re_search now rules e sys tsys db = (found, rules', db') ->
  alerts db' = (alerts db ++ found)%list
  /\ suppressions db' = suppressions db
  /\ Forall2 (fun r r' =>
                r' = r \/ r' = with_total_alerts r (total_alerts r + 1))
       rules rules'
  /\ foldr Z.add 0 (map total_alerts rules')
     = foldr Z.add 0 (map total_alerts rules) + Z.of_nat (List.length found).
Proof.
  revert rules' db db' found.
  induction rules as [|rule rest IH]; intros rules' db db' found; simpl.
  - intros [= <- <- <-]. rewrite app_nil_r. repeat split. constructor.
  - destruct (evaluate_rule _ _ _ _ _ _ _) as [[out rule1] db1] eqn:Hrule.
    destruct (evaluate_rules _ _ _ _ _ _ _) as [[more rest1] db2] eqn:Hrest.
    intros [= <- <- <-].
    apply evaluate_rule_step in Hrule as [Hs1 Hout].
    apply IH in Hrest as (Ha & Hs & Hall & Hsum).
    rewrite Ha, Hs, Hs1. simpl. rewrite Hsum.
    destruct out as [[a|]|ex].
    + destruct Hout as (-> & Ha1 & _). rewrite Ha1, <- app_assoc. simpl.
      repeat split; [constructor; [now right|assumption]|lia].
    + destruct Hout as [-> Ha1]. rewrite Ha1.
      repeat split; [constructor; [now left|assumption]|lia].
    + destruct Hout as [-> Ha1]. rewrite Ha1.
      repeat split; [constructor; [now left|assumption]|lia].
Qed.

Lemma process_event_alerts (now : Z) (rules rules' : list DetectionRule)
    (e : SecurityEvent) (db db' : DB) (found : list DetectionAlert) :
  process_event re_search now rules e db = (found, rules', db') ->
  alerts db' = (alerts db ++ found)%list.
Proof.
  unfold process_event. destruct (in_ids _ _).
  - intros [= <- <- <-]. now rewrite app_nil_r.
  - intros H. now apply evaluate_rules_books_alerts in H.
Qed.

(** [process_event] stores exactly the alerts it returns, after the alerts
    already there and in the order of the rules; it leaves the suppression
    rules alone, and in the rule cache it changes nothing but
    [total_alerts], by one for each rule that raised an alert: the counters
    grow by as much as alerts were returned. *)
Theorem process_event_books_alerts (now : Z) (rules rules' : list DetectionRule)
    (e : SecurityEvent) (db db' : DB) (found : list DetectionAlert) :
  process_event re_search now rules e db = (found, rules', db') ->
  alerts db' = (alerts db ++ found)%list
  /\ suppressions db' = suppressions db
  /\ Forall2 (fun r r' =>
                r' = r \/ r' = with_total_alerts r (total_alerts r + 1))
       rules rules'
  /\ foldr Z.add 0 (map total_alerts rules')
     = foldr Z.add 0 (map total_alerts rules) + Z.of_nat (List.length found).
Proof.
  unfold process_event. destruct (in_ids _ _).
  - intros [= <- <- <-]. rewrite app_nil_r. repeat split; [|simpl; lia].
    clear. induction rules; constructor; [now left|assumption].
  - apply evaluate_rules_books_alerts.
Qed.

Lemma evaluate_rules_alert_gates (now : Z) (rules rules' : list DetectionRule)
    (e : SecurityEvent) (sys tsys : bool) (db db' : DB)
    (found : list DetectionAlert) :
  evaluate_rules re_search now rules e sys tsys db = (found, rules', db') ->
  Forall (fun a =>
            exists rule,
              In rule rules
              /\ alert_rule a = rule_id rule
              /\ alert_severity a = severity rule
              /\ alert_hostname a = hostname e
              /\ min_confidence rule <= confidence a
              /\ 50 <= confidence a <= 100
              /\ (List.length (matched_events a) <= 50)%nat) found
  /\ (List.length found <= List.length rules)%nat.
Proof.
  revert rules' db db' found.
  induction rules as [|rule rest IH]; intros rules' db db' found; simpl.
  - intros [= <- <- <-]. split; [constructor|simpl; lia].
  - destruct (evaluate_rule _ _ _ _ _ _ _) as [[out rule1] db1] eqn:Hrule.
    destruct (evaluate_rules _ _ _ _ _ _ _) as [[more rest1] db2] eqn:Hrest.
    intros [= <- <- <-].
    apply evaluate_rule_step in Hrule as [_ Hout].
    apply IH in Hrest as [Hall Hlen].
    assert (Hmore : Forall (fun a =>
              exists rule0,
                (rule = rule0 \/ In rule0 rest)
                /\ alert_rule a = rule_id rule0
                /\ alert_severity a = severity rule0
                /\ alert_hostname a = hostname e
                /\ min_confidence rule0 <= confidence a
                /\ 50 <= confidence a <= 100
                /\ (List.length (matched_events a) <= 50)%nat) more).
    { eapply Forall_impl; [exact Hall|].
      intros a (r & Hin & Hrest). exists r. split; [now right|exact Hrest]. }
    destruct out as [[a|]|ex]; simpl; (split; [|lia]); try assumption.
    constructor; [|assumption].
    destruct Hout as (_ & _ & Hprops). exists rule. split; [now left|exact Hprops].
Qed.

(** Every alert [process_event] returns belongs to a rule of the cache: it
    carries that rule's id and severity and the event's host, has a
    confidence between 50 and 100 that is not below the rule's
    [min_confidence], and lists at most 50 matched events; and no more
    alerts come back than there are rules. *)
Theorem alerts_respect_rule_gates (now : Z) (rules rules' : list DetectionRule)
    (e : SecurityEvent) (db db' : DB) (found : list DetectionAlert) :
  process_event re_search now rules e db = (found, rules', db') ->
  Forall (fun a =>
            exists rule,
              In rule rules
              /\ alert_rule a = rule_id rule
              /\ alert_severity a = severity rule
              /\ alert_hostname a = hostname e
              /\ min_confidence rule <= confidence a
              /\ 50 <= confidence a <= 100
              /\ (List.length (matched_events a) <= 50)%nat) found
  /\ (List.length found <= List.length rules)%nat.
Proof.
  unfold process_event. destruct (in_ids _ _).
  - intros [= <- <- <-]. split; [constructor|simpl; lia].
  - apply evaluate_rules_alert_gates.
Qed.

(** The detection loop of the ingestion view: the alerts table grows by
    the alerts of the events, in the order of the events, and the count the
    view reports, the sum of the lengths, is the number of rows added. *)
Theorem batch_alert_count_is_table_growth (rules rules' : list DetectionRule)
    (batch : list (Z * SecurityEvent)) (db db' : DB)
    (found : list (list DetectionAlert)) :
  process_events re_search rules batch db = (found, rules', db') ->
  alerts db' = (alerts db ++ List.concat found)%list
  /\ List.length found = List.length batch
  /\ foldr Z.add 0 (map (fun l => Z.of_nat (List.length l)) found)
     = Z.of_nat (List.length (alerts db')) - Z.of_nat (List.length (alerts db)).
Proof.
  revert rules rules' db db' found.
  induction batch as [|[now e] rest IH]; intros rules rules' db db' found; simpl.
  - intros [= <- <- <-]. simpl. rewrite app_nil_r. repeat split. lia.
  - destruct (process_event _ _ _ _ _) as [[f1 rules1] db1] eqn:Hone.
    destruct (process_events _ _ _ _) as [[more rules2] db2] eqn:Hrest.
    intros [= <- <- <-].
    apply process_event_alerts in Hone as Ha1.
    apply IH in Hrest as (Ha2 & Hlen & Hsum).
    simpl. rewrite Hsum, Ha2, Ha1, Hlen, <- app_assoc.
    repeat split. rewrite !length_app. lia.
Qed.

End AlertBookkeeping.

(** ** The evaluation of a rule *)

Section RuleEvaluation.

Import Detection.

Variable re_search : string -> string -> option bool.

(** An event whose id is on no rule's [event_ids] list, every rule having
    one that is not empty, raises no alert and changes neither the rule
    cache nor any table: no tracker is created for it. *)
Theorem unlisted_event_ids_leave_state (now : Z) (rules : list DetectionRule)
    (e : SecurityEvent) (db : DB) :
  Forall (fun rule =>
            exists ids,
              event_ids (logic rule) = Some ids
              /\ ids <> [] /\ ~ In (event_id e) ids) rules ->
  process_event re_search now rules e db = ([], rules, db).
Proof.
  intros Hall. unfold process_event.
  destruct (in_ids _ _); [reflexivity|].
  apply evaluate_rules_all_skipped.
  eapply Forall_impl; [exact Hall|].
  intros rule (ids & Hids & Hne & Hnot). unfold evaluate_rule.
  rewrite Hids. simpl default.
  destruct (in_ids (event_id e) ids) eqn:Hin.
  - apply in_ids_In in Hin. contradiction.
  - rewrite bool_decide_eq_false_2 by assumption. reflexivity.
Qed.

Lemma get_or_create_tracker_stored (now : Z) (etype evalue host : string)
    (w : Z) (event_time : option Z) (table table' : list EntityTracker)
    (i : nat) (t : EntityTracker) :
  get_or_create_tracker now etype evalue host w event_time table
  = (i, t, table') ->
  (i < List.length table')%nat
  /\ entity_type t = etype
  /\ entity_value t = evalue
  /\ tracker_hostname t = host.
Proof.
  unfold get_or_create_tracker.
  set (kept := List.filter _ table).
  destruct (first_row _ kept) as [[k x]|] eqn:Hfind.
  - apply first_row_Some in Hfind as (l1 & l2 & Hk & Hl1 & _ & Hx).
    unfold tracker_overlaps in Hx.
    apply andb_true_iff in Hx as [Hx _].
    apply andb_true_iff in Hx as [Hx Hh].
    apply andb_true_iff in Hx as [Ht Hv].
    apply String.eqb_eq in Ht, Hv, Hh.
    assert (Hlt : (k < List.length kept)%nat).
    { rewrite Hk, length_app, <- Hl1. simpl. lia. }
    destruct (_ <? _); intros [= <- <- <-]; simpl;
      rewrite ?length_insert; repeat split; assumption.
  - intros [= <- <- <-]. rewrite length_app. simpl.
    repeat split. lia.
Qed.

(** A rule that keeps the defaults, tracking by [user_name] and excluding
    system accounts, either passes the event by, changing nothing, or
    writes a [USER_NAME] tracker keyed by the event's own user name, which
    is then not a system account, on the event's host: the target user
    never stands in for the acting user. *)
Theorem default_rules_track_the_acting_user (now : Z)
    (rule rule' : DetectionRule) (e : SecurityEvent) (db db' : DB)
    (out : outcome) :
  default true (exclude_system_accounts (logic rule)) = true ->
  default "user_name" (track_by (logic rule)) = "user_name" ->
  evaluate_rule re_search now rule e
    (is_system_account (user_name e))
    (is_system_account (target_user_name e)) db = (out, rule', db') ->
  (out = Returned None /\ rule' = rule /\ db' = db)
  \/ exists v i t,
       user_name e = Some v
       /\ is_system_account (Some v) = false
       /\ trackers db' !! i = Some t
       /\ entity_type t = "USER_NAME"
       /\ entity_value t = v
       /\ tracker_hostname t = hostname e.
Proof.
  intros Hex Htb Heval.
  destruct (tracked_entity rule e (is_system_account (user_name e))
              (is_system_account (target_user_name e))) as [v|] eqn:Htracked.
  - right.
    assert (Huser : user_name e = Some v /\ is_system_account (Some v) = false).
    { revert Htracked. unfold tracked_entity, skips_system_account.
      rewrite Hex, Htb. simpl String.eqb.
      destruct (negb _ && negb _); [discriminate|].
      destruct (is_system_account (user_name e)) eqn:Hsys.
      - destruct (is_system_account (target_user_name e)); discriminate.
      - rewrite andb_false_r. simpl.
        unfold _get_entity_value. simpl String.eqb. cbv iota.
        assert (Htr : PyStr.truthy (user_name e) = true).
        { destruct (PyStr.truthy (user_name e)) eqn:Htr; [reflexivity|].
          rewrite (falsy_is_system_account _ Htr) in Hsys. discriminate. }
        unfold PyStr.or_else. rewrite Htr, Htr.
        intros Hv. rewrite Hv in Hsys. split; assumption. }
    destruct Huser as [Huser Hsys].
    destruct (get_or_create_tracker now
                (PyStr.upper (default "user_name" (track_by (logic rule)))) v
                (hostname e) (default 10 (window_minutes (logic rule)))
                (Some (timestamp e)) (trackers db))
      as [[i t] table] eqn:Hget.
    destruct (evaluate_rule_tracked re_search now rule e _ _ db v i t table
                Htracked Hget) as [Htrackers _].
    rewrite Heval in Htrackers. simpl in Htrackers.
    apply get_or_create_tracker_stored in Hget as (Hi & Htype & Hvalue & Hhost).
    rewrite Htb in Htype.
    destruct (record_unique_frame e (default [] (track_unique (logic rule)))
                (with_last_event_time
                   (increment_event t (event_id e) (pk e)) (timestamp e)))
      as (Hf1 & Hf2 & Hf3 & _ & _ & _).
    exists v, i, (update_tracker rule e t).
    split; [assumption|]. split; [assumption|].
    split; [rewrite Htrackers; now apply list_lookup_insert_eq|].
    unfold update_tracker. rewrite Hf1, Hf2, Hf3. simpl.
    repeat split; assumption.
  - left. rewrite (evaluate_rule_untracked re_search now rule e _ _ db Htracked)
      in Heval.
    now injection Heval as <- <- <-.
Qed.

(** A PATTERN evaluation counts the patterns the event matches, at most
    one per pattern.  An alert comes out only when the count reaches
    [required_matches], by default the number of patterns; it is titled by
    the event's host, records the count in its evidence, and has
    confidence [min(100, 70 + 10 * count)].  When a pattern cannot be
    applied the evaluation raises and changes nothing.  A rule without
    patterns and without [required_matches] offers an alert of confidence
    70 at every evaluation. *)
Theorem pattern_rule_alerts (now : Z) (rule : DetectionRule)
    (e : SecurityEvent) (t : EntityTracker) (db : DB) :
  let pats := default [] (patterns (logic rule)) in
  let required :=
    default (Z.of_nat (List.length pats)) (required_matches (logic rule)) in
  (forall a rule' db',
      _evaluate_pattern re_search now rule e t db
      = (Returned (Some a), rule', db') ->
      exists m,
        count_matches re_search pats e 0 = inr m
        /\ required <= m <= Z.of_nat (List.length pats)
        /\ confidence a = Z.min 100 (70 + m * 10)
        /\ matched_patterns (evidence a) = Some m
        /\ title a = rule_title rule (hostname e)
        /\ min_confidence rule <= confidence a)
  /\ (forall ex rule' db',
        _evaluate_pattern re_search now rule e t db = (Raised ex, rule', db') ->
        count_matches re_search pats e 0 = inl ex /\ rule' = rule /\ db' = db)
  /\ (forall m,
        count_matches re_search pats e 0 = inr m -> m < required ->
        _evaluate_pattern re_search now rule e t db = (Returned None, rule, db))
  /\ (patterns (logic rule) = None -> required_matches (logic rule) = None ->
      _evaluate_pattern re_search now rule e t db
      = returned (create_alert now rule e t (rule_title rule (hostname e))
                    70 (Some 0) db)).
Proof.
  intros pats required. unfold _evaluate_pattern. fold pats. fold required.
  split; [|split; [|split]].
  - intros a rule' db'.
    destruct (count_matches re_search pats e 0) as [ex|m] eqn:Hm;
      [discriminate|].
    pose proof (count_matches_bounds re_search _ _ _ _ Hm) as Hrange.
    destruct (required <=? m) eqn:Hreq; [|discriminate].
    apply Z.leb_le in Hreq.
    destruct (create_alert _ _ _ _ _ _ _ _) as [[oa r1] d1] eqn:Hca.
    simpl. intros [= -> <- <-].
    apply create_alert_some in Hca as (_ & Hc & -> & _ & _).
    exists m. simpl. repeat split; try reflexivity; try assumption; lia.
  - intros ex rule' db'.
    destruct (count_matches re_search pats e 0) as [ex'|m] eqn:Hm.
    + intros [= <- <- <-]. repeat split.
    + destruct (required <=? m); [|discriminate].
      destruct (create_alert _ _ _ _ _ _ _ _) as [[oa r1] d1]. discriminate.
  - intros m Hm Hlt. rewrite Hm.
    apply Z.leb_gt in Hlt. now rewrite Hlt.
  - intros Hp Hr. subst pats required. rewrite Hp, Hr. reflexivity.
Qed.

(** A CORRELATION evaluation creates an alert exactly when every required
    event id has an entry in the tracker's counts, every [min_counts]
    entry is reached, the rule is not in cooldown for the entity and its
    [min_confidence] is at most 90; the alert has confidence 90 and is the
    one row added to the alerts. *)
Theorem correlation_rule_alerts (now : Z) (rule : DetectionRule)
    (e : SecurityEvent) (t : EntityTracker) (db : DB)
    (a : DetectionAlert) (rule' : DetectionRule) (db' : DB) :
  _evaluate_correlation now rule e t db = (Some a, rule', db') <->
  Forall (fun eid => is_Some (event_counts t !! eid))
    (default [] (required_events (logic rule)))
  /\ Forall (fun p => p.2 <= get_event_count t p.1)
       (default [] (min_counts (logic rule)))
  /\ check_cooldown now rule (entity_value t) (entity_type t) db = false
  /\ min_confidence rule <= 90
  /\ a = new_alert now rule e t (rule_title rule (entity_value t)) 90 None
  /\ rule' = with_total_alerts rule (total_alerts rule + 1)
  /\ db' = with_alerts db (alerts db ++ [a]).
Proof.
  unfold _evaluate_correlation.
  destruct (forallb _ (default [] (required_events (logic rule)))) eqn:Hreq.
  - destruct (forallb _ (default [] (min_counts (logic rule)))) eqn:Hmin.
    + rewrite create_alert_some.
      rewrite forallb_forall in Hreq. rewrite forallb_forall in Hmin.
      split.
      * intros (Hcd & Hc & Ha & Hr & Hd).
        repeat split; try assumption.
        -- apply List.Forall_forall. intros eid Hin.
           specialize (Hreq eid Hin). now apply bool_decide_eq_true in Hreq.
        -- apply List.Forall_forall. intros [eid m] Hin.
           specialize (Hmin _ Hin). simpl in *.
           now apply negb_true_iff, Z.ltb_ge in Hmin.
      * intros (_ & _ & Hcd & Hc & Ha & Hr & Hd). repeat split; assumption.
    + split; [discriminate|].
      intros (_ & Hall & _). exfalso.
      apply not_true_iff_false in Hmin. apply Hmin.
      apply forallb_forall. intros [eid m] Hin.
      rewrite List.Forall_forall in Hall. specialize (Hall _ Hin). simpl in Hall.
      now apply negb_true_iff, Z.ltb_ge.
  - split; [discriminate|].
    intros (Hall & _). exfalso.
    apply not_true_iff_false in Hreq. apply Hreq.
    apply forallb_forall. intros eid Hin.
    rewrite List.Forall_forall in Hall. specialize (Hall _ Hin).
    now apply bool_decide_eq_true.
Qed.

End RuleEvaluation.

(** ** Rules that meet in one tracker *)

Section SharedTrackers.

Import Detection Scenario.

Variable re_search : string -> string -> option bool.

Lemma filter_all_kept (keep : EntityTracker -> bool) (l : list EntityTracker) :
  Forall (fun t => keep t = true) l -> List.filter keep l = l.
Proof.
  induction 1 as [|t l Ht _ IH]; simpl; [reflexivity|]. now rewrite Ht, IH.
Qed.

Lemma filter_kept (keep : EntityTracker -> bool) (l : list EntityTracker) :
  Forall (fun t => keep t = true) (List.filter keep l).
Proof.
  induction l as [|t l IH]; simpl; [constructor|].
  destruct (keep t) eqn:Ht; [now constructor|assumption].
Qed.

(** The table [get_or_create_tracker] leaves: the row handed out, between
    rows that the clean-up kept. *)
Lemma get_or_create_tracker_split (now : Z) (etype evalue host : string)
    (w ts : Z) (table table' : list EntityTracker) (i : nat)
    (t : EntityTracker) :
  0 <= w ->
  get_or_create_tracker now etype evalue host w (Some ts) table
  = (i, t, table') ->
  exists l1 l2,
    table' = (l1 ++ t :: l2)%list /\ List.length l1 = i
    /\ Forall (fun y => negb (window_end y <? now - hours 1) = true) l1
    /\ Forall (fun y => negb (window_end y <? now - hours 1) = true) l2
    /\ Forall (fun y =>
                 tracker_overlaps etype evalue host (ts - minutes w) y = false)
         l1
    /\ tracker_overlaps etype evalue host (ts - minutes w) t = true
    /\ ts <= window_end t.
Proof.
  intros Hw. unfold get_or_create_tracker. simpl default.
  set (keep := fun t : EntityTracker => negb (window_end t <? now - hours 1)).
  set (over := tracker_overlaps etype evalue host (ts - minutes w)).
  pose proof (filter_kept keep table) as Hk.
  set (kept := List.filter keep table) in *.
  destruct (first_row over kept) as [[k x]|] eqn:Hfind.
  - apply first_row_Some in Hfind as (l1 & l2 & Hkk & Hl1 & Hbefore & Hx).
    rewrite Hkk in Hk. apply Forall_app in Hk as [Hk1 Hk2].
    apply Forall_cons in Hk2 as [_ Hk2].
    destruct (window_end x <? ts) eqn:Hext; intros [= <- <- <-];
      exists l1, l2.
    + rewrite Hkk, <- Hl1, insert_middle.
      repeat split; try assumption.
      * unfold over, tracker_overlaps in *. simpl.
        apply andb_true_iff in Hx as [Hx _]. rewrite Hx. simpl.
        apply Z.leb_le. unfold minutes. lia.
      * simpl. unfold minutes. lia.
    + rewrite Hkk. repeat split; try assumption. now apply Z.ltb_ge.
  - apply first_row_None in Hfind. intros [= <- <- <-].
    exists kept, [].
    split; [reflexivity|]. split; [reflexivity|]. split; [assumption|].
    split; [constructor|]. split; [assumption|]. split.
    + unfold over, tracker_overlaps. simpl. rewrite !String.eqb_refl. simpl.
      apply Z.leb_le. unfold minutes. lia.
    + simpl. unfold minutes. lia.
Qed.

Lemma tracker_overlaps_later (etype evalue host : string) (ws ws' : Z)
    (y : EntityTracker) :
  ws <= ws' ->
  tracker_overlaps etype evalue host ws y = false ->
  tracker_overlaps etype evalue host ws' y = false.
Proof.
  intros Hle. unfold tracker_overlaps.
  destruct (String.eqb (entity_type y) etype
            && String.eqb (entity_value y) evalue
            && String.eqb (tracker_hostname y) host); [|reflexivity].
  simpl. intros H. apply Z.leb_gt in H. apply Z.leb_gt. lia.
Qed.

(** Trackers are keyed by entity and host, not by rule.  When two rules of
    the cache track an event under the same key, the window of the second
    no longer than that of the first, the second finds the tracker the
    first has just written, if that one is not behind the retention
    horizon, and writes it again: no second row is made, and the shared
    row holds the update of the second rule on top of that of the first. *)
Theorem rules_share_trackers (now : Z) (r1 r2 : DetectionRule)
    (e : SecurityEvent) (db : DB) (v : string) (i : nat)
    (t0 : EntityTracker) (table : list EntityTracker) :
  let sys := is_system_account (user_name e) in
  let tsys := is_system_account (target_user_name e) in
  let tb := default "user_name" (track_by (logic r1)) in
  let w1 := default 10 (window_minutes (logic r1)) in
  let w2 := default 10 (window_minutes (logic r2)) in
  let after := (process_event re_search now [r1; r2] e db).2 in
  in_ids (event_id e) NOISE_EVENT_IDS = false ->
  default "user_name" (track_by (logic r2)) = tb ->
  0 <= w2 <= w1 ->
  tracked_entity r1 e sys tsys = Some v ->
  tracked_entity r2 e sys tsys = Some v ->
  get_or_create_tracker now (PyStr.upper tb) v (hostname e) w1
    (Some (timestamp e)) (trackers db) = (i, t0, table) ->
  now - hours 1 <= window_end t0 ->
  exists t2,
    List.length (trackers after) = List.length table
    /\ trackers after !! i = Some t2
    /\ t2 = update_tracker r2 e (update_tracker r1 e t0).
Proof.
  intros sys tsys tb w1 w2 after Hnoise Htb Hw Htr1 Htr2 Hget Hkept.
  assert (Hw1 : 0 <= w1) by lia.
  destruct (get_or_create_tracker_split _ _ _ _ _ _ _ _ _ _ Hw1 Hget)
    as (l1 & l2 & Htable & Hlen & Hk1 & Hk2 & Hbefore & Hover & Hend).
  set (pass1 := evaluate_rule re_search now r1 e sys tsys db).
  set (pass2 := evaluate_rule re_search now r2 e sys tsys pass1.2).
  assert (Hafter : after = pass2.2).
  { unfold after, process_event. rewrite Hnoise. cbn [evaluate_rules].
    fold sys tsys. fold pass1. unfold pass2.
    destruct pass1 as [[o1 r1'] db1]. cbn [snd].
    destruct (evaluate_rule re_search now r2 e sys tsys db1) as [[o2 r2'] db2].
    reflexivity. }
  destruct (evaluate_rule_tracked re_search now r1 e sys tsys db v i t0 table
              Htr1 Hget) as [Htrk1 _].
  fold pass1 in Htrk1.
  set (t1 := update_tracker r1 e t0) in *.
  assert (Htrk1' : trackers pass1.2 = (l1 ++ t1 :: l2)%list).
  { rewrite Htrk1, Htable, <- Hlen. apply insert_middle. }
  set (keep := fun t : EntityTracker => negb (window_end t <? now - hours 1)).
  assert (Hget2 :
    get_or_create_tracker now
      (PyStr.upper (default "user_name" (track_by (logic r2)))) v
      (hostname e) w2 (Some (timestamp e)) (trackers pass1.2)
    = (i, t1, (l1 ++ t1 :: l2)%list)).
  { rewrite Htb, Htrk1'. unfold get_or_create_tracker.
    simpl default. fold keep. rewrite List.filter_app. simpl List.filter.
    assert (Hkt : keep t1 = true).
    { unfold keep, t1. rewrite update_tracker_window_end.
      apply negb_true_iff, Z.ltb_ge. exact Hkept. }
    rewrite Hkt, (filter_all_kept keep l1 Hk1), (filter_all_kept keep l2 Hk2).
    rewrite first_row_middle.
    - rewrite Hlen. unfold t1 at 1. rewrite update_tracker_window_end.
      replace (window_end t0 <? timestamp e) with false; [reflexivity|].
      symmetry. now apply Z.ltb_ge.
    - eapply Forall_impl; [exact Hbefore|]. intros y Hy.
      apply (tracker_overlaps_later _ _ _ (timestamp e - minutes w1));
        [unfold minutes; lia|exact Hy].
    - unfold t1. rewrite update_tracker_overlaps.
      unfold tracker_overlaps in *.
      apply andb_true_iff in Hover as [Hkey _]. rewrite Hkey. simpl.
      apply Z.leb_le. unfold minutes. lia. }
  destruct (evaluate_rule_tracked re_search now r2 e sys tsys pass1.2 v i t1 _
              Htr2 Hget2) as [Htrk2 _].
  fold pass2 in Htrk2.
  exists (update_tracker r2 e t1).
  rewrite Hafter, Htrk2, <- Hlen, insert_middle.
  split; [rewrite Htable, !length_app; reflexivity|].
  split; [apply lookup_middle|reflexivity].
Qed.

(** The built-in "Pass-the-Hash Detection" rule never raises an alert.  Its
    first pattern is the list [[9]], and [p.lower()] on the number raises
    [AttributeError] as soon as the event has a logon type; the exception
    is swallowed by [process_event].  Without a logon type at most one of
    the two required patterns can match. *)
Theorem pass_the_hash_never_alerts (now : Z) (e : SecurityEvent) (db : DB) :
  (forall t db0,
      _evaluate_pattern re_search now pass_the_hash e t db0
      = (if pyval_truthy (getattr e "logon_type")
         then (Raised AttributeError, pass_the_hash, db0)
         else (Returned None, pass_the_hash, db0)))
  /\ (process_event re_search now [pass_the_hash] e db).1.1 = []
  /\ alerts (process_event re_search now [pass_the_hash] e db).2 = alerts db.
Proof.
  assert (Hp : forall t db0,
             _evaluate_pattern re_search now pass_the_hash e t db0
             = (if pyval_truthy (getattr e "logon_type")
                then (Raised AttributeError, pass_the_hash, db0)
                else (Returned None, pass_the_hash, db0))).
  { intros t db0. unfold _evaluate_pattern.
    cbn [logic pass_the_hash patterns required_matches default].
    unfold id. cbn [count_matches any_contains].
    destruct (pyval_truthy (getattr e "logon_type")); [reflexivity|].
    destruct (pyval_truthy (getattr e "authentication_package"));
      [|reflexivity].
    destruct (PyStr.contains _ _); reflexivity. }
  split; [exact Hp|].
  unfold process_event. destruct (in_ids _ _); [now split|].
  cbn [evaluate_rules].
  destruct (evaluate_rule re_search now pass_the_hash e _ _ db)
    as [[out rule'] db'] eqn:Heval.
  assert (Hout : out <> Returned None -> exists ex, out = Raised ex).
  { revert Heval. unfold evaluate_rule.
    destruct (negb _ && negb _); [intros [= <- _ _]; congruence|].
    destruct (skips_system_account _ _ _); [intros [= <- _ _]; congruence|].
    destruct (negb _); [intros [= <- _ _]; congruence|].
    destruct (get_or_create_tracker _ _ _ _ _ _ _) as [[i t] table].
    cbn [rule_type pass_the_hash String.eqb Ascii.eqb Bool.eqb].
    rewrite Hp. destruct (pyval_truthy _); intros [= <- _ _]; eauto.
    congruence. }
  pose proof (evaluate_rule_step re_search _ _ _ _ _ _ _ _ _ Heval)
    as [_ Halerts].
  destruct out as [[a|]|ex].
  - destruct Hout as [ex Hex]; [discriminate|discriminate].
  - now split.
  - now split.
Qed.

End SharedTrackers.

(** ** Ingestion severity and alert evidence *)

Section Severity.

Import Detection Ingest.

(** The severity an ingested event gets is CRITICAL, HIGH, MEDIUM or INFO,
    never LOW.  The lists are tried in that order, so an id on the
    critical list is CRITICAL also when, like 4688, it stands on the
    medium list too; the level is looked at last, and from level 3 on an
    event is never INFO. *)
Theorem ingest_severity_ranges (event_id level : option Z) :
  List.In (_determine_severity event_id level)
    ["CRITICAL"; "HIGH"; "MEDIUM"; "INFO"]
  /\ (List.In (default 0 event_id) critical_events ->
      _determine_severity event_id level = "CRITICAL")
  /\ (3 <= default 0 level -> _determine_severity event_id level <> "INFO")
  /\ (_determine_severity event_id level = "INFO" <->
      ~ List.In (default 0 event_id)
          (critical_events ++ high_events ++ medium_events)
      /\ default 0 level < 3).
Proof.
  unfold _determine_severity.
  set (id := default 0 event_id). set (lv := default 0 level).
  assert (Hsplit : List.In id (critical_events ++ high_events ++ medium_events)
                   <-> List.In id critical_events \/ List.In id high_events
                       \/ List.In id medium_events).
  { rewrite !in_app_iff. tauto. }
  rewrite Hsplit. clear Hsplit.
  pose proof (in_ids_In id critical_events) as Hc.
  pose proof (in_ids_In id high_events) as Hh.
  pose proof (in_ids_In id medium_events) as Hm.
  destruct (in_ids id critical_events).
  { split; [simpl; tauto|]. split; [reflexivity|].
    split; [discriminate|]. split; [discriminate|]. tauto. }
  assert (Hc' : ~ List.In id critical_events)
    by (intros H; apply Hc in H; discriminate).
  destruct (in_ids id high_events).
  { split; [simpl; tauto|]. split; [tauto|].
    split; [discriminate|]. split; [discriminate|]. tauto. }
  assert (Hh' : ~ List.In id high_events)
    by (intros H; apply Hh in H; discriminate).
  destruct (in_ids id medium_events).
  { split; [simpl; tauto|]. split; [tauto|].
    split; [discriminate|]. split; [discriminate|]. tauto. }
  assert (Hm' : ~ List.In id medium_events)
    by (intros H; apply Hm in H; discriminate).
  destruct (3 <=? lv) eqn:Hl.
  - apply Z.leb_le in Hl. split; [simpl; tauto|]. split; [tauto|].
    split; [discriminate|]. split; [discriminate|]. lia.
  - apply Z.leb_gt in Hl. split; [simpl; tauto|]. split; [tauto|].
    split; [lia|]. split; [|reflexivity]. tauto.
Qed.

End Severity.

Section AlertEvidence.

Import Detection.

(** The [window_minutes] an alert records in its evidence is the seconds
    component of the tracker's window, in whole minutes: it lies between 0
    and 1439, it is the length of the window when that is at least zero
    and under a day, and a whole number of days in the window is lost. *)
Theorem evidence_window_wraps_at_a_day (now : Z) (rule rule' : DetectionRule)
    (e : SecurityEvent) (t : EntityTracker) (ttl : string) (c : Z)
    (x : option Z) (db db' : DB) (a : DetectionAlert) :
  create_alert now rule e t ttl c x db = (Some a, rule', db') ->
  let span := window_end t - window_start t in
  0 <= ev_window_minutes (evidence a) < 1440
  /\ (0 <= span < days 1 ->
      ev_window_minutes (evidence a) = span / minutes 1)
  /\ (forall n, span = days n ->  ev_window_minutes (evidence a) = 0).
Proof.
  intros Hca span. apply create_alert_some in Hca as (_ & _ & -> & _ & _).
  cbn [evidence new_alert ev_window_minutes]. fold span.
  unfold days, minutes. split; [|split].
  - pose proof (Z.mod_pos_bound (span / 1000000) 86400 ltac:(lia)).
    split; [apply Z.div_pos; lia|].
    apply Z.div_lt_upper_bound; lia.
  - intros Hspan.
    rewrite Z.mod_small.
    + rewrite Z.div_div by lia. reflexivity.
    + split; [apply Z.div_pos; lia|].
      apply Z.div_lt_upper_bound; lia.
  - intros n ->.
    replace (n * 86400000000) with (n * 86400 * 1000000) by lia.
    rewrite Z.div_mul by lia. rewrite Z.mod_mul by lia. reflexivity.
Qed.

End AlertEvidence.

(** ** Runs of the engine *)

Section EngineRuns.

Import Detection Scenario.

(** Witness of [system_account_check_normalises]. *)
Lemma system_account_check_normalises_witness :
  PyStr.lower "NT Authority\System" = PyStr.lower "nt authority\SYSTEM"
  /\ is_system_account (Some (" " ++ "NT Authority\System" ++ "  "))
     = is_system_account (Some "nt authority\SYSTEM").
Proof.
  split; [reflexivity|].
  apply (system_account_check_normalises "NT Authority\System"
           "nt authority\SYSTEM" " " "  "); reflexivity.
Defined.

(** Witness of [tracker_lookup_covers_event]: the fifth lockout on [dc01]
    finds the tracker of the first four behind a stale row. *)
Lemma tracker_lookup_covers_event_witness :
  let found :=
    get_or_create_tracker (t0 + minutes 5) "HOSTNAME" "dc01" "dc01" 10
      (Some (t0 + minutes 5)) [stale_ws07; counted_lockouts 4] in
  found = (0%nat, counted_lockouts 4, [counted_lockouts 4])
  /\ [counted_lockouts 4] !! 0%nat = Some (counted_lockouts 4)
  /\ entity_type (counted_lockouts 4) = "HOSTNAME"
  /\ entity_value (counted_lockouts 4) = "dc01"
  /\ tracker_hostname (counted_lockouts 4) = "dc01"
  /\ t0 + minutes 5 <= window_end (counted_lockouts 4).
Proof.
  assert (Hget : get_or_create_tracker (t0 + minutes 5) "HOSTNAME" "dc01" "dc01"
                   10 (Some (t0 + minutes 5)) [stale_ws07; counted_lockouts 4]
                 = (0%nat, counted_lockouts 4, [counted_lockouts 4]))
    by (vm_compute; reflexivity).
  split; [exact Hget|].
  apply (tracker_lookup_covers_event (t0 + minutes 5) "HOSTNAME" "dc01" "dc01"
           10 (t0 + minutes 5) [stale_ws07; counted_lockouts 4]
           [counted_lockouts 4] 0%nat (counted_lockouts 4));
    [lia|exact Hget].
Defined.

(** Witness of [tracker_lookup_sweeps_table]: the stale row of [ws07] goes
    when a tracker of [dc01] is asked for. *)
Lemma tracker_lookup_sweeps_table_witness :
  get_or_create_tracker (t0 + minutes 5) "HOSTNAME" "dc01" "dc01" 10
    (Some (t0 + minutes 5)) [stale_ws07; counted_lockouts 4]
  = (0%nat, counted_lockouts 4, [counted_lockouts 4])
  /\ (forall j x, j <> 0%nat -> [counted_lockouts 4] !! j = Some x ->
        List.In x [stale_ws07; counted_lockouts 4]
        /\ t0 + minutes 5 - hours 1 <= window_end x)
  /\ (List.length [counted_lockouts 4]
      <= S (List.length [stale_ws07; counted_lockouts 4]))%nat.
Proof.
  assert (Hget : get_or_create_tracker (t0 + minutes 5) "HOSTNAME" "dc01" "dc01"
                   10 (Some (t0 + minutes 5)) [stale_ws07; counted_lockouts 4]
                 = (0%nat, counted_lockouts 4, [counted_lockouts 4]))
    by (vm_compute; reflexivity).
  split; [exact Hget|].
  exact (tracker_lookup_sweeps_table (t0 + minutes 5) "HOSTNAME" "dc01" "dc01"
           10 (Some (t0 + minutes 5)) [stale_ws07; counted_lockouts 4]
           [counted_lockouts 4] 0%nat (counted_lockouts 4) Hget).
Defined.


(** Witness of [process_event_books_alerts]: the fifth lockout under the
    two lockout rules. *)
Lemma process_event_books_alerts_witness :
  let run :=
    process_event literal_search (t0 + minutes 5)
      [lockouts_any_confidence; mass_account_lockouts] (lockout 5)
      four_lockouts_db in
  run = (run.1.1, run.1.2, run.2)
  /\ List.length run.1.1 = 1%nat
  /\ alerts run.2 = (alerts four_lockouts_db ++ run.1.1)%list
  /\ suppressions run.2 = suppressions four_lockouts_db
  /\ Forall2 (fun r r' =>
                r' = r \/ r' = with_total_alerts r (total_alerts r + 1))
       [lockouts_any_confidence; mass_account_lockouts] run.1.2
  /\ foldr Z.add 0 (map total_alerts run.1.2)
     = foldr Z.add 0
         (map total_alerts [lockouts_any_confidence; mass_account_lockouts])
       + Z.of_nat (List.length run.1.1).
Proof.
  intros run.
  assert (Hrun : run = (run.1.1, run.1.2, run.2)) by (vm_compute; reflexivity).
  split; [exact Hrun|]. split; [vm_compute; reflexivity|].
  exact (process_event_books_alerts literal_search (t0 + minutes 5)
           [lockouts_any_confidence; mass_account_lockouts] run.1.2
           (lockout 5) four_lockouts_db run.2 run.1.1 Hrun).
Defined.

(** Witness of [alerts_respect_rule_gates], on the same run. *)
Lemma alerts_respect_rule_gates_witness :
  let rules := [lockouts_any_confidence; mass_account_lockouts] in
  let run :=
    process_event literal_search (t0 + minutes 5) rules (lockout 5)
      four_lockouts_db in
  run = (run.1.1, run.1.2, run.2)
  /\ map confidence run.1.1 = [50]
  /\ Forall (fun a =>
               exists rule,
                 List.In rule rules
                 /\ alert_rule a = rule_id rule
                 /\ alert_severity a = severity rule
                 /\ alert_hostname a = hostname (lockout 5)
                 /\ min_confidence rule <= confidence a
                 /\ 50 <= confidence a <= 100
                 /\ (List.length (matched_events a) <= 50)%nat) run.1.1
  /\ (List.length run.1.1 <= List.length rules)%nat.
Proof.
  intros rules run.
  assert (Hrun : run = (run.1.1, run.1.2, run.2)) by (vm_compute; reflexivity).
  split; [exact Hrun|]. split; [vm_compute; reflexivity|].
  exact (alerts_respect_rule_gates literal_search (t0 + minutes 5) rules
           run.1.2 (lockout 5) four_lockouts_db run.2 run.1.1 Hrun).
Defined.

(** Witness of [batch_alert_count_is_table_growth]: five lockouts under a
    rule that keeps every firing. *)
Lemma batch_alert_count_is_table_growth_witness :
  let run :=
    process_events literal_search [lockouts_any_confidence] five_lockouts
      empty_db in
  run = (run.1.1, run.1.2, run.2)
  /\ map (@List.length _) run.1.1 = [0; 0; 0; 0; 1]%nat
  /\ alerts run.2 = (alerts empty_db ++ List.concat run.1.1)%list
  /\ List.length run.1.1 = List.length five_lockouts
  /\ foldr Z.add 0 (map (fun l => Z.of_nat (List.length l)) run.1.1)
     = Z.of_nat (List.length (alerts run.2))
       - Z.of_nat (List.length (alerts empty_db)).
Proof.
  intros run.
  assert (Hrun : run = (run.1.1, run.1.2, run.2)) by (vm_compute; reflexivity).
  split; [exact Hrun|]. split; [vm_compute; reflexivity|].
  exact (batch_alert_count_is_table_growth literal_search
           [lockouts_any_confidence] run.1.2 five_lockouts empty_db run.2
           run.1.1 Hrun).
Defined.

(** Witness of [unlisted_event_ids_leave_state]: a cleared log under the
    lockout rule and the shell rule. *)
Lemma unlisted_event_ids_leave_state_witness :
  Forall (fun rule =>
            exists ids,
              event_ids (logic rule) = Some ids
              /\ ids <> [] /\ ~ List.In (event_id log_cleared) ids)
    [mass_account_lockouts; shell_spawned]
  /\ process_event literal_search t0 [mass_account_lockouts; shell_spawned]
       log_cleared four_lockouts_db
     = ([], [mass_account_lockouts; shell_spawned], four_lockouts_db).
Proof.
  assert (Hall : Forall (fun rule =>
                           exists ids,
                             event_ids (logic rule) = Some ids
                             /\ ids <> []
                             /\ ~ List.In (event_id log_cleared) ids)
                   [mass_account_lockouts; shell_spawned]).
  { repeat constructor.
    - exists [4740]. split; [reflexivity|]. split; [discriminate|].
      simpl. intros [H|[]]. discriminate H.
    - exists [4688]. split; [reflexivity|]. split; [discriminate|].
      simpl. intros [H|[]]. discriminate H. }
  split; [exact Hall|].
  exact (unlisted_event_ids_leave_state literal_search t0
           [mass_account_lockouts; shell_spawned] log_cleared
           four_lockouts_db Hall).
Defined.

(** Witness of [default_rules_track_the_acting_user]: a logon of [carol]
    under "Lateral Movement via RDP". *)
Lemma default_rules_track_the_acting_user_witness :
  let run :=
    evaluate_rule literal_search (t0 + minutes 1) lateral_movement_rdp
      carol_logon (is_system_account (user_name carol_logon))
      (is_system_account (target_user_name carol_logon)) empty_db in
  default true (exclude_system_accounts (logic lateral_movement_rdp)) = true
  /\ default "user_name" (track_by (logic lateral_movement_rdp)) = "user_name"
  /\ run = (run.1.1, run.1.2, run.2)
  /\ map entity_value (trackers run.2) = ["carol"]
  /\ ((run.1.1 = Returned None /\ run.1.2 = lateral_movement_rdp
       /\ run.2 = empty_db)
      \/ exists v i t,
           user_name carol_logon = Some v
           /\ is_system_account (Some v) = false
           /\ trackers run.2 !! i = Some t
           /\ entity_type t = "USER_NAME"
           /\ entity_value t = v
           /\ tracker_hostname t = hostname carol_logon).
Proof.
  intros run.
  assert (Hrun : run = (run.1.1, run.1.2, run.2)) by (vm_compute; reflexivity).
  split; [reflexivity|]. split; [reflexivity|]. split; [exact Hrun|].
  split; [vm_compute; reflexivity|].
  exact (default_rules_track_the_acting_user literal_search (t0 + minutes 1)
           lateral_movement_rdp run.1.2 carol_logon empty_db run.2 run.1.1
           eq_refl eq_refl Hrun).
Defined.

(** Witness of [rules_share_trackers]: one logon of [carol] under
    "Lateral Movement via RDP" and "Pass-the-Hash Detection". *)
Lemma rules_share_trackers_witness :
  let now := t0 + minutes 1 in
  let fresh :=
    {| entity_type := "USER_NAME"; entity_value := "carol";
       tracker_hostname := "ws07"; window_start := t0 + minutes 1;
       window_end := t0 + minutes 31; event_counts := ∅;
       unique_values := ∅; tracker_event_ids := [];
       last_event_time := None |} in
  let after :=
    (process_event literal_search now [lateral_movement_rdp; pass_the_hash]
       carol_logon empty_db).2 in
  in_ids (event_id carol_logon) NOISE_EVENT_IDS = false
  /\ 0 <= default 10 (window_minutes (logic pass_the_hash))
       <= default 10 (window_minutes (logic lateral_movement_rdp))
  /\ get_or_create_tracker now "USER_NAME" "carol" "ws07" 30
       (Some (timestamp carol_logon)) (trackers empty_db)
     = (0%nat, fresh, [fresh])
  /\ now - hours 1 <= window_end fresh
  /\ exists t2,
       List.length (trackers after) = List.length [fresh]
       /\ trackers after !! 0%nat = Some t2
       /\ t2 = update_tracker pass_the_hash carol_logon
                 (update_tracker lateral_movement_rdp carol_logon fresh).
Proof.
  intros now fresh after.
  assert (Hget : get_or_create_tracker now "USER_NAME" "carol" "ws07" 30
                   (Some (timestamp carol_logon)) (trackers empty_db)
                 = (0%nat, fresh, [fresh])) by (vm_compute; reflexivity).
  assert (Hw : 0 <= default 10 (window_minutes (logic pass_the_hash))
               <= default 10 (window_minutes (logic lateral_movement_rdp)))
    by (simpl; lia).
  assert (Hkept : now - hours 1 <= window_end fresh)
    by (vm_compute; discriminate).
  split; [reflexivity|]. split; [exact Hw|]. split; [exact Hget|].
  split; [exact Hkept|].
  exact (rules_share_trackers literal_search now lateral_movement_rdp
           pass_the_hash carol_logon empty_db "carol" 0%nat fresh [fresh]
           eq_refl eq_refl Hw eq_refl eq_refl Hget Hkept).
Defined.

(** Witness of [evidence_window_wraps_at_a_day]: the alert of the fifth
    lockout, on a window of ten minutes. *)
Lemma evidence_window_wraps_at_a_day_witness :
  let made :=
    create_alert (t0 + minutes 5) lockouts_any_confidence (lockout 5)
      (counted_lockouts 5) "Account lockouts: dc01" 50 None empty_db in
  let a := new_alert (t0 + minutes 5) lockouts_any_confidence (lockout 5)
             (counted_lockouts 5) "Account lockouts: dc01" 50 None in
  made = (Some a, made.1.2, made.2)
  /\ ev_window_minutes (evidence a) = 10
  /\ 0 <= ev_window_minutes (evidence a) < 1440
  /\ (0 <= window_end (counted_lockouts 5) - window_start (counted_lockouts 5)
        < days 1 ->
      ev_window_minutes (evidence a)
      = (window_end (counted_lockouts 5) - window_start (counted_lockouts 5))
        / minutes 1)
  /\ (forall n,
        window_end (counted_lockouts 5) - window_start (counted_lockouts 5)
        = days n ->
        ev_window_minutes (evidence a) = 0).
Proof.
  intros made a.
  assert (Hmade : made = (Some a, made.1.2, made.2))
    by (vm_compute; reflexivity).
  split; [exact Hmade|]. split; [vm_compute; reflexivity|].
  exact (evidence_window_wraps_at_a_day (t0 + minutes 5)
           lockouts_any_confidence made.1.2 (lockout 5) (counted_lockouts 5)
           "Account lockouts: dc01" 50 None empty_db made.2 a Hmade).
Defined.

End EngineRuns.

(** * Further properties of the query language *)

(** ** The lexer *)

Section Lexer.

Import PQL.

(** What the lexer can write in a token before the final [EOF]. *)
Abbreviation lexed t :=
  (match t with
   | (STRING, Some _) => True
   | (NUMBER, Some text) => text <> ""
   | (KEYWORD, Some word) =>
       PyStr.mem word KEYWORDS = true
       /\ PyStr.mem word ["AND"; "OR"; "NOT"] = false
   | (LOGICAL, Some word) => PyStr.mem word ["AND"; "OR"; "NOT"] = true
   | (IDENTIFIER, Some word) =>
       word <> "" /\ PyStr.mem (PyStr.upper word) KEYWORDS = false
   | (COMPARISON, Some op) => op <> ""
   | (PIPE, Some text) => text = "|"
   | (COMMA, Some text) => text = ","
   | (LPAREN, Some text) => text = "("
   | (RPAREN, Some text) => text = ")"
   | _ => False
   end).

Lemma span_head (p : ascii -> bool) (c : ascii) (s taken rest : string) :
  p c = true -> span p (String c s) = (taken, rest) -> taken <> "".
Proof.
  intros Hc. simpl. rewrite Hc. destruct (span p s). now intros [= <- <-].
Qed.

Lemma read_number_text (c : ascii) (r text rest : string) :
  _read_number (String c r) = (text, rest) ->
  is_digit c
  || (Ascii.eqb c "-"
      && match r with
         | String d _ => is_digit d
         | EmptyString => false
         end) = true ->
  text <> "".
Proof.
  unfold _read_number. intros Hread Hstart.
  destruct (Ascii.eqb_spec c "-") as [->|Hc].
  - destruct (span _ r) as [body s2].
    destruct s2 as [|u r0]; [|destruct (char_in u "hmsdw")];
      injection Hread as <- <-; discriminate.
  - assert (Hd : is_digit c = true).
    { apply orb_true_iff in Hstart as [H|H]; [exact H|].
      apply andb_true_iff in H as [H _]. discriminate H. }
    assert (Hsign : match String c r with
                    | String "-" r0 => ("-", r0)
                    | _ => (EmptyString, String c r)
                    end = (EmptyString, String c r)).
    { destruct c as [[] [] [] [] [] [] [] []]; try reflexivity.
      contradiction Hc. reflexivity. }
    rewrite Hsign in Hread.
    destruct (span _ (String c r)) as [body s2] eqn:E.
    apply span_head in E; [|simpl; now rewrite Hd].
    destruct body as [|b body]; [congruence|].
    destruct s2 as [|u r0]; [|destruct (char_in u "hmsdw")];
      injection Hread as <- <-; discriminate.
Qed.

Lemma tokenize_loop_lexed (fuel : nat) (s : string) :
  exists body,
    tokenize_loop fuel s = (body ++ [(EOF, None)])%list
    /\ Forall (fun t => lexed t) body.
Proof.
  revert s. induction fuel as [|fuel IH]; intros s.
  - exists []. split; [reflexivity|constructor].
  - cbn [tokenize_loop].
    destruct (PyStr.lstrip s) as [|c r]; [exists []; split; [reflexivity|constructor]|].
    assert (Hcons : forall t rest,
               lexed t ->
               exists body,
                 t :: tokenize_loop fuel rest = (body ++ [(EOF, None)])%list
                 /\ Forall (fun t => lexed t) body).
    { intros t rest Ht. destruct (IH rest) as (body & -> & Hall).
      exists (t :: body). split; [reflexivity|now constructor]. }
    destruct (Ascii.eqb c double_quote || Ascii.eqb c "'").
    { destruct (read_string_body c r) as [v rest]. now apply Hcons. }
    destruct (is_digit c || _) eqn:Hnum.
    { destruct (_read_number (String c r)) as [text rest] eqn:E.
      apply Hcons. eapply read_number_text; eassumption. }
    destruct (is_alpha c || Ascii.eqb c "_") eqn:Hid.
    { unfold _read_identifier.
      destruct (span _ (String c r)) as [value rest] eqn:E.
      assert (Hne : value <> "").
      { eapply span_head; [|exact E]. simpl. unfold is_alnum.
        apply orb_true_iff in Hid as [->| ->];
          [reflexivity|apply orb_true_r]. }
      destruct (PyStr.mem (PyStr.upper value) KEYWORDS) eqn:Hkw.
      - destruct (PyStr.mem (PyStr.upper value) ["AND"; "OR"; "NOT"]) eqn:Hlog;
          apply Hcons; [assumption|now split].
      - apply Hcons. now split. }
    destruct (char_in c "=!<>") eqn:Hcmp.
    { unfold _read_comparison.
      destruct (span _ (String c r)) as [op rest] eqn:E.
      apply Hcons. eapply span_head; [|exact E]. exact Hcmp. }
    destruct (Ascii.eqb c "|"); [now apply Hcons|].
    destruct (Ascii.eqb c ","); [now apply Hcons|].
    destruct (Ascii.eqb c "("); [now apply Hcons|].
    destruct (Ascii.eqb c ")"); [now apply Hcons|].
    apply IH.
Qed.

(** The token list of any query is a list of well-formed tokens closed by
    the one [EOF] token.  Before it, a KEYWORD carries an upper-case
    reserved word other than AND, OR and NOT, which come as LOGICAL; an
    IDENTIFIER is never a reserved word in any case; numbers, comparisons
    and identifiers are not empty; and no token has the kind OPERATOR or a
    missing text. *)
Theorem tokens_are_classified (query : string) :
  exists body,
    tokenize query = (body ++ [(EOF, None)])%list
    /\ Forall (fun t => lexed t) body.
Proof. apply tokenize_loop_lexed. Qed.

End Lexer.

Section Literals.

Import PQL.

Lemma span_app (p : ascii -> bool) (taken rest : string) :
  forallb p (list_ascii_of_string taken) = true ->
  match rest with
  | String c _ => p c = false
  | EmptyString => True
  end ->
  span p (taken ++ rest) = (taken, rest).
Proof.
  intros Ht Hr. induction taken as [|c taken IH].
  - change ("" ++ rest) with rest. destruct rest as [|c r]; [reflexivity|].
    simpl. now rewrite Hr.
  - simpl in Ht. apply andb_true_iff in Ht as [Hc Ht].
    rewrite append_cons. simpl. rewrite Hc, (IH Ht). reflexivity.
Qed.

Lemma digit_starts_number (c : ascii) :
  is_digit c = true ->
  PyStr.is_space c = false
  /\ Ascii.eqb c double_quote || Ascii.eqb c "'" = false
  /\ Ascii.eqb c "-" = false.
Proof.
  destruct c as [[] [] [] [] [] [] [] []]; try discriminate; now repeat split.
Qed.

Lemma digits_then_unit (digits unit : string) :
  forallb is_digit (list_ascii_of_string digits) = true ->
  List.In unit [""; "s"; "m"; "h"; "d"; "w"] ->
  span (fun c => is_digit c || Ascii.eqb c ".") (digits ++ unit)
  = (digits, unit).
Proof.
  intros Hd Hu. apply span_app.
  - clear Hu. induction digits as [|c digits IH]; [reflexivity|].
    simpl in *. apply andb_true_iff in Hd as [-> Hd]. now rewrite IH.
  - simpl in Hu.
    destruct Hu as [<-|[<-|[<-|[<-|[<-|[<-|[]]]]]]]; reflexivity || exact I.
Qed.

Lemma read_unit (sign digits unit : string) :
  List.In unit [""; "s"; "m"; "h"; "d"; "w"] ->
  match unit with
  | String u r =>
      if char_in u "hmsdw"
      then (sign +:+ digits +:+ String u EmptyString, r)
      else (sign +:+ digits, unit)
  | EmptyString => (sign +:+ digits, unit)
  end = (sign ++ digits ++ unit, "").
Proof.
  simpl. intros [<-|[<-|[<-|[<-|[<-|[<-|[]]]]]]]; try reflexivity.
  now rewrite append_empty_r.
Qed.

(** An integer literal, with or without a minus sign and with or without a
    time unit after its digits, is lexed as one NUMBER token that carries
    the literal as written. *)
Theorem integer_literal_is_one_token (sign digits unit : string) :
  List.In sign [""; "-"] ->
  digits <> "" ->
  forallb is_digit (list_ascii_of_string digits) = true ->
  List.In unit [""; "s"; "m"; "h"; "d"; "w"] ->
  tokenize (sign ++ digits ++ unit)
  = [(NUMBER, Some (sign ++ digits ++ unit)); (EOF, None)].
Proof.
  intros Hsign Hne Hd Hu. unfold tokenize.
  destruct digits as [|c digits]; [congruence|].
  pose proof Hd as Hd'. simpl in Hd'. apply andb_true_iff in Hd' as [Hc _].
  destruct (digit_starts_number c Hc) as (Hsp & Hq & Hminus).
  pose proof (digits_then_unit (String c digits) unit Hd Hu) as Hspan.
  pose proof (read_unit sign (String c digits) unit Hu) as Hunit.
  simpl in Hsign. destruct Hsign as [<-|[<-|[]]].
  - change ("" ++ String c digits ++ unit) with (String c (digits ++ unit)).
    change ("" ++ String c digits ++ unit) with (String c (digits ++ unit))
      in Hunit.
    cbn [String.length tokenize_loop PyStr.lstrip]. rewrite Hsp, Hq, Hc.
    cbn [orb]. unfold _read_number.
    assert (Hs : match String c (digits ++ unit) with
                 | String "-" r0 => ("-", r0)
                 | _ => (EmptyString, String c (digits ++ unit))
                 end = (EmptyString, String c (digits ++ unit))).
    { destruct c as [[] [] [] [] [] [] [] []]; try reflexivity.
      discriminate Hminus. }
    rewrite Hs. rewrite <- append_cons, Hspan.
    change (EmptyString +:+ String c digits +:+ ?x)
      with (String c (digits ++ x)) in *.
    change (EmptyString +:+ String c digits) with (String c digits) in *.
    rewrite Hunit. now destruct (String.length (digits ++ unit)).
  - change ("-" ++ String c digits ++ unit)
      with (String "-" (String c (digits ++ unit))).
    cbn [String.length tokenize_loop PyStr.lstrip].
    change (PyStr.is_space "-") with false. cbv iota.
    change (Ascii.eqb "-" double_quote || Ascii.eqb "-" "'") with false.
    cbv iota. rewrite Hc. change (is_digit "-") with false.
    cbn [orb andb Ascii.eqb]. simpl (Ascii.eqb "-" "-"). cbv iota.
    unfold _read_number. rewrite <- append_cons, Hspan, Hunit.
    now destruct (String.length (digits ++ unit)).
Qed.

Lemma read_string_body_plain (q : ascii) (s rest : string) :
  forallb (fun c => negb (Ascii.eqb c q) && negb (Ascii.eqb c "\"))
    (list_ascii_of_string s) = true ->
  read_string_body q (s ++ String q rest) = (s, rest)
  /\ read_string_body q s = (s, "").
Proof.
  induction s as [|c s IH]; intros H.
  - change ("" ++ String q rest) with (String q rest). simpl.
    now rewrite Ascii.eqb_refl.
  - simpl in H. apply andb_true_iff in H as [Hc Hs].
    apply andb_true_iff in Hc as [Hq Hb].
    apply negb_true_iff in Hq, Hb.
    destruct (IH Hs) as [IH1 IH2].
    rewrite append_cons. simpl. rewrite Hq, Hb, IH1, IH2. now split.
Qed.

(** A quoted literal without a backslash in it is lexed as one STRING token
    holding the characters between the quotes, whichever of the two quote
    characters is used; the text of the literal is also what a literal
    whose closing quote is missing gives, without complaint. *)
Theorem quoted_literal_is_one_token (q : ascii) (s : string) :
  List.In q [double_quote; "'"%char] ->
  forallb (fun c => negb (Ascii.eqb c q) && negb (Ascii.eqb c "\"))
    (list_ascii_of_string s) = true ->
  tokenize (String q s ++ String q "") = [(STRING, Some s); (EOF, None)]
  /\ tokenize (String q s) = [(STRING, Some s); (EOF, None)].
Proof.
  intros Hq Hs.
  destruct (read_string_body_plain q s "" Hs) as [Hclosed Hopen].
  assert (Hstart : PyStr.is_space q = false
                   /\ Ascii.eqb q double_quote || Ascii.eqb q "'" = true).
  { simpl in Hq. destruct Hq as [<-|[<-|[]]]; now split. }
  destruct Hstart as [Hsp Hquote].
  unfold tokenize. rewrite append_cons.
  cbn [String.length tokenize_loop PyStr.lstrip].
  rewrite Hsp, Hquote, Hclosed, Hopen.
  split; [now destruct (String.length (s ++ String q ""))|].
  now destruct (String.length s).
Qed.

End Literals.

(** ** The parser *)

Section Parser.

Import PQL.

Ltac split_parse :=
  repeat match goal with
         | |- context [match ?x with _ => _ end] =>
             destruct x eqn:?; try discriminate
         | |- (let '(_, _) := ?x in _) = _ -> _ =>
             destruct x eqn:?; try discriminate
         end.

Lemma text_is_eq (t : token) (word : string) :
  text_is t word = true -> snd t = Some word.
Proof. unfold text_is. apply bool_decide_eq_true. Qed.

Lemma kind_eqb_eq (a b : token_kind) : kind_eqb a b = true -> a = b.
Proof. destruct a, b; (reflexivity || discriminate). Qed.

Lemma first_keyword (t : token) (word : string) :
  kind_eqb (fst t) KEYWORD = true -> text_is t word = true ->
  t = (KEYWORD, Some word).
Proof.
  intros Hk Ht. apply kind_eqb_eq in Hk. apply text_is_eq in Ht.
  destruct t as [k text]. simpl in *. now subst.
Qed.

(** The command of the dictionary the parser returns is the keyword the
    query starts with, one of SEARCH, HUNT and AGGREGATE: nothing else is
    parsed.  A SEARCH has offset 0 and the direction ASC or DESC, DESC
    when it has no ORDER BY; an AGGREGATE has no limit and at most one
    aggregation function. *)
Theorem parsed_query_shape (now : Z) (tokens : list token) (a : ast) :
  parse now tokens = inr a ->
  match a with
  | SEARCH s =>
      current_token tokens = (KEYWORD, Some "SEARCH")
      /\ search_offset s = 0
      /\ List.In (search_order_dir s) ["ASC"; "DESC"]
      /\ (search_order_by s = None -> search_order_dir s = "DESC")
  | HUNT h => current_token tokens = (KEYWORD, Some "HUNT")
  | AGGREGATE g =>
      current_token tokens = (KEYWORD, Some "AGGREGATE")
      /\ aggregate_limit g = None
      /\ (aggregations g = []
          \/ exists f, aggregations g = [f]
                       /\ List.In f ["COUNT"; "SUM"; "AVG"; "MIN"; "MAX"])
  | OTHER _ => False
  end.
Proof.
  unfold parse.
  destruct (kind_eqb _ KEYWORD) eqn:Hk; [|discriminate].
  destruct (text_is _ "SEARCH") eqn:Hs.
  { pose proof (first_keyword _ _ Hk Hs) as Hfirst.
    unfold parse_search.
    destruct (consume _ _ tokens) as [|[t0 r0]]; [discriminate|].
    destruct (parse_source r0) as [source r1].
    destruct (parse_where now r1) as [|[conds r2]]; [discriminate|].
    destruct (parse_by "ORDER" r2) as [|[order_by r3]]; [discriminate|].
    destruct order_by as [ob|].
    - destruct (text_is _ "ASC" || text_is _ "DESC") eqn:Hdir.
      + destruct (consume _ _ r3) as [|[dir r4]] eqn:Hc; [discriminate|].
        destruct (parse_limit 100 r4) as [|[limit r5]]; [discriminate|].
        intros [= <-]. simpl. repeat split; try assumption; try discriminate.
        assert (Hd : dir = current_token r3).
        { revert Hc. unfold consume. split_parse. now intros [= <- _]. }
        subst dir. apply orb_true_iff in Hdir as [H|H];
          apply text_is_eq in H; unfold text_of; rewrite H; simpl; tauto.
      + destruct (parse_limit 100 r3) as [|[limit r5]]; [discriminate|].
        intros [= <-]. simpl. repeat split; try assumption; try discriminate.
        tauto.
    - destruct (parse_limit 100 r3) as [|[limit r5]]; [discriminate|].
      intros [= <-]. simpl. repeat split; try assumption. tauto. }
  destruct (text_is _ "HUNT") eqn:Hh.
  { pose proof (first_keyword _ _ Hk Hh) as Hfirst.
    unfold parse_hunt. split_parse. now intros [= <-]. }
  destruct (text_is _ "AGGREGATE") eqn:Ha; [|discriminate].
  pose proof (first_keyword _ _ Hk Ha) as Hfirst.
  unfold parse_aggregate.
  destruct (consume _ _ tokens) as [|[t0 r0]]; [discriminate|].
  destruct (parse_source r0) as [source r1].
  destruct (if text_is (current_token r1) "BY" then _ else _)
    as [|[group_by r2]]; [discriminate|].
  destruct (PyStr.mem (text_of (current_token r2)) _) eqn:Hf.
  - destruct (consume _ _ r2) as [|[func r3]] eqn:Hc; [discriminate|].
    destruct (parse_where now r3) as [|[conds r4]]; [discriminate|].
    destruct (if text_is (current_token r4) "WITHIN" then _ else _)
      as [|[w r5]]; [discriminate|].
    intros [= <-]. simpl. repeat split; try assumption.
    right. exists (text_of func). split; [reflexivity|].
    assert (Hd : func = current_token r2).
    { revert Hc. unfold consume. split_parse. now intros [= <- _]. }
    subst func. unfold PyStr.mem in Hf. apply existsb_exists in Hf
      as (x & Hin & Heq). apply String.eqb_eq in Heq. now subst.
  - destruct (parse_where now r2) as [|[conds r4]]; [discriminate|].
    destruct (if text_is (current_token r4) "WITHIN" then _ else _)
      as [|[w r5]]; [discriminate|].
    intros [= <-]. simpl. repeat split; try assumption. now left.
Qed.

Lemma parse_conditions_loop_alternates (now : Z) (fuel : nat)
    (tokens rest : list token) (items : list item) :
  parse_conditions_loop fuel now tokens = inr (items, rest) ->
  Nat.odd (List.length items) = true
  /\ forall i it,
       items !! i = Some it ->
       match it with
       | Condition _ _ _ => Nat.even i = true
       | Logical _ => Nat.odd i = true
       end.
Proof.
  revert tokens rest items.
  induction fuel as [|fuel IH]; intros tokens rest items;
    cbn [parse_conditions_loop]; [discriminate|].
  destruct (parse_condition now tokens) as [|[c r]] eqn:Hc; [discriminate|].
  assert (Hcond : exists f o v, c = Condition f o v).
  { revert Hc. unfold parse_condition.
    destruct (consume _ _ tokens) as [|[ft r0]]; [discriminate|].
    destruct (kind_eqb _ COMPARISON).
    { destruct (_parse_value _ _) as [|[v r1]]; [discriminate|].
      intros [= <- _]. eauto. }
    destruct (text_is _ "CONTAINS").
    { destruct (consume _ _ r0) as [|[t1 r1]]; [discriminate|].
      destruct (_parse_value _ _) as [|[v r2]]; [discriminate|].
      intros [= <- _]. eauto. }
    destruct (text_is _ "LIKE").
    { destruct (consume _ _ r0) as [|[t1 r1]]; [discriminate|].
      destruct (_parse_value _ _) as [|[v r2]]; [discriminate|].
      intros [= <- _]. eauto. }
    destruct (text_is _ "IN"); [|discriminate].
    destruct (consume _ _ r0) as [|[t1 r1]]; [discriminate|].
    destruct (consume _ _ r1) as [|[t2 r2]]; [discriminate|].
    destruct (parse_in_values _ _ _) as [|[vs r3]]; [discriminate|].
    destruct (consume _ _ r3) as [|[t4 r4]]; [discriminate|].
    intros [= <- _]. eauto. }
  destruct Hcond as (f & o & v & ->).
  destruct (kind_eqb _ LOGICAL).
  - destruct (parse_conditions_loop fuel now (tl r)) as [|[more r']] eqn:Hmore;
      [discriminate|].
    intros [= <- <-]. apply IH in Hmore as [Hodd Hall].
    split.
    + cbn [List.length]. rewrite Nat.odd_succ, Nat.even_succ. exact Hodd.
    + intros [|[|i]] it; simpl.
      * now intros [= <-].
      * now intros [= <-].
      * intros Hit. specialize (Hall i it Hit).
        destruct it; [rewrite Nat.odd_succ, Nat.even_succ|]; exact Hall.
  - intros [= <- <-]. split; [reflexivity|].
    intros [|i] it; simpl; [now intros [= <-]|discriminate].
Qed.

(** A WHERE clause parses to a list that is never empty and in which
    conditions and connectives alternate: a condition at every even
    position, first and last included, a connective at every odd one. *)
Theorem where_clause_alternates (now : Z) (tokens rest : list token)
    (items : list item) :
  parse_conditions now tokens = inr (items, rest) ->
  items <> []
  /\ Nat.odd (List.length items) = true
  /\ forall i it,
       items !! i = Some it ->
       match it with
       | Condition _ _ _ => Nat.even i = true
       | Logical _ => Nat.odd i = true
       end.
Proof.
  unfold parse_conditions. intros H.
  apply parse_conditions_loop_alternates in H as [Hodd Hall].
  split; [now destruct items|]. now split.
Qed.

Create HintDb parse_errors.

Ltac parse_error :=
  repeat match goal with
         | |- context [match ?x with _ => _ end] => destruct x eqn:?
         | |- (let '(_, _) := ?x in _) = _ -> _ => destruct x eqn:?
         end;
  intros ?; try discriminate;
  repeat match goal with
         | H : context [match ?x with _ => _ end] |- _ =>
             destruct x eqn:?; try discriminate
         end;
  repeat match goal with
         | H : inl _ = inl _ |- _ => injection H as <-
         end;
  eauto with parse_errors.

Lemma consume_error (k : option token_kind) (v : option string)
    (tokens : list token) (ex : exn) :
  consume k v tokens = inl ex -> ex = PQLSyntaxError.
Proof. unfold consume. parse_error. Qed.

#[local] Hint Resolve consume_error : parse_errors.

Lemma parse_value_error (now : Z) (tokens : list token) (ex : exn) :
  _parse_value now tokens = inl ex -> ex = PQLSyntaxError.
Proof. unfold _parse_value. parse_error. Qed.

#[local] Hint Resolve parse_value_error : parse_errors.

Lemma parse_in_values_error (now : Z) (fuel : nat) (tokens : list token)
    (ex : exn) :
  parse_in_values fuel now tokens = inl ex -> ex = PQLSyntaxError.
Proof.
  revert tokens. induction fuel as [|fuel IH]; intros tokens;
    cbn [parse_in_values]; [now intros [= <-]|].
  parse_error.
Qed.

#[local] Hint Resolve parse_in_values_error : parse_errors.

Lemma parse_condition_error (now : Z) (tokens : list token) (ex : exn) :
  parse_condition now tokens = inl ex -> ex = PQLSyntaxError.
Proof.
  unfold parse_condition.
  parse_error.
Qed.

#[local] Hint Resolve parse_condition_error : parse_errors.

Lemma parse_conditions_loop_error (now : Z) (fuel : nat)
    (tokens : list token) (ex : exn) :
  parse_conditions_loop fuel now tokens = inl ex -> ex = PQLSyntaxError.
Proof.
  revert tokens. induction fuel as [|fuel IH]; intros tokens;
    cbn [parse_conditions_loop]; [now intros [= <-]|].
  parse_error.
Qed.

#[local] Hint Resolve parse_conditions_loop_error : parse_errors.

Lemma parse_where_error (now : Z) (tokens : list token) (ex : exn) :
  parse_where now tokens = inl ex -> ex = PQLSyntaxError.
Proof.
  unfold parse_where, parse_conditions.
  parse_error.
Qed.

#[local] Hint Resolve parse_where_error : parse_errors.

Lemma parse_by_error (keyword : string) (tokens : list token) (ex : exn) :
  parse_by keyword tokens = inl ex -> ex = PQLSyntaxError.
Proof. unfold parse_by. parse_error. Qed.

#[local] Hint Resolve parse_by_error : parse_errors.

Lemma parse_limit_error (dflt : Z) (tokens : list token) (ex : exn) :
  parse_limit dflt tokens = inl ex -> ex = PQLSyntaxError \/ ex = ValueError.
Proof. unfold parse_limit. parse_error. Qed.

#[local] Hint Resolve parse_limit_error : parse_errors.


End Parser.

(** ** Time expressions *)

Section TimeExpressions.

Import PQL.

Lemma digits_value_nonneg (s : string) (acc : Z) (b : bool) (n : Z) :
  0 <= acc -> digits_value s acc b = Some n -> 0 <= n.
Proof.
  revert acc b. induction s as [|c s IH]; intros acc b Hacc; cbn [digits_value].
  - destruct b; [now intros [= <-]|discriminate].
  - destruct (is_digit c).
    + apply IH. unfold digit_value. lia.
    + destruct (Ascii.eqb c "_"); [|discriminate].
      destruct b; [now apply IH|discriminate].
Qed.

Lemma lstrip_head (s : string) (c : ascii) (r : string) :
  PyStr.lstrip s = String c r -> List.In c (list_ascii_of_string s).
Proof.
  induction s as [|d s IH]; simpl; [discriminate|].
  destruct (PyStr.is_space d).
  - intros H. right. now apply IH.
  - intros [= -> _]. now left.
Qed.

Lemma rstrip_head (s : string) (c : ascii) (r : string) :
  PyStr.rstrip s = String c r -> exists r', s = String c r'.
Proof.
  destruct s as [|d s]; simpl; [discriminate|].
  destruct (PyStr.rstrip s).
  - destruct (PyStr.is_space d); [discriminate|]. intros [= -> _]. eauto.
  - intros [= -> _]. eauto.
Qed.

Lemma drop_last_chars (s : string) (c : ascii) :
  List.In c (list_ascii_of_string (PyStr.drop_last s)) ->
  List.In c (list_ascii_of_string s).
Proof.
  induction s as [|d s IH]; simpl; [tauto|].
  destruct s as [|d' s]; [simpl; tauto|].
  intros [H|H]; [now left|]. right. now apply IH.
Qed.

Lemma py_int_unsigned (s : string) (n : Z) :
  ~ List.In "-"%char (list_ascii_of_string s) ->
  py_int s = Some n -> 0 <= n.
Proof.
  intros Hminus. unfold py_int.
  destruct (PyStr.strip s) as [|c r] eqn:Hs.
  - discriminate.
  - assert (Hc : List.In c (list_ascii_of_string s)).
    { unfold PyStr.strip in Hs. apply rstrip_head in Hs as [r' Hs].
      now apply lstrip_head in Hs. }
    destruct (Ascii.eqb_spec c "-") as [->|Hne]; [contradiction|].
    assert (Hcase : forall o : option Z,
               (o = digits_value r 0 false
                \/ o = digits_value (String c r) 0 false) ->
               o = Some n -> 0 <= n).
    { intros o [->| ->]; apply digits_value_nonneg; lia. }
    destruct c as [[] [] [] [] [] [] [] []];
      try (apply Hcase; now right); try (apply Hcase; now left).
Qed.

(** A time expression without a minus sign never resolves to an instant
    after the reference time. *)
Theorem unsigned_time_values_are_not_later (now : Z) (value : string) :
  ~ List.In "-"%char (list_ascii_of_string value) ->
  parse_time_value now value <= now.
Proof.
  intros Hminus. unfold parse_time_value.
  destruct (_ <? _)%nat; [lia|].
  destruct (py_int (PyStr.drop_last value)) as [amount|] eqn:Hnum; [|lia].
  assert (Hpos : 0 <= amount).
  { apply (py_int_unsigned (PyStr.drop_last value)); [|assumption].
    intros Hin. apply Hminus. now apply drop_last_chars. }
  unfold seconds, minutes, hours, days, weeks.
  repeat (destruct (Ascii.eqb _ _); [lia|]). lia.
Qed.

End TimeExpressions.

(** ** From conditions to query objects *)

Section QueryBuilding.

Import PQL.

Variable model_fields : list string.
Variable parse_datetime : string -> option Z.

Abbreviation valid := (_is_valid_field model_fields).
Abbreviation step_of := (build_step model_fields parse_datetime).
Abbreviation loop_of := (build_loop model_fields parse_datetime).
Abbreviation build := (_build_q_objects model_fields parse_datetime).

(** A condition counts for [has_valid_conditions] when its field, after
    the alias mapping, is a field of the model. *)
Abbreviation on_valid_field it :=
  (match it with
   | Logical _ => False
   | Condition field _ _ => valid (map_get FIELD_MAP field) = true
   end).

(** The [Q] object built so far names valid fields only, and there is none
    before a condition on a valid field was met. *)
Abbreviation sound_state st :=
  (forall q, q_result st = Some q ->
             Forall (fun f => valid f = true) (q_fields q)
             /\ has_valid_conditions st = true).

Lemma condition_q_fields (field operator : string) (v : value) (q : Q) :
  valid field = true ->
  condition_q field operator v = inr (Some q) ->
  Forall (fun f => valid f = true) (q_fields q).
Proof.
  intros Hf. unfold condition_q.
  assert (Hone : forall l w, Forall (fun f => valid f = true)
                               (q_fields (Leaf field l w))).
  { intros l w. simpl. now repeat constructor. }
  repeat (destruct (String.eqb operator _);
          [intros [= <-]; simpl; now repeat constructor|]).
  destruct (String.eqb operator "CONTAINS").
  { destruct (PyStr.mem field _); intros [= <-]; [|apply Hone].
    simpl. repeat constructor; unfold _is_valid_field; apply orb_true_r. }
  destruct (String.eqb operator "LIKE").
  { destruct v; try discriminate. intros [= <-]. apply Hone. }
  destruct (String.eqb operator "IN"); [|discriminate].
  intros [= <-]. apply Hone.
Qed.

Lemma build_step_sound (now : Z) (st st' : loop_state) (it : item) :
  step_of now st it = inr st' ->
  sound_state st ->
  sound_state st'
  /\ (has_valid_conditions st' = true <->
      has_valid_conditions st = true \/ on_valid_field it).
Proof.
  intros Hstep Hinv. destruct it as [op|field operator v];
    cbn [build_step] in Hstep.
  - injection Hstep as <-. simpl. split; [assumption|tauto].
  - destruct (valid (map_get FIELD_MAP field)) eqn:Hf; cbn [negb] in Hstep;
      cbv iota in Hstep.
    + destruct (condition_q _ _ _) as [ex|[q|]] eqn:Hq; [discriminate| |];
        injection Hstep as <-; cbn [q_result has_valid_conditions];
        (split; [|tauto]).
      * apply condition_q_fields in Hq; [|assumption].
        destruct (q_result st) as [acc|] eqn:Hacc.
        -- destruct (Hinv acc eq_refl) as [Hacc' _].
           destruct (String.eqb _ "AND"); [|destruct (String.eqb _ "OR")];
             intros q0 [= <-]; (split; [|reflexivity]); simpl;
             try assumption; apply Forall_app; now split.
        -- intros q0 [= <-]. now split.
      * intros q0 Hq0. destruct (Hinv q0 Hq0) as [H _]. now split.
    + injection Hstep as <-. split; [assumption|].
      split; [now left|]. intros [H|H]; [assumption|discriminate].
Qed.

Lemma build_loop_sound (now : Z) (l : list item) (st st' : loop_state) :
  loop_of now st l = inr st' ->
  sound_state st ->
  sound_state st'
  /\ (has_valid_conditions st' = true <->
      has_valid_conditions st = true \/ Exists (fun it => on_valid_field it) l).
Proof.
  revert st. induction l as [|it l IH]; intros st; cbn [build_loop].
  - intros [= <-] Hinv. split; [assumption|].
    split; [now left|]. intros [H|H]; [assumption|inversion H].
  - destruct (step_of now st it) as [ex|st1] eqn:Hstep; [discriminate|].
    intros Hloop Hinv.
    destruct (build_step_sound _ _ _ _ Hstep Hinv) as [Hinv1 Hv1].
    destruct (IH _ Hloop Hinv1) as [Hinv' Hv'].
    split; [assumption|]. rewrite Hv', Hv1, Exists_cons. tauto.
Qed.

(** Every field the [Q] object of [_build_q_objects] filters on passes
    [_is_valid_field]: it is a field of the model or a target of the alias
    map; and a [Q] object comes only with [has_valid_conditions] set. *)
Theorem built_query_names_valid_fields (now : Z) (conditions : list item)
    (q : Q) (has_valid : bool) :
  build now conditions = inr (Some q, has_valid) ->
  Forall (fun f => valid f = true) (q_fields q) /\ has_valid = true.
Proof.
  unfold _build_q_objects.
  destruct conditions as [|it l]; [discriminate|].
  destruct (loop_of now _ (it :: l)) as [ex|st] eqn:Hloop; [discriminate|].
  intros [= Hq <-].
  apply build_loop_sound in Hloop as [Hinv _]; [|discriminate].
  now apply Hinv.
Qed.

(** When [_build_q_objects] returns for a list that is not empty,
    [has_valid_conditions] tells whether some condition is on a valid
    field: one is enough, whatever its operator, and with none the flag is
    false. *)
Theorem valid_flag_finds_a_valid_field (now : Z) (conditions : list item)
    (q : option Q) (has_valid : bool) :
  conditions <> [] ->
  build now conditions = inr (q, has_valid) ->
  (has_valid = true <-> Exists (fun it => on_valid_field it) conditions).
Proof.
  unfold _build_q_objects.
  destruct conditions as [|it l]; [congruence|]. intros _.
  destruct (loop_of now _ (it :: l)) as [ex|st] eqn:Hloop; [discriminate|].
  intros [= _ <-].
  apply build_loop_sound in Hloop as [_ Hv]; [|discriminate].
  rewrite Hv. simpl. split; [intros [H|H]; [discriminate|assumption]|now right].
Qed.

End QueryBuilding.

(** ** The executor *)

Section QueryExecution.

Import PQL.

Variable Row : Type.
Variable all_rows : list Row.
Variable q_filter : Q -> list Row -> exn + list Row.
Variable filter_since : Z -> list Row -> list Row.
Variable order_rows : string -> list Row -> list Row.
Variable row_values : Row -> Row.
Variable hunt_groups : string -> list Row -> list Row.
Variable aggregate_groups : string -> list string -> list Row -> list Row.
Variable model_fields : list string.
Variable parse_datetime : string -> option Z.

Hypothesis aggregate_groups_nil : forall g aggs, aggregate_groups g aggs [] = [].

Abbreviation run_search :=
  (_execute_search Row all_rows q_filter order_rows row_values model_fields
     parse_datetime).
Abbreviation run_hunt :=
  (_execute_hunt Row all_rows q_filter hunt_groups model_fields parse_datetime).
Abbreviation run_aggregate :=
  (_execute_aggregate Row all_rows q_filter filter_since aggregate_groups
     model_fields parse_datetime).
Abbreviation valid := (_is_valid_field model_fields).
Abbreviation step_of := (build_step model_fields parse_datetime).
Abbreviation loop_of := (build_loop model_fields parse_datetime).
Abbreviation build := (_build_q_objects model_fields parse_datetime).

(** The operators [_build_q_objects] knows. *)
Abbreviation known_operators :=
  ["="; "!="; ">"; ">="; "<"; "<="; "CONTAINS"; "LIKE"; "IN"].





Lemma map_get_idempotent (field : string) :
  map_get FIELD_MAP (map_get FIELD_MAP field) = map_get FIELD_MAP field.
Proof.
  unfold FIELD_MAP. cbn [map_get].
  repeat match goal with
         | |- context [String.eqb ?k field] =>
             destruct (String.eqb k field) eqn:?; [reflexivity|]
         end.
  cbn [map_get].
  repeat match goal with
         | H : String.eqb ?k field = false |- _ => rewrite H; clear H
         end.
  reflexivity.
Qed.

(** The alias map is applied once and for all: it sends every key to a
    name that it leaves alone and that is a valid field whatever the
    model, and a condition on an alias builds what the condition on the
    name it stands for builds. *)
Theorem aliases_resolve_to_valid_fields (now : Z) (st : loop_state)
    (field operator : string) (v : value) :
  map_get FIELD_MAP (map_get FIELD_MAP field) = map_get FIELD_MAP field
  /\ (List.In field (map fst FIELD_MAP) ->
      valid (map_get FIELD_MAP field) = true)
  /\ step_of now st (Condition field operator v)
     = step_of now st (Condition (map_get FIELD_MAP field) operator v).
Proof.
  split; [apply map_get_idempotent|]. split.
  - intros Hin. unfold _is_valid_field.
    replace (PyStr.mem (map_get FIELD_MAP field) (map snd FIELD_MAP))
      with true; [apply orb_true_r|].
    simpl in Hin.
    repeat (destruct Hin as [<-|Hin]; [reflexivity|]). contradiction.
  - cbn [build_step]. now rewrite map_get_idempotent.
Qed.

Abbreviation run :=
  (execute Row all_rows q_filter filter_since order_rows row_values
     hunt_groups aggregate_groups model_fields parse_datetime).


(** On a field that resolves to [timestamp], a string value that ends in
    one of the unit letters h, m, s, d, w, in either case, is read as a
    time expression: the condition builds what the same condition on the
    instant [parse_time_value] gives for the string builds. *)
Theorem timestamp_strings_are_time_expressions (now : Z) (st : loop_state)
    (field operator s : string) (c : ascii) :
  map_get FIELD_MAP field = "timestamp" ->
  PyStr.last_char s = Some c ->
  List.In (PyStr.lower_char c) ["h"; "m"; "s"; "d"; "w"]%char ->
  step_of now st (Condition field operator (VStr s))
  = step_of now st (Condition field operator (VTime (parse_time_value now s))).
Proof.
  intros Hfield Hlast Hunit. cbn [build_step]. rewrite Hfield.
  simpl String.eqb. cbv iota. cbn [normalize_timestamp]. rewrite Hlast.
  replace (PyStr.contains (String (PyStr.lower_char c) "") "hmsdw") with true;
    [reflexivity|].
  simpl in Hunit.
  destruct Hunit as [<-|[<-|[<-|[<-|[<-|[]]]]]]; reflexivity.
Qed.

(** Conditions are combined in the order they are written, each with the
    connective before it: there is no precedence of AND over OR, so
    [a OR b AND c] is [(a OR b) AND c], and a condition that follows NOT,
    or any connective other than AND and OR, is left out of the query. *)
Theorem conditions_group_to_the_left (now : Z) (f1 f2 f3 l1 l2 : string)
    (v1 v2 v3 : value) :
  let name f := map_get FIELD_MAP f in
  let leaf f v :=
    Leaf (name f) Exact
      (if String.eqb (name f) "timestamp"
       then normalize_timestamp parse_datetime now v else v) in
  let join l a b :=
    if String.eqb l "AND" then And a b
    else if String.eqb l "OR" then Or a b else a in
  valid (name f1) = true -> valid (name f2) = true -> valid (name f3) = true ->
  build now [Condition f1 "=" v1; Logical l1; Condition f2 "=" v2;
             Logical l2; Condition f3 "=" v3]
  = inr (Some (join l2 (join l1 (leaf f1 v1) (leaf f2 v2)) (leaf f3 v3)),
         true).
Proof.
  intros name leaf join H1 H2 H3. subst name leaf join.
  unfold _build_q_objects. cbn [build_loop build_step].
  rewrite H1. cbn [negb condition_q String.eqb]. cbv iota.
  unfold condition_q. simpl (String.eqb "=" "="). cbv iota.
  cbn [build_loop build_step q_result current_logical has_valid_conditions].
  rewrite H2. cbn [negb]. cbv iota.
  cbn [build_loop build_step q_result current_logical has_valid_conditions].
  rewrite H3. cbn [negb]. cbv iota.
  cbn [build_loop build_step q_result current_logical has_valid_conditions].
  destruct (String.eqb l1 "AND"), (String.eqb l1 "OR"),
    (String.eqb l2 "AND"), (String.eqb l2 "OR"); reflexivity.
Qed.

End QueryExecution.

(** ** Runs over the sample store *)

Section QueryRuns.

Import PQL SampleStore.

(** Witness of [integer_literal_is_one_token]: [-24h]. *)
Lemma integer_literal_is_one_token_witness :
  List.In "-" [""; "-"]
  /\ "24" <> ""
  /\ forallb is_digit (list_ascii_of_string "24") = true
  /\ List.In "h" [""; "s"; "m"; "h"; "d"; "w"]
  /\ tokenize "-24h" = [(NUMBER, Some "-24h"); (EOF, None)].
Proof.
  assert (H1 : List.In "-" [""; "-"]) by (right; left; reflexivity).
  assert (H2 : "24" <> "") by discriminate.
  assert (H3 : forallb is_digit (list_ascii_of_string "24") = true)
    by reflexivity.
  assert (H4 : List.In "h" [""; "s"; "m"; "h"; "d"; "w"])
    by (do 3 right; left; reflexivity).
  split; [exact H1|]. split; [exact H2|]. split; [exact H3|].
  split; [exact H4|].
  exact (integer_literal_is_one_token "-" "24" "h" H1 H2 H3 H4).
Defined.

(** Witness of [quoted_literal_is_one_token]: ['Domain Admins']. *)
Lemma quoted_literal_is_one_token_witness :
  List.In "'"%char [double_quote; "'"%char]
  /\ forallb (fun c => negb (Ascii.eqb c "'") && negb (Ascii.eqb c "\"))
       (list_ascii_of_string "Domain Admins") = true
  /\ tokenize "'Domain Admins'" = [(STRING, Some "Domain Admins"); (EOF, None)]
  /\ tokenize "'Domain Admins" = [(STRING, Some "Domain Admins"); (EOF, None)].
Proof.
  assert (H1 : List.In "'"%char [double_quote; "'"%char])
    by (right; left; reflexivity).
  assert (H2 : forallb (fun c => negb (Ascii.eqb c "'")
                                 && negb (Ascii.eqb c "\"))
                 (list_ascii_of_string "Domain Admins") = true)
    by reflexivity.
  split; [exact H1|]. split; [exact H2|].
  exact (quoted_literal_is_one_token "'" "Domain Admins" H1 H2).
Defined.

(** Witness of [parsed_query_shape]:
    [SEARCH WHERE severity = CRITICAL LIMIT 10]. *)
Lemma parsed_query_shape_witness :
  let tokens := tokenize "SEARCH WHERE severity = CRITICAL LIMIT 10" in
  parse Scenario.t0 tokens = inr critical_search
  /\ current_token tokens = (KEYWORD, Some "SEARCH")
  /\ 0 = 0
  /\ List.In "DESC" ["ASC"; "DESC"]
  /\ (@None string = None -> "DESC" = "DESC").
Proof.
  intros tokens.
  assert (Hparse : parse Scenario.t0 tokens = inr critical_search)
    by reflexivity.
  split; [exact Hparse|].
  exact (parsed_query_shape Scenario.t0 tokens critical_search Hparse).
Defined.

(** Witness of [where_clause_alternates]:
    [severity = HIGH OR event_id = 4625 LIMIT 5]. *)
Lemma where_clause_alternates_witness :
  let items := [Condition "severity" "=" (VStr "HIGH"); Logical "OR";
                Condition "event_id" "=" (VInt 4625)] in
  parse_conditions Scenario.t0
    (tokenize "severity = HIGH OR event_id = 4625 LIMIT 5")
  = inr (items, [(KEYWORD, Some "LIMIT"); (NUMBER, Some "5"); (EOF, None)])
  /\ items <> []
  /\ Nat.odd (List.length items) = true
  /\ forall i it,
       items !! i = Some it ->
       match it with
       | Condition _ _ _ => Nat.even i = true
       | Logical _ => Nat.odd i = true
       end.
Proof.
  intros items.
  assert (Hparse : parse_conditions Scenario.t0
                     (tokenize "severity = HIGH OR event_id = 4625 LIMIT 5")
                   = inr (items, [(KEYWORD, Some "LIMIT");
                                  (NUMBER, Some "5"); (EOF, None)]))
    by (vm_compute; reflexivity).
  split; [exact Hparse|].
  exact (where_clause_alternates Scenario.t0 _ _ items Hparse).
Defined.

(** Witness of [unsigned_time_values_are_not_later]: [24h]. *)
Lemma unsigned_time_values_are_not_later_witness :
  ~ List.In "-"%char (list_ascii_of_string "24h")
  /\ parse_time_value Scenario.t0 "24h" = Scenario.t0 - hours 24
  /\ parse_time_value Scenario.t0 "24h" <= Scenario.t0.
Proof.
  assert (H : ~ List.In "-"%char (list_ascii_of_string "24h")).
  { simpl. intros [H|[H|[H|[]]]]; discriminate H. }
  split; [exact H|]. split; [vm_compute; reflexivity|].
  exact (unsigned_time_values_are_not_later Scenario.t0 "24h" H).
Defined.

(** Witness of [built_query_names_valid_fields]: the condition of
    [SEARCH WHERE severity = CRITICAL LIMIT 10]. *)
Lemma built_query_names_valid_fields_witness :
  let q := Leaf "severity" Exact (VStr "CRITICAL") in
  _build_q_objects SECURITY_EVENT_FIELDS no_datetime Scenario.t0
    (conditions_of critical_search) = inr (Some q, true)
  /\ Forall (fun f => _is_valid_field SECURITY_EVENT_FIELDS f = true)
       (q_fields q)
  /\ true = true.
Proof.
  intros q.
  assert (Hbuild : _build_q_objects SECURITY_EVENT_FIELDS no_datetime
                     Scenario.t0 (conditions_of critical_search)
                   = inr (Some q, true)) by (vm_compute; reflexivity).
  split; [exact Hbuild|].
  exact (built_query_names_valid_fields SECURITY_EVENT_FIELDS no_datetime
           Scenario.t0 (conditions_of critical_search) q true Hbuild).
Defined.

(** Witness of [valid_flag_finds_a_valid_field]: the condition of
    [SEARCH WHERE bogus_field = 1]. *)
Lemma valid_flag_finds_a_valid_field_witness :
  conditions_of bogus_search <> []
  /\ _build_q_objects SECURITY_EVENT_FIELDS no_datetime Scenario.t0
       (conditions_of bogus_search) = inr (None, false)
  /\ (false = true
      <-> Exists (fun it =>
                    match it with
                    | Logical _ => False
                    | Condition field _ _ =>
                        _is_valid_field SECURITY_EVENT_FIELDS
                          (map_get FIELD_MAP field) = true
                    end) (conditions_of bogus_search)).
Proof.
  assert (Hne : conditions_of bogus_search <> []) by discriminate.
  assert (Hbuild : _build_q_objects SECURITY_EVENT_FIELDS no_datetime
                     Scenario.t0 (conditions_of bogus_search)
                   = inr (None, false)) by (vm_compute; reflexivity).
  split; [exact Hne|]. split; [exact Hbuild|].
  exact (valid_flag_finds_a_valid_field SECURITY_EVENT_FIELDS no_datetime
           Scenario.t0 (conditions_of bogus_search) None false Hne Hbuild).
Defined.




(** Witness of [timestamp_strings_are_time_expressions]:
    [timestamp > '24h']. *)
Lemma timestamp_strings_are_time_expressions_witness :
  map_get FIELD_MAP "timestamp" = "timestamp"
  /\ PyStr.last_char "24h" = Some "h"%char
  /\ List.In (PyStr.lower_char "h") ["h"; "m"; "s"; "d"; "w"]%char
  /\ _build_q_objects SECURITY_EVENT_FIELDS no_datetime Scenario.t0
       [Condition "timestamp" ">" (VStr "24h")]
     = inr (Some (Leaf "timestamp" Gt (VTime (Scenario.t0 - hours 24))), true)
  /\ forall st,
       build_step SECURITY_EVENT_FIELDS no_datetime Scenario.t0 st
         (Condition "timestamp" ">" (VStr "24h"))
       = build_step SECURITY_EVENT_FIELDS no_datetime Scenario.t0 st
           (Condition "timestamp" ">"
              (VTime (parse_time_value Scenario.t0 "24h"))).
Proof.
  assert (H3 : List.In (PyStr.lower_char "h") ["h"; "m"; "s"; "d"; "w"]%char)
    by (left; reflexivity).
  split; [reflexivity|]. split; [reflexivity|]. split; [exact H3|].
  split; [vm_compute; reflexivity|].
  intros st.
  exact (timestamp_strings_are_time_expressions SECURITY_EVENT_FIELDS
           no_datetime Scenario.t0 st "timestamp" ">" "24h" "h"%char
           eq_refl eq_refl H3).
Defined.

(** Witness of [conditions_group_to_the_left]:
    [severity = LOW OR severity = HIGH AND hostname = dc01] is
    [(severity = LOW OR severity = HIGH) AND hostname = dc01]. *)
Lemma conditions_group_to_the_left_witness :
  _is_valid_field SECURITY_EVENT_FIELDS (map_get FIELD_MAP "severity") = true
  /\ _is_valid_field SECURITY_EVENT_FIELDS (map_get FIELD_MAP "hostname") = true
  /\ _build_q_objects SECURITY_EVENT_FIELDS no_datetime Scenario.t0
       [Condition "severity" "=" (VStr "LOW"); Logical "OR";
        Condition "severity" "=" (VStr "HIGH"); Logical "AND";
        Condition "hostname" "=" (VStr "dc01")]
     = inr (Some (And (Or (Leaf "severity" Exact (VStr "LOW"))
                          (Leaf "severity" Exact (VStr "HIGH")))
                      (Leaf "hostname" Exact (VStr "dc01"))), true).
Proof.
  assert (H1 : _is_valid_field SECURITY_EVENT_FIELDS
                 (map_get FIELD_MAP "severity") = true) by reflexivity.
  assert (H2 : _is_valid_field SECURITY_EVENT_FIELDS
                 (map_get FIELD_MAP "hostname") = true) by reflexivity.
  split; [exact H1|]. split; [exact H2|].
  exact (conditions_group_to_the_left SECURITY_EVENT_FIELDS no_datetime
           Scenario.t0 "severity" "severity" "hostname" "OR" "AND"
           (VStr "LOW") (VStr "HIGH") (VStr "dc01") H1 H1 H2).
Defined.

End QueryRuns.
